(** * Reservation system: hotels, customers, reservations

    A shallow embedding of [reservation_system.py].  The three entity
    classes, the JSON-backed [DataStore] and the [ReservationSystem]
    services are written as functions over an explicit world: the three
    JSON files of the store and a chronological trace of what the program
    did to them and what it logged.

    The Python runtime the module calls into ([json.loads], [json.dumps],
    [repr], [int] on text, [str.strip]) is not part of the repository: it is
    an interface, [PyLib], and every result holds for every instance of it.
    A small reference instance at the end of the definitions runs the model
    on concrete files. *)

From Stdlib Require Import String Ascii ZArith List Bool Lia DecimalString.
From Stdlib Require Import Floats.SpecFloat.
Import ListNotations.

Open Scope string_scope.
Open Scope Z_scope.
Open Scope list_scope.

Set Implicit Arguments.
Set Warnings "-register-all".

(** ** Values handed back by [json.loads] *)

(** A decoded JSON document.  Numbers without fraction or exponent are
    Python ints, the others are floats (binary64, with the infinities and
    NaN that [json.loads] accepts); an object is a dict, kept in insertion
    order, whose keys are distinct. *)
Inductive json : Type :=
| JNull
| JBool (b : bool)
| JInt (n : Z)
| JFloat (f : spec_float)
| JStr (s : string)
| JList (items : list json)
| JDict (fields : list (string * json)).

(** The exceptions that occur in the module. *)
Inductive exn : Type :=
| KeyError (key : string)
| TypeError
| ValueError
| OverflowError
| AttributeError
| RecursionError
| FileNotFoundError
| JSONDecodeError (lineno colno : nat).

(** The three collections of the store, the keys of [DataStore._paths]. *)
Inductive coll : Type := K_hotels | K_customers | K_reservations.

(** ** The Python runtime *)

Class PyLib : Type := {
  (** [json.loads(text)]: the decoded document, or the exception raised. *)
  json_loads : string -> exn + json;
  (** [json.dumps(rows, ensure_ascii=False, indent=2)]. *)
  json_dumps : json -> string;
  (** [str(v)] for a value that is not a str (its [repr]). *)
  repr : json -> string;
  (** [int(s)] for a str: [None] stands for [ValueError]. *)
  int_of_str : string -> option Z;
  (** [s.strip()]. *)
  strip : string -> string
}.

Section Builtins.

Context {L : PyLib}.

(** [str(v)] *)
Definition py_str (v : json) : string :=
  match v with
  | JStr s => s
  | _ => repr v
  end.

(** [int(x)] for a float: truncation towards zero; the infinities raise
    [OverflowError] and NaN raises [ValueError]. *)
Definition int_of_float (f : spec_float) : exn + Z :=
  match f with
  | S754_zero _ => inr 0
  | S754_infinity _ => inl OverflowError
  | S754_nan => inl ValueError
  | S754_finite s m e =>
      let mag := Z.shiftl (Z.pos m) e in
      inr (if s then - mag else mag)
  end.

(** [int(v)] *)
Definition py_int (v : json) : exn + Z :=
  match v with
  | JInt n => inr n
  | JBool b => inr (if b then 1 else 0)
  | JFloat f => int_of_float f
  | JStr s =>
      match int_of_str s with
      | Some n => inr n
      | None => inl ValueError
      end
  | JNull | JList _ | JDict _ => inl TypeError
  end.

Fixpoint lookup (key : string) (fields : list (string * json))
  : option json :=
  match fields with
  | [] => None
  | (k, v) :: rest => if String.eqb k key then Some v else lookup key rest
  end.

(** [data[key]]: [KeyError] on a dict without the key, [TypeError] on
    anything that is not a dict (a list, a str or a number cannot be
    subscripted by a str). *)
Definition getitem (data : json) (key : string) : exn + json :=
  match data with
  | JDict fields =>
      match lookup key fields with
      | Some v => inr v
      | None => inl (KeyError key)
      end
  | _ => inl TypeError
  end.

(** [data.get(key, default)] *)
Definition dict_get (data : json) (key : string) (default : json)
  : exn + json :=
  match data with
  | JDict fields =>
      match lookup key fields with
      | Some v => inr v
      | None => inr default
      end
  | _ => inl AttributeError
  end.

End Builtins.

(** Sequencing of evaluations that may raise: the first exception wins. *)
Definition and_then {A B : Type} (x : exn + A) (k : A -> exn + B) : exn + B :=
  match x with
  | inl e => inl e
  | inr a => k a
  end.

Notation "'try!' x <- e ; k" := (and_then e (fun x => k))
  (at level 10, x name, e at level 100, k at level 200).

(** The clause [except (KeyError, TypeError, ValueError)];
    [json.JSONDecodeError] is a subclass of [ValueError], [OverflowError] is
    not. *)
Definition caught (e : exn) : bool :=
  match e with
  | KeyError _ | TypeError | ValueError | JSONDecodeError _ _ => true
  | OverflowError | AttributeError | RecursionError | FileNotFoundError =>
      false
  end.

(** ** The world: the files of the store and what happened to them *)

(** The calls to [logging.error], one constructor per call site. *)
Inductive log_msg : Type :=
| InvalidHotelRecord (e : exn)
| InvalidCustomerRecord (e : exn)
| InvalidReservationRecord (e : exn)
| MustContainArray (key : coll)
| InvalidJSON (key : coll) (lineno colno : nat)
| TotalRoomsMustBePositive
| CannotDeleteHotel (hotel_id : string)
| HotelNotFound (hotel_id : string)
| CannotDeleteCustomer (customer_id : string)
| CustomerNotFound (customer_id : string)
| RoomsMustBePositive
| NotEnoughRooms (requested available : Z)
| ReservationAlreadyCancelled (reservation_id : string)
| ReservationNotFound (reservation_id : string).

(** What the program does to the outside, in the order it does it:
    [path.exists()], [path.read_text()], [path.write_text(text)] and
    [logging.error(...)]. *)
Inductive event : Type :=
| EvExists (key : coll)
| EvRead (key : coll)
| EvWrite (key : coll) (text : string)
| EvLog (m : log_msg).

(** The content of [hotels.json], [customers.json] and
    [reservations.json] ([None]: the file does not exist), and the trace. *)
Record world : Type := mkWorld {
  hotels_json : option string;
  customers_json : option string;
  reservations_json : option string;
  trace : list event
}.

Definition file (key : coll) (w : world) : option string :=
  match key with
  | K_hotels => hotels_json w
  | K_customers => customers_json w
  | K_reservations => reservations_json w
  end.

Definition emit (e : event) (w : world) : world :=
  mkWorld (hotels_json w) (customers_json w) (reservations_json w)
          (trace w ++ [e]).

Definition store (key : coll) (text : string) (w : world) : world :=
  match key with
  | K_hotels =>
      mkWorld (Some text) (customers_json w) (reservations_json w) (trace w)
  | K_customers =>
      mkWorld (hotels_json w) (Some text) (reservations_json w) (trace w)
  | K_reservations =>
      mkWorld (hotels_json w) (customers_json w) (Some text) (trace w)
  end.

(** A call returns a value or raises; either way the world moves on. *)
Inductive result (A : Type) : Type :=
| Ok (a : A)
| Raise (e : exn).

Arguments Ok {A} a.
Arguments Raise {A} e.

Definition M (A : Type) : Type := world -> result A * world.

Definition ret {A : Type} (a : A) : M A := fun w => (Ok a, w).

Definition raise {A : Type} (e : exn) : M A := fun w => (Raise e, w).

Definition bind {A B : Type} (m : M A) (k : A -> M B) : M B :=
  fun w =>
    match m w with
    | (Ok a, w') => k a w'
    | (Raise e, w') => (Raise e, w')
    end.

Notation "x <- m ;; k" := (bind m (fun x => k))
  (at level 61, m at next level, right associativity).
Notation "' pat <- m ;; k" := (bind m (fun x => match x with pat => k end))
  (at level 61, pat pattern, m at next level, right associativity).
Notation "m ;; k" := (bind m (fun _ => k))
  (at level 61, right associativity).

Definition logging_error (m : log_msg) : M unit :=
  fun w => (Ok tt, emit (EvLog m) w).

Definition path_exists (key : coll) : M bool :=
  fun w =>
    (Ok (match file key w with Some _ => true | None => false end),
     emit (EvExists key) w).

(** [path.read_text(encoding='utf-8')].  A file is held as the text it
    decodes to: bytes that are not UTF-8, on which the source raises
    [UnicodeDecodeError], have no counterpart here. *)
Definition read_text (key : coll) : M string :=
  fun w =>
    match file key w with
    | Some text => (Ok text, emit (EvRead key) w)
    | None => (Raise FileNotFoundError, emit (EvRead key) w)
    end.

(** [path.write_text(text, encoding='utf-8')].  Text is taken to encode:
    a str with a lone surrogate, on which the source raises
    [UnicodeEncodeError] after it has truncated the file, has no
    counterpart here. *)
Definition write_text (key : coll) (text : string) : M unit :=
  fun w => (Ok tt, emit (EvWrite key text) (store key text w)).

(** ** Domain models *)

(** The frozen dataclasses.  [to_dict] is [asdict]: the fields in their
    declaration order.  [from_dict] builds the keyword arguments from left to
    right: [build] is the body of the [try] block, the entity or the
    exception it raises; the handler turns the three caught exceptions into
    an error message and [None], and lets any other through. *)

Module Hotel.

Record t : Type := mk {
  hotel_id : string;
  name : string;
  city : string;
  total_rooms : Z
}.

Definition to_dict (h : t) : json :=
  JDict [("hotel_id", JStr (hotel_id h));
         ("name", JStr (name h));
         ("city", JStr (city h));
         ("total_rooms", JInt (total_rooms h))].

Section FromDict.
Context {L : PyLib}.

Definition build (data : json) : exn + t :=
  try! i <- getitem data "hotel_id";
  try! n <- getitem data "name";
  try! c <- getitem data "city";
  try! r <- getitem data "total_rooms";
  try! rooms <- py_int r;
  inr (mk (py_str i) (py_str n) (py_str c) rooms).

Definition from_dict (data : json) : M (option t) :=
  match build data with
  | inr h => ret (Some h)
  | inl exc =>
      if caught exc
      then logging_error (InvalidHotelRecord exc) ;; ret None
      else raise exc
  end.
End FromDict.

End Hotel.

Module Customer.

Record t : Type := mk {
  customer_id : string;
  name : string;
  email : string
}.

Definition to_dict (c : t) : json :=
  JDict [("customer_id", JStr (customer_id c));
         ("name", JStr (name c));
         ("email", JStr (email c))].

Section FromDict.
Context {L : PyLib}.

Definition build (data : json) : exn + t :=
  try! i <- getitem data "customer_id";
  try! n <- getitem data "name";
  try! e <- getitem data "email";
  inr (mk (py_str i) (py_str n) (py_str e)).

Definition from_dict (data : json) : M (option t) :=
  match build data with
  | inr c => ret (Some c)
  | inl exc =>
      if caught exc
      then logging_error (InvalidCustomerRecord exc) ;; ret None
      else raise exc
  end.
End FromDict.

End Customer.

Module Reservation.

(** The fields have their annotated types.  [rooms] is an int proper: a
    bool, which Python takes where an int is expected and which
    [create_reservation] stores as it is given, has no counterpart in the
    record. *)
Record t : Type := mk {
  reservation_id : string;
  hotel_id : string;
  customer_id : string;
  rooms : Z;
  status : string
}.

Definition to_dict (r : t) : json :=
  JDict [("reservation_id", JStr (reservation_id r));
         ("hotel_id", JStr (hotel_id r));
         ("customer_id", JStr (customer_id r));
         ("rooms", JInt (rooms r));
         ("status", JStr (status r))].

Section FromDict.
Context {L : PyLib}.

Definition build (data : json) : exn + t :=
  try! i <- getitem data "reservation_id";
  try! h <- getitem data "hotel_id";
  try! c <- getitem data "customer_id";
  try! r <- getitem data "rooms";
  try! n <- py_int r;
  try! s <- dict_get data "status" (JStr "active");
  inr (mk (py_str i) (py_str h) (py_str c) n (py_str s)).

Definition from_dict (data : json) : M (option t) :=
  match build data with
  | inr r => ret (Some r)
  | inl exc =>
      if caught exc
      then logging_error (InvalidReservationRecord exc) ;; ret None
      else raise exc
  end.
End FromDict.

End Reservation.

(** ** Persistence *)

Module DataStore.

Section Methods.
Context {L : PyLib}.

(** Load a JSON array from the file for [key]; [[]] on error. *)
Definition _load_raw (key : coll) : M (list json) :=
  present <- path_exists key ;;
  if negb present then ret []
  else
    text <- read_text key ;;
    match json_loads text with
    | inr (JList rows) => ret rows
    | inr _ => logging_error (MustContainArray key) ;; ret []
    | inl (JSONDecodeError lineno colno) =>
        logging_error (InvalidJSON key lineno colno) ;; ret []
    | inl exc => raise exc
    end.

(** Write [rows] as a JSON array to the file for [key]. *)
Definition _save_raw (key : coll) (rows : list json) : M unit :=
  let text := String.append (json_dumps (JList rows)) "" in
  write_text key text.

(** The loop shared by the three loaders: [from_dict] on every row,
    appending the entities it returns. *)
Fixpoint collect {A : Type} (from_dict : json -> M (option A))
         (rows : list json) (acc : list A) : M (list A) :=
  match rows with
  | [] => ret acc
  | row :: rest =>
      obj <- from_dict row ;;
      match obj with
      | Some x => collect from_dict rest (acc ++ [x])
      | None => collect from_dict rest acc
      end
  end.

Definition load_hotels : M (list Hotel.t) :=
  rows <- _load_raw K_hotels ;; collect Hotel.from_dict rows [].

Definition save_hotels (hotels : list Hotel.t) : M unit :=
  _save_raw K_hotels (map Hotel.to_dict hotels).

Definition load_customers : M (list Customer.t) :=
  rows <- _load_raw K_customers ;; collect Customer.from_dict rows [].

Definition save_customers (customers : list Customer.t) : M unit :=
  _save_raw K_customers (map Customer.to_dict customers).

Definition load_reservations : M (list Reservation.t) :=
  rows <- _load_raw K_reservations ;;
  collect Reservation.from_dict rows [].

Definition save_reservations (reservations : list Reservation.t)
  : M unit :=
  _save_raw K_reservations (map Reservation.to_dict reservations).

End Methods.

End DataStore.

(** ** Services *)

Module ReservationSystem.

Definition Aggregate : Type :=
  (list Hotel.t * list Customer.t * list Reservation.t)%type.

(** The condition of the generator in [delete_hotel] and in
    [_hotel_available_rooms]. *)
Definition active_for_hotel (hotel_id : string) (r : Reservation.t) : bool :=
  String.eqb (Reservation.hotel_id r) hotel_id
  && String.eqb (Reservation.status r) "active".

(** The condition of the generator in [delete_customer]. *)
Definition active_for_customer (customer_id : string) (r : Reservation.t)
  : bool :=
  String.eqb (Reservation.customer_id r) customer_id
  && String.eqb (Reservation.status r) "active".

(** [sum(gen)]: the accumulator starts at 0 and takes the items from left
    to right. *)
Definition sum (items : list Z) : Z := fold_left Z.add items 0.

(** Remaining rooms for [hotel] among active reservations. *)
Definition _hotel_available_rooms (hotel : Hotel.t)
           (reservations : list Reservation.t) : Z :=
  let used :=
    sum (map Reservation.rooms
             (filter (active_for_hotel (Hotel.hotel_id hotel))
                     reservations)) in
  Hotel.total_rooms hotel - used.

(** The reservation that [cancel_reservation] puts in place of [r]. *)
Definition cancelled (r : Reservation.t) : Reservation.t :=
  Reservation.mk (Reservation.reservation_id r) (Reservation.hotel_id r)
                 (Reservation.customer_id r) (Reservation.rooms r)
                 "cancelled".

Section Methods.
Context {L : PyLib}.

Definition _load_all : M Aggregate :=
  hotels <- DataStore.load_hotels ;;
  customers <- DataStore.load_customers ;;
  reservations <- DataStore.load_reservations ;;
  ret (hotels, customers, reservations).

Definition _save_all (hotels : list Hotel.t)
           (customers : list Customer.t)
           (reservations : list Reservation.t) : M unit :=
  DataStore.save_hotels hotels ;;
  DataStore.save_customers customers ;;
  DataStore.save_reservations reservations.

(** [uuid4] is the text of the identifier that [uuid.uuid4()] draws. *)
Definition create_hotel (name city : string) (total_rooms : Z)
           (uuid4 : string) : M Hotel.t :=
  if total_rooms <=? 0 then raise ValueError
  else
    '(hotels, customers, reservations) <- _load_all ;;
    let new_hotel :=
      Hotel.mk uuid4 (strip name) (strip city) total_rooms in
    let hotels := hotels ++ [new_hotel] in
    _save_all hotels customers reservations ;;
    ret new_hotel.

Definition delete_hotel (hotel_id : string) : M bool :=
  '(hotels, customers, reservations) <- _load_all ;;
  if existsb (active_for_hotel hotel_id) reservations
  then logging_error (CannotDeleteHotel hotel_id) ;; ret false
  else
    let new_hotels :=
      filter (fun h => negb (String.eqb (Hotel.hotel_id h) hotel_id))
             hotels in
    if Nat.eqb (length new_hotels) (length hotels)
    then logging_error (HotelNotFound hotel_id) ;; ret false
    else _save_all new_hotels customers reservations ;; ret true.

Definition create_customer (name email : string) (uuid4 : string)
  : M Customer.t :=
  '(hotels, customers, reservations) <- _load_all ;;
  let new_customer := Customer.mk uuid4 (strip name) (strip email) in
  let customers := customers ++ [new_customer] in
  _save_all hotels customers reservations ;;
  ret new_customer.

Definition delete_customer (customer_id : string) : M bool :=
  '(hotels, customers, reservations) <- _load_all ;;
  if existsb (active_for_customer customer_id) reservations
  then logging_error (CannotDeleteCustomer customer_id) ;; ret false
  else
    let new_customers :=
      filter
        (fun c => negb (String.eqb (Customer.customer_id c) customer_id))
        customers in
    if Nat.eqb (length new_customers) (length customers)
    then logging_error (CustomerNotFound customer_id) ;; ret false
    else _save_all hotels new_customers reservations ;; ret true.

Definition create_reservation (hotel_id customer_id : string) (rooms : Z)
           (uuid4 : string) : M (option Reservation.t) :=
  if rooms <=? 0 then logging_error RoomsMustBePositive ;; ret None
  else
    '(hotels, customers, reservations) <- _load_all ;;
    match find (fun h => String.eqb (Hotel.hotel_id h) hotel_id) hotels
    with
    | None => logging_error (HotelNotFound hotel_id) ;; ret None
    | Some hotel =>
        match
          find (fun c => String.eqb (Customer.customer_id c) customer_id)
               customers
        with
        | None => logging_error (CustomerNotFound customer_id) ;; ret None
        | Some customer =>
            let available := _hotel_available_rooms hotel reservations in
            if available <? rooms
            then logging_error (NotEnoughRooms rooms available) ;;
                 ret None
            else
              let res :=
                Reservation.mk uuid4 hotel_id customer_id rooms "active"
              in
              let reservations := reservations ++ [res] in
              _save_all hotels customers reservations ;;
              ret (Some res)
        end
    end.

(** The loop of [cancel_reservation], with its two variables. *)
Fixpoint cancel_loop (reservation_id : string)
         (reservations updated : list Reservation.t) (found : bool)
  : M (list Reservation.t * bool) :=
  match reservations with
  | [] => ret (updated, found)
  | r :: rest =>
      if String.eqb (Reservation.reservation_id r) reservation_id
      then
        if String.eqb (Reservation.status r) "cancelled"
        then
          logging_error (ReservationAlreadyCancelled reservation_id) ;;
          cancel_loop reservation_id rest (updated ++ [r]) true
        else
          cancel_loop reservation_id rest (updated ++ [cancelled r]) true
      else cancel_loop reservation_id rest (updated ++ [r]) found
  end.

Definition cancel_reservation (reservation_id : string) : M bool :=
  '(hotels, customers, reservations) <- _load_all ;;
  '(updated, found) <- cancel_loop reservation_id reservations [] false ;;
  if negb found
  then logging_error (ReservationNotFound reservation_id) ;; ret false
  else _save_all hotels customers updated ;; ret true.

(** The loop of [get_hotel]: the first hotel with the identifier. *)
Fixpoint get_hotel_loop (hotel_id : string) (hotels : list Hotel.t)
  : option Hotel.t :=
  match hotels with
  | [] => None
  | h :: rest =>
      if String.eqb (Hotel.hotel_id h) hotel_id then Some h
      else get_hotel_loop hotel_id rest
  end.

Definition get_hotel (hotel_id : string) : M (option Hotel.t) :=
  hotels <- DataStore.load_hotels ;;
  match get_hotel_loop hotel_id hotels with
  | Some h => ret (Some h)
  | None => logging_error (HotelNotFound hotel_id) ;; ret None
  end.

(** The loop of [modify_hotel], with its two variables; [None] is the
    [return False] from inside the loop.  The keyword arguments are
    [None] when they are left out. *)
Fixpoint modify_hotel_loop (hotel_id : string) (name city : option string)
         (total_rooms : option Z) (hotels new_hotels : list Hotel.t)
         (found : bool) : M (option (list Hotel.t * bool)) :=
  match hotels with
  | [] => ret (Some (new_hotels, found))
  | h :: rest =>
      if negb (String.eqb (Hotel.hotel_id h) hotel_id)
      then modify_hotel_loop hotel_id name city total_rooms rest
                             (new_hotels ++ [h]) found
      else
        let new_rooms :=
          match total_rooms with
          | None => Hotel.total_rooms h
          | Some n => n
          end in
        if new_rooms <=? 0
        then logging_error TotalRoomsMustBePositive ;; ret None
        else
          let updated :=
            Hotel.mk (Hotel.hotel_id h)
                     (match name with
                      | None => Hotel.name h
                      | Some n => strip n
                      end)
                     (match city with
                      | None => Hotel.city h
                      | Some c => strip c
                      end)
                     new_rooms in
          modify_hotel_loop hotel_id name city total_rooms rest
                            (new_hotels ++ [updated]) true
  end.

Definition modify_hotel (hotel_id : string) (name city : option string)
           (total_rooms : option Z) : M bool :=
  '(hotels, customers, reservations) <- _load_all ;;
  looped <- modify_hotel_loop hotel_id name city total_rooms hotels [] false ;;
  match looped with
  | None => ret false
  | Some (new_hotels, found) =>
      if negb found
      then logging_error (HotelNotFound hotel_id) ;; ret false
      else _save_all new_hotels customers reservations ;; ret true
  end.

(** The loop of [get_customer]. *)
Fixpoint get_customer_loop (customer_id : string)
         (customers : list Customer.t) : option Customer.t :=
  match customers with
  | [] => None
  | c :: rest =>
      if String.eqb (Customer.customer_id c) customer_id then Some c
      else get_customer_loop customer_id rest
  end.

Definition get_customer (customer_id : string) : M (option Customer.t) :=
  customers <- DataStore.load_customers ;;
  match get_customer_loop customer_id customers with
  | Some c => ret (Some c)
  | None => logging_error (CustomerNotFound customer_id) ;; ret None
  end.

(** The loop of [modify_customer], with its two variables. *)
Fixpoint modify_customer_loop (customer_id : string)
         (name email : option string)
         (customers new_customers : list Customer.t) (found : bool)
  : list Customer.t * bool :=
  match customers with
  | [] => (new_customers, found)
  | c :: rest =>
      if negb (String.eqb (Customer.customer_id c) customer_id)
      then modify_customer_loop customer_id name email rest
                                (new_customers ++ [c]) found
      else
        let updated :=
          Customer.mk (Customer.customer_id c)
                      (match name with
                       | None => Customer.name c
                       | Some n => strip n
                       end)
                      (match email with
                       | None => Customer.email c
                       | Some e => strip e
                       end) in
        modify_customer_loop customer_id name email rest
                             (new_customers ++ [updated]) true
  end.

Definition modify_customer (customer_id : string)
           (name email : option string) : M bool :=
  '(hotels, customers, reservations) <- _load_all ;;
  let '(new_customers, found) :=
    modify_customer_loop customer_id name email customers [] false in
  if negb found
  then logging_error (CustomerNotFound customer_id) ;; ret false
  else _save_all hotels new_customers reservations ;; ret true.

(** An int in an f-string: its decimal digits, with a minus sign when it is
    negative. *)
Definition format_int (n : Z) : string := NilZero.string_of_int (Z.to_int n).

(** The em dash of the summary, U+2014, in UTF-8. *)
Definition em_dash : string :=
  String (ascii_of_nat 226)
         (String (ascii_of_nat 128) (String (ascii_of_nat 148) EmptyString)).

Definition hotel_info (hotel_id : string) : M (option string) :=
  '(hotels, _, reservations) <- _load_all ;;
  match find (fun h => String.eqb (Hotel.hotel_id h) hotel_id) hotels with
  | None => logging_error (HotelNotFound hotel_id) ;; ret None
  | Some hotel =>
      let available := _hotel_available_rooms hotel reservations in
      ret (Some
             (String.append "Hotel '"
             (String.append (Hotel.name hotel)
             (String.append "' in "
             (String.append (Hotel.city hotel)
             (String.append " "
             (String.append em_dash
             (String.append " total: "
             (String.append (format_int (Hotel.total_rooms hotel))
             (String.append ", available: "
                            (format_int available)))))))))))
  end.

Definition customer_info (customer_id : string) : M (option string) :=
  customers <- DataStore.load_customers ;;
  match
    find (fun c => String.eqb (Customer.customer_id c) customer_id) customers
  with
  | None => logging_error (CustomerNotFound customer_id) ;; ret None
  | Some customer =>
      ret (Some
             (String.append "Customer '"
             (String.append (Customer.name customer)
             (String.append "' <"
             (String.append (Customer.email customer) ">")))))
  end.

End Methods.

End ReservationSystem.

(** ** A reference instance of the runtime

    Enough of CPython's [json], [repr], [int] and [str.strip] to run the
    model on concrete files: JSON text in ASCII, as [json.dumps] with
    [indent=2] lays it out and as [json.loads] reads it, including the
    constants [NaN], [Infinity] and [-Infinity] and numbers that overflow
    to an infinity.  Text is a string of bytes: a [\u] escape above 007F is
    stored in UTF-8, without pairing surrogates, and the [repr] of a float
    with a fractional part is that of its integer part.  The general
    results hold for every instance; this one runs the program on the
    example stores. *)

Module RefPy.

Definition code (c : ascii) : Z := Z.of_nat (nat_of_ascii c).

Definition chr (n : Z) : ascii := ascii_of_nat (Z.to_nat n).

(** The double quote. *)
Definition dquote : ascii := chr 34.

Definition is_json_ws (c : ascii) : bool :=
  let n := code c in
  (n =? 32) || (n =? 9) || (n =? 10) || (n =? 13).

Fixpoint skip_ws (s : string) : string :=
  match s with
  | String c rest => if is_json_ws c then skip_ws rest else s
  | EmptyString => s
  end.

Definition digit_of (c : ascii) : option Z :=
  let n := code c in
  if (48 <=? n) && (n <=? 57) then Some (n - 48) else None.

Definition hex_of (c : ascii) : option Z :=
  let n := code c in
  if (48 <=? n) && (n <=? 57) then Some (n - 48)
  else if (97 <=? n) && (n <=? 102) then Some (n - 87)
  else if (65 <=? n) && (n <=? 70) then Some (n - 55)
  else None.

(** The longest prefix of decimal digits, read as a number, with the
    count of digits. *)
Fixpoint digits (s : string) (acc : Z) (count : Z) : Z * Z * string :=
  match s with
  | String c rest =>
      match digit_of c with
      | Some d => digits rest (10 * acc + d) (count + 1)
      | None => (acc, count, s)
      end
  | EmptyString => (acc, count, s)
  end.

Fixpoint drop_prefix (p s : string) : option string :=
  match p with
  | EmptyString => Some s
  | String a p' =>
      match s with
      | String b s' => if Ascii.eqb a b then drop_prefix p' s' else None
      | EmptyString => None
      end
  end.

(** [float(text)] for the decimal [m * 10^k], rounded to nearest even. *)
Definition float_of_decimal (neg : bool) (m k : Z) : spec_float :=
  if m =? 0 then S754_zero neg
  else if 0 <=? k
  then binary_normalize 53 1024 ((if neg then - m else m) * 10 ^ k) 0 neg
  else SFdiv 53 1024 (S754_finite neg (Z.to_pos m) 0)
                     (S754_finite false (Z.to_pos (10 ^ (- k))) 0).

(** A number, from its first character (a digit or the minus sign). *)
Definition scan_number (s : string) : string + json * string :=
  let '(neg, s1) :=
    match s with
    | String "-" rest => (true, rest)
    | _ => (false, s)
    end in
  let int_part :=
    match s1 with
    | String "0" rest => Some (0, 1, rest)
    | _ => let '(n, count, rest) := digits s1 0 0 in
           if count =? 0 then None else Some (n, count, rest)
    end in
  match int_part with
  | None =>
      match (if neg then drop_prefix "Infinity" s1 else None) with
      | Some rest => inr (JFloat (S754_infinity true), rest)
      | None => inl s
      end
  | Some (n, _, s2) =>
      let '(m, fcount, s3) :=
        match s2 with
        | String "." rest =>
            let '(m, count, rest') := digits rest n 0 in
            if count =? 0 then (n, 0, s2) else (m, count, rest')
        | _ => (n, 0, s2)
        end in
      let exponent :=
        match s3 with
        | String c rest =>
            if Ascii.eqb c "e" || Ascii.eqb c "E"
            then
              let '(eneg, rest1) :=
                match rest with
                | String "-" r => (true, r)
                | String "+" r => (false, r)
                | _ => (false, rest)
                end in
              let '(e, count, rest2) := digits rest1 0 0 in
              if count =? 0 then None
              else Some (if eneg then - e else e, rest2)
            else None
        | EmptyString => None
        end in
      match exponent with
      | Some (e, s4) => inr (JFloat (float_of_decimal neg m (e - fcount)), s4)
      | None =>
          if fcount =? 0 then inr (JInt (if neg then - n else n), s3)
          else inr (JFloat (float_of_decimal neg m (- fcount)), s3)
      end
  end.

(** The UTF-8 bytes of a code point of the basic plane. *)
Definition utf8 (n : Z) (tail : string) : string :=
  if n <? 128 then String (chr n) tail
  else if n <? 2048
  then String (chr (192 + n / 64)) (String (chr (128 + n mod 64)) tail)
  else String (chr (224 + n / 4096))
         (String (chr (128 + (n / 64) mod 64))
            (String (chr (128 + n mod 64)) tail)).

(** The body of a string literal, after the opening quote. *)
Fixpoint scan_string (s : string) : string + string * string :=
  match s with
  | EmptyString => inl s
  | String c rest =>
      if Ascii.eqb c dquote then inr (EmptyString, rest)
      else if code c =? 92 then
        match rest with
        | String e rest' =>
            let plain (b : Z) :=
              match scan_string rest' with
              | inr (text, r) => inr (String (chr b) text, r)
              | inl r => inl r
              end in
            match code e with
            | 34 => plain 34
            | 92 => plain 92
            | 47 => plain 47
            | 98 => plain 8
            | 102 => plain 12
            | 110 => plain 10
            | 114 => plain 13
            | 116 => plain 9
            | 117 =>
                match rest' with
                | String h1 (String h2 (String h3 (String h4 rest''))) =>
                    match hex_of h1, hex_of h2, hex_of h3, hex_of h4 with
                    | Some a, Some b, Some c', Some d =>
                        match scan_string rest'' with
                        | inr (text, r) =>
                            inr (utf8 (4096 * a + 256 * b + 16 * c' + d)
                                      text, r)
                        | inl r => inl r
                        end
                    | _, _, _, _ => inl rest
                    end
                | _ => inl rest
                end
            | _ => inl rest
            end
        | EmptyString => inl s
        end
      else if code c <? 32 then inl s
      else
        match scan_string rest with
        | inr (text, r) => inr (String c text, r)
        | inl r => inl r
        end
  end.

(** [d[key] = v] on a dict kept in insertion order. *)
Fixpoint dict_set (key : string) (v : json) (fields : list (string * json))
  : list (string * json) :=
  match fields with
  | [] => [(key, v)]
  | (k, old) :: rest =>
      if String.eqb k key then (k, v) :: rest
      else (k, old) :: dict_set key v rest
  end.

(** The scanner: a value, the items of an array after the first, the
    members of an object.  [fuel] bounds the number of nested calls; the
    input is at the first character of what is scanned.  On failure the
    rest of the input from the offending character is returned. *)
Fixpoint scan_value (fuel : nat) (s : string) : string + json * string :=
  match fuel with
  | O => inl s
  | S fuel' =>
      match s with
      | EmptyString => inl s
      | String c rest =>
          if Ascii.eqb c dquote then
            match scan_string rest with
            | inr (text, r) => inr (JStr text, r)
            | inl r => inl r
            end
          else if Ascii.eqb c "[" then
            let rest := skip_ws rest in
            match rest with
            | String "]" r => inr (JList [], r)
            | _ =>
                match scan_items fuel' rest with
                | inr (items, r) => inr (JList items, r)
                | inl r => inl r
                end
            end
          else if Ascii.eqb c "{" then
            let rest := skip_ws rest in
            match rest with
            | String "}" r => inr (JDict [], r)
            | _ =>
                match scan_members fuel' rest [] with
                | inr (fields, r) => inr (JDict fields, r)
                | inl r => inl r
                end
            end
          else
            match drop_prefix "null" s with
            | Some r => inr (JNull, r)
            | None =>
            match drop_prefix "true" s with
            | Some r => inr (JBool true, r)
            | None =>
            match drop_prefix "false" s with
            | Some r => inr (JBool false, r)
            | None =>
            match drop_prefix "NaN" s with
            | Some r => inr (JFloat S754_nan, r)
            | None =>
            match drop_prefix "Infinity" s with
            | Some r => inr (JFloat (S754_infinity false), r)
            | None => scan_number s
            end end end end end
      end
  end

with scan_items (fuel : nat) (s : string) : string + list json * string :=
  match fuel with
  | O => inl s
  | S fuel' =>
      match scan_value fuel' s with
      | inl r => inl r
      | inr (v, rest) =>
          let rest := skip_ws rest in
          match rest with
          | String "," r =>
              match scan_items fuel' (skip_ws r) with
              | inr (items, r') => inr (v :: items, r')
              | inl r' => inl r'
              end
          | String "]" r => inr ([v], r)
          | _ => inl rest
          end
      end
  end

with scan_members (fuel : nat) (s : string) (acc : list (string * json))
  : string + list (string * json) * string :=
  match fuel with
  | O => inl s
  | S fuel' =>
      match s with
      | EmptyString => inl s
      | String c rest =>
          if negb (Ascii.eqb c dquote) then inl s
          else
            match scan_string rest with
            | inl r => inl r
            | inr (key, rest) =>
                match skip_ws rest with
                | String ":" rest =>
                    match scan_value fuel' (skip_ws rest) with
                    | inl r => inl r
                    | inr (v, rest) =>
                        let acc := dict_set key v acc in
                        let rest := skip_ws rest in
                        match rest with
                        | String "," r =>
                            scan_members fuel' (skip_ws r) acc
                        | String "}" r => inr (acc, r)
                        | _ => inl rest
                        end
                    end
                | r => inl r
                end
            end
      end
  end.

(** Line and column (from 1) of the character at [offset] of [doc]. *)
Fixpoint position (doc : string) (offset : nat) (lineno colno : nat)
  : nat * nat :=
  match offset, doc with
  | S n, String c rest =>
      if Ascii.eqb c (chr 10) then position rest n (S lineno) 1%nat
      else position rest n lineno (S colno)
  | _, _ => (lineno, colno)
  end.

Definition decode_error (doc rest : string) : exn :=
  let '(lineno, colno) :=
    position doc (String.length doc - String.length rest) 1%nat 1%nat in
  JSONDecodeError lineno colno.

(** [json.loads] *)
Definition loads (doc : string) : exn + json :=
  match scan_value (2 * String.length doc + 4) (skip_ws doc) with
  | inl rest => inl (decode_error doc rest)
  | inr (v, rest) =>
      match skip_ws rest with
      | EmptyString => inr v
      | extra => inl (decode_error doc extra)
      end
  end.

Definition quoted (s : string) : string :=
  String dquote (String.append s (String dquote EmptyString)).

Definition hex_digit (n : Z) : ascii :=
  if n <? 10 then chr (48 + n) else chr (87 + n).

Definition backslash (c : ascii) (tail : string) : string :=
  String (chr 92) (String c tail).

(** The escapes of [json.dumps] with [ensure_ascii=False]. *)
Fixpoint escape (s : string) : string :=
  match s with
  | EmptyString => EmptyString
  | String c rest =>
      let n := code c in
      let tail := escape rest in
      if n =? 34 then backslash dquote tail
      else if n =? 92 then backslash (chr 92) tail
      else if n =? 10 then backslash "n" tail
      else if n =? 13 then backslash "r" tail
      else if n =? 9 then backslash "t" tail
      else if n =? 8 then backslash "b" tail
      else if n =? 12 then backslash "f" tail
      else if n <? 32
      then backslash "u"
             (String "0" (String "0"
                (String (hex_digit (n / 16))
                   (String (hex_digit (n mod 16)) tail))))
      else String c tail
  end.

Definition decimal (n : Z) : string := NilZero.string_of_int (Z.to_int n).

Definition float_text (inf nan : string) (f : spec_float) : string :=
  match f with
  | S754_zero s => if s then "-0.0" else "0.0"
  | S754_infinity s => if s then String.append "-" inf else inf
  | S754_nan => nan
  | S754_finite s m e =>
      String.append (if s then "-" else "")
        (String.append (decimal (Z.shiftl (Z.pos m) e)) ".0")
  end.

Fixpoint spaces (n : nat) : string :=
  match n with
  | O => EmptyString
  | S n' => String " " (spaces n')
  end.

Definition newline (level : nat) : string :=
  String (chr 10) (spaces (2 * level)).

(** [json.dumps] at an indentation level. *)
Fixpoint dumps_at (level : nat) (v : json) : string :=
  match v with
  | JNull => "null"
  | JBool b => if b then "true" else "false"
  | JInt n => decimal n
  | JFloat f => float_text "Infinity" "NaN" f
  | JStr s => quoted (escape s)
  | JList items =>
      match items with
      | [] => "[]"
      | _ =>
          String.append "["
            (String.append
               ((fix each (first : bool) (l : list json) : string :=
                   match l with
                   | [] => EmptyString
                   | x :: l' =>
                       String.append (if first then "" else ",")
                         (String.append (newline (S level))
                            (String.append (dumps_at (S level) x)
                                           (each false l')))
                   end) true items)
               (String.append (newline level) "]"))
      end
  | JDict fields =>
      match fields with
      | [] => "{}"
      | _ =>
          String.append "{"
            (String.append
               ((fix each (first : bool) (l : list (string * json))
                   : string :=
                   match l with
                   | [] => EmptyString
                   | (k, x) :: l' =>
                       String.append (if first then "" else ",")
                         (String.append (newline (S level))
                            (String.append (quoted (escape k))
                               (String.append ": "
                                  (String.append (dumps_at (S level) x)
                                                 (each false l')))))
                   end) true fields)
               (String.append (newline level) "}"))
      end
  end.

Definition dumps (v : json) : string := dumps_at 0 v.

(** The escapes of [repr] on a str, for the quote character [q]. *)
Fixpoint repr_escape (q : Z) (s : string) : string :=
  match s with
  | EmptyString => EmptyString
  | String c rest =>
      let n := code c in
      let tail := repr_escape q rest in
      if (n =? q) || (n =? 92) then backslash c tail
      else if n =? 10 then backslash "n" tail
      else if n =? 13 then backslash "r" tail
      else if n =? 9 then backslash "t" tail
      else if (n <? 32) || (n =? 127)
      then backslash "x"
             (String (hex_digit (n / 16))
                (String (hex_digit (n mod 16)) tail))
      else String c tail
  end.

Fixpoint contains (c : Z) (s : string) : bool :=
  match s with
  | EmptyString => false
  | String a rest => (code a =? c) || contains c rest
  end.

Definition repr_str (s : string) : string :=
  let q := if contains 39 s && negb (contains 34 s) then 34 else 39 in
  String (chr q)
    (String.append (repr_escape q s) (String (chr q) EmptyString)).

(** [repr] *)
Fixpoint repr_json (v : json) : string :=
  match v with
  | JNull => "None"
  | JBool b => if b then "True" else "False"
  | JInt n => decimal n
  | JFloat f => float_text "inf" "nan" f
  | JStr s => repr_str s
  | JList items =>
      String.append "["
        (String.append
           ((fix each (first : bool) (l : list json) : string :=
               match l with
               | [] => EmptyString
               | x :: l' =>
                   String.append (if first then "" else ", ")
                     (String.append (repr_json x) (each false l'))
               end) true items)
           "]")
  | JDict fields =>
      String.append "{"
        (String.append
           ((fix each (first : bool) (l : list (string * json)) : string :=
               match l with
               | [] => EmptyString
               | (k, x) :: l' =>
                   String.append (if first then "" else ", ")
                     (String.append (repr_str k)
                        (String.append ": "
                           (String.append (repr_json x) (each false l'))))
               end) true fields)
           "}")
  end.

(** The ASCII characters for which [str.isspace] holds. *)
Definition is_space (c : ascii) : bool :=
  let n := code c in
  ((9 <=? n) && (n <=? 13)) || ((28 <=? n) && (n <=? 32)).

Fixpoint lstrip (s : string) : string :=
  match s with
  | String c rest => if is_space c then lstrip rest else s
  | EmptyString => s
  end.

Fixpoint rstrip (s : string) : string :=
  match s with
  | EmptyString => EmptyString
  | String c rest =>
      match rstrip rest with
      | EmptyString =>
          if is_space c then EmptyString else String c EmptyString
      | tail => String c tail
      end
  end.

(** [s.strip()] *)
Definition str_strip (s : string) : string := rstrip (lstrip s).

(** The digits of an int literal: single underscores may separate them. *)
Fixpoint int_digits (s : string) (acc : Z) (after_digit : bool)
  : option Z :=
  match s with
  | EmptyString => if after_digit then Some acc else None
  | String c rest =>
      match digit_of c with
      | Some d => int_digits rest (10 * acc + d) true
      | None =>
          if (code c =? 95) && after_digit then int_digits rest acc false
          else None
      end
  end.

(** [int(s)] *)
Definition int_text (s : string) : option Z :=
  match str_strip s with
  | String "-" rest => option_map Z.opp (int_digits rest 0 false)
  | String "+" rest => int_digits rest 0 false
  | t => int_digits t 0 false
  end.

Definition lib : PyLib :=
  {| json_loads := loads;
     json_dumps := dumps;
     repr := repr_json;
     int_of_str := int_text;
     strip := str_strip |}.

(** The limit of CPython (3.11 and later) on the conversion of text to
    int: 4300 decimal digits. *)
Definition max_str_digits : Z := 4300.

Definition too_long (n : Z) : bool := 10 ^ max_str_digits <=? Z.abs n.

(** Whether a document holds an int of more digits than the limit. *)
Fixpoint has_long_int (v : json) : bool :=
  match v with
  | JInt n => too_long n
  | JList items =>
      (fix any (l : list json) : bool :=
         match l with
         | [] => false
         | x :: l' => has_long_int x || any l'
         end) items
  | JDict fields =>
      (fix any (l : list (string * json)) : bool :=
         match l with
         | [] => false
         | (_, x) :: l' => has_long_int x || any l'
         end) fields
  | _ => false
  end.

(** [json.loads] under the limit: on a document that is well formed and
    holds an int literal of more than 4300 digits the conversion of the
    literal raises [ValueError], which is not a [JSONDecodeError]. *)
Definition loads_limited (doc : string) : exn + json :=
  match loads doc with
  | inr v => if has_long_int v then inl ValueError else inr v
  | inl e => inl e
  end.

(** [int(s)] under the limit. *)
Definition int_text_limited (s : string) : option Z :=
  match int_text s with
  | Some n => if too_long n then None else Some n
  | None => None
  end.

(** The reference runtime with the limit. *)
Definition limited : PyLib :=
  {| json_loads := loads_limited;
     json_dumps := dumps;
     repr := repr_json;
     int_of_str := int_text_limited;
     strip := str_strip |}.

End RefPy.

(** ** What the results speak about *)

(** The three files are the same in both worlds. *)
Definition same_files (w w' : world) : Prop :=
  hotels_json w' = hotels_json w
  /\ customers_json w' = customers_json w
  /\ reservations_json w' = reservations_json w.

Definition is_write (e : event) : bool :=
  match e with
  | EvWrite _ _ => true
  | _ => false
  end.

Definition is_access (e : event) : bool :=
  match e with
  | EvLog _ => false
  | _ => true
  end.

(** From [w] to [w'] nothing was written: the files are the same and the
    trace grew by events none of which is a write. *)
Definition no_write (w w' : world) : Prop :=
  same_files w w'
  /\ exists evs, trace w' = trace w ++ evs /\ forallb (fun e => negb (is_write e)) evs = true.

(** From [w] to [w'] the store was not touched at all: no file was looked
    for, read or written; at most messages were logged. *)
Definition untouched (w w' : world) : Prop :=
  same_files w w'
  /\ exists evs, trace w' = trace w ++ evs /\ forallb (fun e => negb (is_access e)) evs = true.

(** The world after [_save_all] has written the three lists. *)
Definition saved {L : PyLib} (hotels : list Hotel.t)
           (customers : list Customer.t) (reservations : list Reservation.t)
           (w : world) : world :=
  let th := json_dumps (JList (map Hotel.to_dict hotels)) in
  let tc := json_dumps (JList (map Customer.to_dict customers)) in
  let tr := json_dumps (JList (map Reservation.to_dict reservations)) in
  mkWorld (Some th) (Some tc) (Some tr)
          (trace w ++ [EvWrite K_hotels th; EvWrite K_customers tc;
                       EvWrite K_reservations tr]).

(** The sum of the spec: the rooms of exactly the reservations whose hotel
    is [hotel_id] and whose status is ['active']. *)
Fixpoint active_rooms (hotel_id : string) (reservations : list Reservation.t)
  : Z :=
  match reservations with
  | [] => 0
  | r :: rest =>
      if string_dec (Reservation.hotel_id r) hotel_id
      then
        if string_dec (Reservation.status r) "active"
        then Reservation.rooms r + active_rooms hotel_id rest
        else active_rooms hotel_id rest
      else active_rooms hotel_id rest
  end.

(** Available rooms as the spec words it. *)
Definition spec_available_rooms (hotel : Hotel.t)
           (reservations : list Reservation.t) : Z :=
  Hotel.total_rooms hotel - active_rooms (Hotel.hotel_id hotel) reservations.

(** A computation that writes nothing, whatever it returns or raises. *)
Definition reads_only {A : Type} (m : M A) : Prop :=
  forall w, no_write w (snd (m w)).

(** What the loop of [cancel_reservation] puts in [updated] for [r]. *)
Definition cancel_one (reservation_id : string) (r : Reservation.t)
  : Reservation.t :=
  if String.eqb (Reservation.reservation_id r) reservation_id
  then if String.eqb (Reservation.status r) "cancelled" then r
       else ReservationSystem.cancelled r
  else r.

(** The messages of the loop: one for every reservation with the
    identifier that is cancelled already. *)
Definition already_cancelled (reservation_id : string)
           (reservations : list Reservation.t) : list event :=
  flat_map
    (fun r =>
       if String.eqb (Reservation.reservation_id r) reservation_id
          && String.eqb (Reservation.status r) "cancelled"
       then [EvLog (ReservationAlreadyCancelled reservation_id)]
       else [])
    reservations.

(** The world with more events on its trace. *)
Definition logged (evs : list event) (w : world) : world :=
  mkWorld (hotels_json w) (customers_json w) (reservations_json w)
          (trace w ++ evs).

(** A file from which [_load_raw] gets no rows: it does not exist, its
    text does not decode, or what it decodes to is not a list. *)
Inductive unusable {L : PyLib} (key : coll) (w : world) : Prop :=
| file_absent :
    file key w = None -> unusable key w
| file_garbled (text : string) (lineno colno : nat) :
    file key w = Some text ->
    json_loads text = inl (JSONDecodeError lineno colno) ->
    unusable key w
| file_not_array (text : string) (v : json) :
    file key w = Some text ->
    json_loads text = inr v ->
    (forall rows, v <> JList rows) ->
    unusable key w.

(** A collection as the store handles it: the loader and the saver of its
    key. *)
Inductive entities : Type :=
| Hotels (hotels : list Hotel.t)
| Customers (customers : list Customer.t)
| Reservations (reservations : list Reservation.t).

Definition key_of (e : entities) : coll :=
  match e with
  | Hotels _ => K_hotels
  | Customers _ => K_customers
  | Reservations _ => K_reservations
  end.

(** The rows that the saver hands to [_save_raw]. *)
Definition rows_of (e : entities) : list json :=
  match e with
  | Hotels l => map Hotel.to_dict l
  | Customers l => map Customer.to_dict l
  | Reservations l => map Reservation.to_dict l
  end.

Definition load {L : PyLib} (key : coll) : M entities :=
  match key with
  | K_hotels => bind DataStore.load_hotels (fun l => ret (Hotels l))
  | K_customers => bind DataStore.load_customers (fun l => ret (Customers l))
  | K_reservations =>
      bind DataStore.load_reservations (fun l => ret (Reservations l))
  end.

Definition save {L : PyLib} (e : entities) : M unit :=
  match e with
  | Hotels l => DataStore.save_hotels l
  | Customers l => DataStore.save_customers l
  | Reservations l => DataStore.save_reservations l
  end.

(** The keys of a serialized record, in the order they are written. *)
Definition keys (row : json) : list string :=
  match row with
  | JDict fields => map fst fields
  | _ => []
  end.

Definition field_names (key : coll) : list string :=
  match key with
  | K_hotels => ["hotel_id"; "name"; "city"; "total_rooms"]
  | K_customers => ["customer_id"; "name"; "email"]
  | K_reservations =>
      ["reservation_id"; "hotel_id"; "customer_id"; "rooms"; "status"]
  end.

(** The JSON library reads back what it wrote for the rows of [e]. *)
Definition reads_back {L : PyLib} (e : entities) : Prop :=
  json_loads (json_dumps (JList (rows_of e))) = inr (JList (rows_of e)).

(** The same for the three collections of a store. *)
Definition store_reads_back {L : PyLib} (hotels : list Hotel.t)
           (customers : list Customer.t) (reservations : list Reservation.t)
  : Prop :=
  reads_back (Hotels hotels)
  /\ reads_back (Customers customers)
  /\ reads_back (Reservations reservations).

(** From [w] to [w'] the three collections were written once, by
    [_save_all], and nothing was written before that. *)
Definition committed {L : PyLib} (w w' : world) : Prop :=
  exists hotels customers reservations w1,
    no_write w w1 /\ w' = saved hotels customers reservations w1.

(** The events touch no file but the one of [key]. *)
Definition only_file (key : coll) (e : event) : bool :=
  match e with
  | EvExists k | EvRead k | EvWrite k _ =>
      match k, key with
      | K_hotels, K_hotels
      | K_customers, K_customers
      | K_reservations, K_reservations => true
      | _, _ => false
      end
  | EvLog _ => true
  end.

(** From [w] to [w'] nothing was written and no file but the one of [key]
    was looked at. *)
Definition reads_only_file (key : coll) (w w' : world) : Prop :=
  same_files w w'
  /\ exists evs,
       trace w' = trace w ++ evs
       /\ forallb (fun e => negb (is_write e) && only_file key e) evs = true.

(** What the loop of [modify_hotel] puts in [new_hotels] for [h]. *)
Definition update_hotel {L : PyLib} (hotel_id : string)
           (name city : option string) (total_rooms : option Z) (h : Hotel.t)
  : Hotel.t :=
  if String.eqb (Hotel.hotel_id h) hotel_id
  then
    Hotel.mk (Hotel.hotel_id h)
             (match name with None => Hotel.name h | Some n => strip n end)
             (match city with None => Hotel.city h | Some c => strip c end)
             (match total_rooms with
              | None => Hotel.total_rooms h
              | Some n => n
              end)
  else h.

(** What the loop of [modify_customer] puts in [new_customers] for [c]. *)
Definition update_customer {L : PyLib} (customer_id : string)
           (name email : option string) (c : Customer.t) : Customer.t :=
  if String.eqb (Customer.customer_id c) customer_id
  then
    Customer.mk (Customer.customer_id c)
                (match name with None => Customer.name c | Some n => strip n end)
                (match email with
                 | None => Customer.email c
                 | Some e => strip e
                 end)
  else c.

(** The rooms that a hotel with the identifier gets in [modify_hotel]. *)
Definition rooms_after (total_rooms : option Z) (h : Hotel.t) : Z :=
  match total_rooms with
  | None => Hotel.total_rooms h
  | Some n => n
  end.

(** No hotel with the identifier would get a number of rooms that is not
    positive. *)
Definition rooms_in_order (hotel_id : string) (total_rooms : option Z)
           (hotels : list Hotel.t) : bool :=
  forallb (fun h => negb (String.eqb (Hotel.hotel_id h) hotel_id)
                    || (0 <? rooms_after total_rooms h))
          hotels.

(** A computation that writes nothing and looks at no file but the one of
    [key], whatever it returns or raises. *)
Definition reads_file {A : Type} (key : coll) (m : M A) : Prop :=
  forall w, reads_only_file key w (snd (m w)).

(** The summary of [hotel_info], for the available rooms it computed. *)
Definition hotel_summary (hotel : Hotel.t) (available : Z) : string :=
  String.append "Hotel '"
  (String.append (Hotel.name hotel)
  (String.append "' in "
  (String.append (Hotel.city hotel)
  (String.append " "
  (String.append ReservationSystem.em_dash
  (String.append " total: "
  (String.append (ReservationSystem.format_int (Hotel.total_rooms hotel))
  (String.append ", available: "
                 (ReservationSystem.format_int available))))))))).

(** The summary of [customer_info]. *)
Definition customer_summary (customer : Customer.t) : string :=
  String.append "Customer '"
  (String.append (Customer.name customer)
  (String.append "' <"
  (String.append (Customer.email customer) ">"))).

(** The customers that [load_customers] makes of the rows: those that
    [Customer.build] accepts, in the order of their rows. *)
Fixpoint customers_of {L : PyLib} (rows : list json) : list Customer.t :=
  match rows with
  | [] => []
  | row :: rest =>
      match Customer.build row with
      | inr c => c :: customers_of rest
      | inl _ => customers_of rest
      end
  end.

(** ** Example stores *)

Definition azure : Hotel.t := Hotel.mk "h-1" "Azure Inn" "Monterrey" 5.

Definition isaac : Customer.t :=
  Customer.mk "c-1" "Isaac Reyes" "isaac@example.com".

Definition booking (status : string) (rooms : Z) : Reservation.t :=
  Reservation.mk "r-1" "h-1" "c-1" rooms status.

Definition nothing : world := mkWorld None None None [].

(** The store after [_save_all], written with the reference runtime. *)
Definition store_of (hotels : list Hotel.t) (customers : list Customer.t)
           (reservations : list Reservation.t) : world :=
  saved (L := RefPy.lib) hotels customers reservations nothing.

(** A store whose hotels file holds [text]. *)
Definition hotels_file (text : string) : world :=
  mkWorld (Some text) None None [].

Definition hotel_row (n : Z) (total_rooms : json) : json :=
  JDict [("hotel_id", JStr (String.append "h-" (RefPy.decimal n)));
         ("name", JStr "Azure Inn");
         ("city", JStr "Monterrey");
         ("total_rooms", total_rooms)].

(** Ten hotel records; the fourth is [bad]. *)
Definition ten_rows (bad : json) : list json :=
  [hotel_row 1 (JInt 5); hotel_row 2 (JInt 5); hotel_row 3 (JInt 5); bad;
   hotel_row 5 (JInt 5); hotel_row 6 (JInt 5); hotel_row 7 (JInt 5);
   hotel_row 8 (JInt 5); hotel_row 9 (JInt 5); hotel_row 10 (JInt 5)].

Definition nine_hotels : list Hotel.t :=
  map (fun n => Hotel.mk (String.append "h-" (RefPy.decimal n))
                         "Azure Inn" "Monterrey" 5)
      [1; 2; 3; 5; 6; 7; 8; 9; 10].

(** The trace of [_load_all] on a store whose three files are in order. *)
Definition loading : list event :=
  [EvExists K_hotels; EvRead K_hotels;
   EvExists K_customers; EvRead K_customers;
   EvExists K_reservations; EvRead K_reservations].

Definition sol : Hotel.t := Hotel.mk "h-2" "Sol" "Puebla" 3.

Definition ana : Customer.t := Customer.mk "c-2" "Ana" "ana@example.com".

(** A second reservation, of [ana] at [sol]. *)
Definition stay (status : string) (rooms : Z) : Reservation.t :=
  Reservation.mk "r-2" "h-2" "c-2" rooms status.

(** The record of [booking "Active" 2], as [json.loads] hands it over. *)
Definition odd_record : list (string * json) :=
  [("reservation_id", JStr "r-1"); ("hotel_id", JStr "h-1");
   ("customer_id", JStr "c-1"); ("rooms", JInt 2); ("status", JStr "Active")].

(** The record of a reservation of two rooms, without a status. *)
Definition plain_record : list (string * json) :=
  [("reservation_id", JStr "r-1"); ("hotel_id", JStr "h-1");
   ("customer_id", JStr "c-1"); ("rooms", JInt 2)].

(** The record of a reservation whose rooms are [Infinity]. *)
Definition endless_record : list (string * json) :=
  [("reservation_id", JStr "r-9"); ("hotel_id", JStr "h-1");
   ("customer_id", JStr "c-1"); ("rooms", JFloat (S754_infinity false));
   ("status", JStr "active")].

Fixpoint zeros (n : nat) : string :=
  match n with
  | O => EmptyString
  | S n' => String "0" (zeros n')
  end.

(** A JSON array that holds one int, of 4301 digits: a one and 4300
    zeros. *)
Definition long_integer_document : string :=
  String "[" (String "1" (String.append (zeros 4300) "]")).

(** The record that [asdict] makes of the reservation that
    [create_reservation(hotel_id, customer_id, True)] stores: the call
    keeps its [rooms] argument as it is, and [True], an int for the two
    guards, is written as a JSON boolean. *)
Definition truthy_record : list (string * json) :=
  [("reservation_id", JStr "r-1"); ("hotel_id", JStr "h-1");
   ("customer_id", JStr "c-1"); ("rooms", JBool true);
   ("status", JStr "active")].

(** The store of [azure] and [isaac] whose reservations file holds a
    reservation in order and then [endless_record]. *)
Definition endless_store : world :=
  mkWorld (hotels_json (store_of [azure] [isaac] []))
          (customers_json (store_of [azure] [isaac] []))
          (Some (RefPy.dumps
                   (JList [Reservation.to_dict (booking "active" 2);
                           JDict endless_record])))
          [].

(** * Results *)

Import DataStore ReservationSystem.

(** ** Available rooms *)

Lemma active_for_hotel_true (hotel_id : string) (r : Reservation.t) :
  active_for_hotel hotel_id r = true <->
  Reservation.hotel_id r = hotel_id /\ Reservation.status r = "active".
Proof.
  unfold active_for_hotel.
  rewrite andb_true_iff, !String.eqb_eq. tauto.
Qed.

Lemma active_for_customer_true (customer_id : string) (r : Reservation.t) :
  active_for_customer customer_id r = true <->
  Reservation.customer_id r = customer_id /\ Reservation.status r = "active".
Proof.
  unfold active_for_customer.
  rewrite andb_true_iff, !String.eqb_eq. tauto.
Qed.

Lemma sum_from (items : list Z) (start : Z) :
  fold_left Z.add items start = start + sum items.
Proof.
  unfold sum. revert start.
  induction items as [| x items IH]; intros start; simpl.
  - lia.
  - rewrite IH, (IH x). lia.
Qed.

Lemma sum_cons (x : Z) (items : list Z) : sum (x :: items) = x + sum items.
Proof. unfold sum at 1. simpl. apply sum_from. Qed.

Lemma used_rooms_spec (hotel_id : string) (reservations : list Reservation.t) :
  sum (map Reservation.rooms (filter (active_for_hotel hotel_id) reservations))
  = active_rooms hotel_id reservations.
Proof.
  induction reservations as [| r rest IH]; simpl.
  - reflexivity.
  - destruct (active_for_hotel hotel_id r) eqn:E.
    + apply active_for_hotel_true in E. destruct E as [Eh Es].
      destruct (string_dec _ _); [| contradiction].
      destruct (string_dec _ _); [| contradiction].
      simpl. rewrite sum_cons, IH. reflexivity.
    + destruct (string_dec _ _) as [Eh |]; [| exact IH].
      destruct (string_dec _ _) as [Es |]; [| exact IH].
      assert (active_for_hotel hotel_id r = true)
        by (apply active_for_hotel_true; auto).
      congruence.
Qed.

(** C5: the available rooms of a hotel are its [total_rooms] minus the sum
    of the [rooms] of exactly the reservations whose [hotel_id] is the
    hotel's and whose status is ['active']; with no reservations they are
    [total_rooms]. *)
Theorem available_rooms_spec (hotel : Hotel.t)
        (reservations : list Reservation.t) :
  _hotel_available_rooms hotel reservations
  = spec_available_rooms hotel reservations
  /\ _hotel_available_rooms hotel [] = Hotel.total_rooms hotel.
Proof.
  split.
  - unfold _hotel_available_rooms, spec_available_rooms.
    rewrite used_rooms_spec. reflexivity.
  - unfold _hotel_available_rooms, sum. simpl. lia.
Qed.

(** ** What loading does to the world *)

Lemma same_files_refl (w : world) : same_files w w.
Proof. repeat split. Qed.

Lemma same_files_trans (w1 w2 w3 : world) :
  same_files w1 w2 -> same_files w2 w3 -> same_files w1 w3.
Proof.
  unfold same_files. intros (A1 & A2 & A3) (B1 & B2 & B3).
  repeat split; congruence.
Qed.

Lemma no_write_refl (w : world) : no_write w w.
Proof.
  split; [apply same_files_refl |].
  exists []. rewrite app_nil_r. split; reflexivity.
Qed.

Lemma no_write_trans (w1 w2 w3 : world) :
  no_write w1 w2 -> no_write w2 w3 -> no_write w1 w3.
Proof.
  intros [F1 (e1 & T1 & N1)] [F2 (e2 & T2 & N2)].
  split; [eapply same_files_trans; eassumption |].
  exists (e1 ++ e2). split.
  - rewrite T2, T1, app_assoc. reflexivity.
  - rewrite forallb_app, N1, N2. reflexivity.
Qed.

Lemma no_write_emit (e : event) (w : world) :
  is_write e = false -> no_write w (emit e w).
Proof.
  intros E. split; [repeat split |].
  exists [e]. simpl. rewrite E. split; reflexivity.
Qed.

Lemma untouched_refl (w : world) : untouched w w.
Proof.
  split; [apply same_files_refl |].
  exists []. rewrite app_nil_r. split; reflexivity.
Qed.

Lemma untouched_log (m : log_msg) (w : world) :
  untouched w (emit (EvLog m) w).
Proof.
  split; [repeat split |].
  exists [EvLog m]. split; reflexivity.
Qed.

Lemma reads_only_ret {A : Type} (a : A) : reads_only (ret a).
Proof. intros w. apply no_write_refl. Qed.

Lemma reads_only_raise {A : Type} (e : exn) : reads_only (@raise A e).
Proof. intros w. apply no_write_refl. Qed.

Lemma reads_only_log (m : log_msg) : reads_only (logging_error m).
Proof. intros w. apply no_write_emit. reflexivity. Qed.

Lemma reads_only_exists (key : coll) : reads_only (path_exists key).
Proof. intros w. apply no_write_emit. reflexivity. Qed.

Lemma reads_only_read (key : coll) : reads_only (read_text key).
Proof.
  intros w. unfold read_text.
  destruct (file key w); apply no_write_emit; reflexivity.
Qed.

Lemma reads_only_bind {A B : Type} (m : M A) (k : A -> M B) :
  reads_only m -> (forall a, reads_only (k a)) -> reads_only (bind m k).
Proof.
  intros Hm Hk w. unfold bind.
  specialize (Hm w). destruct (m w) as [[a | e] w1]; simpl in *.
  - eapply no_write_trans; [exact Hm | apply Hk].
  - exact Hm.
Qed.

Ltac reads_only_step :=
  first
    [ apply reads_only_bind; [| intros ? ]
    | apply reads_only_ret | apply reads_only_raise | apply reads_only_log
    | apply reads_only_exists | apply reads_only_read ].

Section Loading.

Context {L : PyLib}.

Lemma reads_only_load_raw (key : coll) : reads_only (_load_raw key).
Proof.
  unfold _load_raw.
  apply reads_only_bind; [apply reads_only_exists | intros present].
  destruct present; simpl; [| apply reads_only_ret].
  apply reads_only_bind; [apply reads_only_read | intros text].
  destruct (json_loads text) as [[] | []]; repeat reads_only_step.
Qed.

Lemma reads_only_collect {A : Type} (from_dict : json -> M (option A)) :
  (forall row, reads_only (from_dict row)) ->
  forall rows acc, reads_only (collect from_dict rows acc).
Proof.
  intros H rows. induction rows as [| row rest IH]; intros acc; simpl.
  - apply reads_only_ret.
  - apply reads_only_bind; [apply H | intros [x |]; apply IH].
Qed.

Lemma reads_only_hotel_from_dict (row : json) :
  reads_only (Hotel.from_dict row).
Proof.
  unfold Hotel.from_dict.
  destruct (Hotel.build row) as [e | h]; [destruct (caught e) |];
    repeat reads_only_step.
Qed.

Lemma reads_only_customer_from_dict (row : json) :
  reads_only (Customer.from_dict row).
Proof.
  unfold Customer.from_dict.
  destruct (Customer.build row) as [e | h]; [destruct (caught e) |];
    repeat reads_only_step.
Qed.

Lemma reads_only_reservation_from_dict (row : json) :
  reads_only (Reservation.from_dict row).
Proof.
  unfold Reservation.from_dict.
  destruct (Reservation.build row) as [e | h]; [destruct (caught e) |];
    repeat reads_only_step.
Qed.

Lemma reads_only_load_hotels : reads_only load_hotels.
Proof.
  apply reads_only_bind; [apply reads_only_load_raw | intros rows].
  apply reads_only_collect, reads_only_hotel_from_dict.
Qed.

Lemma reads_only_load_customers : reads_only load_customers.
Proof.
  apply reads_only_bind; [apply reads_only_load_raw | intros rows].
  apply reads_only_collect, reads_only_customer_from_dict.
Qed.

Lemma reads_only_load_reservations : reads_only load_reservations.
Proof.
  apply reads_only_bind; [apply reads_only_load_raw | intros rows].
  apply reads_only_collect, reads_only_reservation_from_dict.
Qed.

Lemma reads_only_load_all : reads_only _load_all.
Proof.
  unfold _load_all.
  apply reads_only_bind; [apply reads_only_load_hotels | intros hs].
  apply reads_only_bind; [apply reads_only_load_customers | intros cs].
  apply reads_only_bind; [apply reads_only_load_reservations | intros rs].
  apply reads_only_ret.
Qed.

Lemma load_all_no_write (w w1 : world) (r : result Aggregate) :
  _load_all w = (r, w1) -> no_write w w1.
Proof.
  intros H. pose proof (reads_only_load_all w) as N.
  rewrite H in N. exact N.
Qed.

Lemma append_empty (s : string) : String.append s "" = s.
Proof. induction s as [| c s IH]; simpl; [| rewrite IH]; reflexivity. Qed.

Lemma save_all_saved (hotels : list Hotel.t) (customers : list Customer.t)
      (reservations : list Reservation.t) (w : world) :
  _save_all hotels customers reservations w
  = (Ok tt, saved hotels customers reservations w).
Proof.
  unfold _save_all, save_hotels, save_customers, save_reservations,
    _save_raw, write_text, bind, saved, emit, store.
  simpl. rewrite !append_empty, <- !app_assoc. reflexivity.
Qed.

End Loading.

(** ** Reservations against capacity *)

Section Reserving.

Context {L : PyLib}.

Variables (w w1 : world) (hotels : list Hotel.t)
          (customers : list Customer.t) (reservations : list Reservation.t).

Hypothesis loaded : _load_all w = (Ok (hotels, customers, reservations), w1).

Lemma create_reservation_refused_early (hotel_id customer_id uuid4 : string)
      (rooms : Z) (w0 : world) :
  rooms <= 0 ->
  create_reservation hotel_id customer_id rooms uuid4 w0
  = (Ok None, emit (EvLog RoomsMustBePositive) w0).
Proof.
  intros H. unfold create_reservation.
  destruct (Z.leb_spec rooms 0); [reflexivity | lia].
Qed.

Lemma create_reservation_accepted (hotel_id customer_id uuid4 : string)
      (rooms : Z) (hotel : Hotel.t) (customer : Customer.t) :
  find (fun h => String.eqb (Hotel.hotel_id h) hotel_id) hotels
  = Some hotel ->
  find (fun c => String.eqb (Customer.customer_id c) customer_id) customers
  = Some customer ->
  0 < rooms <= _hotel_available_rooms hotel reservations ->
  let res := Reservation.mk uuid4 hotel_id customer_id rooms "active" in
  create_reservation hotel_id customer_id rooms uuid4 w
  = (Ok (Some res), saved hotels customers (reservations ++ [res]) w1).
Proof.
  intros Hh Hc [Hpos Hle] res. unfold create_reservation.
  destruct (Z.leb_spec rooms 0); [lia |].
  unfold bind at 1. rewrite loaded. rewrite Hh, Hc.
  destruct (Z.ltb_spec (_hotel_available_rooms hotel reservations) rooms);
    [lia |].
  unfold bind. rewrite save_all_saved. reflexivity.
Qed.

Lemma create_reservation_overbooked (hotel_id customer_id uuid4 : string)
      (rooms : Z) (hotel : Hotel.t) (customer : Customer.t) :
  find (fun h => String.eqb (Hotel.hotel_id h) hotel_id) hotels
  = Some hotel ->
  find (fun c => String.eqb (Customer.customer_id c) customer_id) customers
  = Some customer ->
  0 < rooms ->
  _hotel_available_rooms hotel reservations < rooms ->
  create_reservation hotel_id customer_id rooms uuid4 w
  = (Ok None,
     emit (EvLog (NotEnoughRooms
                    rooms (_hotel_available_rooms hotel reservations))) w1).
Proof.
  intros Hh Hc Hpos Hlt. unfold create_reservation.
  destruct (Z.leb_spec rooms 0); [lia |].
  unfold bind at 1. rewrite loaded. rewrite Hh, Hc.
  destruct (Z.ltb_spec (_hotel_available_rooms hotel reservations) rooms);
    [reflexivity | lia].
Qed.

End Reserving.

(** C1, as the code has it: let [hotel] be the hotel that the lookup by
    [hotel_id] finds in storage, and let the customer exist.  A reservation
    for exactly the available rooms succeeds when that number is positive:
    the call returns the new active reservation and writes the three
    collections, the reservations with the new one at the end.  A
    reservation for one room more returns nothing and writes nothing, in
    every state. *)
Theorem create_reservation_capacity_boundary {L : PyLib}
        (w w1 : world) (hotels : list Hotel.t) (customers : list Customer.t)
        (reservations : list Reservation.t)
        (hotel_id customer_id uuid4 : string)
        (hotel : Hotel.t) (customer : Customer.t) :
  _load_all w = (Ok (hotels, customers, reservations), w1) ->
  find (fun h => String.eqb (Hotel.hotel_id h) hotel_id) hotels = Some hotel ->
  find (fun c => String.eqb (Customer.customer_id c) customer_id) customers
  = Some customer ->
  let available := _hotel_available_rooms hotel reservations in
  let res := Reservation.mk uuid4 hotel_id customer_id available "active" in
  (0 < available ->
   create_reservation hotel_id customer_id available uuid4 w
   = (Ok (Some res), saved hotels customers (reservations ++ [res]) w1))
  /\ (exists w2,
         create_reservation hotel_id customer_id (available + 1) uuid4 w
         = (Ok None, w2)
         /\ no_write w w2).
Proof.
  intros Hload Hh Hc available res. split.
  - intros Hpos.
    eapply create_reservation_accepted; try eassumption.
    fold available. lia.
  - destruct (Z.leb_spec (available + 1) 0) as [Hneg | Hpos].
    + exists (emit (EvLog RoomsMustBePositive) w). split.
      * apply create_reservation_refused_early. exact Hneg.
      * apply no_write_emit. reflexivity.
    + eexists. split.
      * eapply create_reservation_overbooked; try eassumption.
        fold available. lia.
      * eapply no_write_trans.
        -- eapply load_all_no_write. exact Hload.
        -- apply no_write_emit. reflexivity.
Qed.

(** ** Deleting hotels and customers *)

Lemma filter_length_le {A : Type} (f : A -> bool) (l : list A) :
  (length (filter f l) <= length l)%nat.
Proof.
  induction l as [| x l IH]; simpl; [lia |].
  destruct (f x); simpl; lia.
Qed.

Lemma filter_drops {A : Type} (f : A -> bool) (l : list A) (x : A) :
  In x l -> f x = false -> (length (filter f l) < length l)%nat.
Proof.
  induction l as [| y l IH]; simpl; [tauto |].
  intros [-> | Hin] Hx.
  - rewrite Hx. pose proof (filter_length_le f l). lia.
  - specialize (IH Hin Hx). destruct (f y); simpl; lia.
Qed.

Lemma filter_keeps_all {A : Type} (f : A -> bool) (l : list A) :
  (forall x, In x l -> f x = true) -> filter f l = l.
Proof.
  induction l as [| y l IH]; simpl; intros H; [reflexivity |].
  rewrite (H y) by auto. f_equal. apply IH. auto.
Qed.

(** Removing by a key that exactly one element carries removes that
    element and keeps the others in place. *)
Lemma filter_removes_one {A : Type} (f : A -> bool) (l1 l2 : list A) (x : A) :
  f x = false ->
  (forall y, In y (l1 ++ l2) -> f y = true) ->
  filter f (l1 ++ x :: l2) = l1 ++ l2.
Proof.
  intros Hx Hall. rewrite filter_app. simpl. rewrite Hx.
  rewrite !filter_keeps_all; [reflexivity | |];
    intros y Hy; apply Hall, in_or_app; auto.
Qed.

Lemma existsb_false {A : Type} (f : A -> bool) (l : list A) :
  (forall x, In x l -> f x = false) -> existsb f l = false.
Proof.
  intros H. destruct (existsb f l) eqn:E; [| reflexivity].
  apply existsb_exists in E. destruct E as (x & Hin & Hx).
  rewrite (H x Hin) in Hx. discriminate.
Qed.

Section Deleting.

Context {L : PyLib}.

Variables (w w1 : world) (hotels : list Hotel.t)
          (customers : list Customer.t) (reservations : list Reservation.t).

Hypothesis loaded : _load_all w = (Ok (hotels, customers, reservations), w1).

Lemma no_write_after_load (m : log_msg) : no_write w (emit (EvLog m) w1).
Proof.
  eapply no_write_trans.
  - eapply load_all_no_write. exact loaded.
  - apply no_write_emit. reflexivity.
Qed.

Lemma delete_hotel_blocked (hotel_id : string) (r : Reservation.t) :
  In r reservations ->
  Reservation.hotel_id r = hotel_id ->
  Reservation.status r = "active" ->
  delete_hotel hotel_id w
  = (Ok false, emit (EvLog (CannotDeleteHotel hotel_id)) w1).
Proof.
  intros Hin Hid Hst. unfold delete_hotel, bind at 1. rewrite loaded.
  assert (E : existsb (active_for_hotel hotel_id) reservations = true).
  { apply existsb_exists. exists r. split; [exact Hin |].
    apply active_for_hotel_true. auto. }
  rewrite E. reflexivity.
Qed.

Lemma delete_hotel_done (hotel : Hotel.t) :
  In hotel hotels ->
  (forall r, In r reservations ->
             Reservation.hotel_id r = Hotel.hotel_id hotel ->
             Reservation.status r <> "active") ->
  delete_hotel (Hotel.hotel_id hotel) w
  = (Ok true,
     saved (filter (fun h => negb (String.eqb (Hotel.hotel_id h)
                                              (Hotel.hotel_id hotel)))
                   hotels)
           customers reservations w1).
Proof.
  intros Hin Hfree. unfold delete_hotel, bind at 1. rewrite loaded.
  rewrite existsb_false.
  - match goal with
    | |- context [Nat.eqb ?a ?b] => destruct (Nat.eqb_spec a b) as [E | _]
    end.
    + pose proof (filter_drops
                    (fun h => negb (String.eqb (Hotel.hotel_id h)
                                               (Hotel.hotel_id hotel)))
                    hotels hotel Hin) as D.
      cbv beta in D. rewrite String.eqb_refl in D.
      specialize (D eq_refl). lia.
    + unfold bind. rewrite save_all_saved. reflexivity.
  - intros r Hr. destruct (active_for_hotel _ r) eqn:E; [| reflexivity].
    apply active_for_hotel_true in E. destruct E as [Eh Es].
    exfalso. exact (Hfree r Hr Eh Es).
Qed.

Lemma delete_customer_blocked (customer_id : string) (r : Reservation.t) :
  In r reservations ->
  Reservation.customer_id r = customer_id ->
  Reservation.status r = "active" ->
  delete_customer customer_id w
  = (Ok false, emit (EvLog (CannotDeleteCustomer customer_id)) w1).
Proof.
  intros Hin Hid Hst. unfold delete_customer, bind at 1. rewrite loaded.
  assert (E : existsb (active_for_customer customer_id) reservations = true).
  { apply existsb_exists. exists r. split; [exact Hin |].
    apply active_for_customer_true. auto. }
  rewrite E. reflexivity.
Qed.

Lemma delete_customer_done (customer : Customer.t) :
  In customer customers ->
  (forall r, In r reservations ->
             Reservation.customer_id r = Customer.customer_id customer ->
             Reservation.status r <> "active") ->
  delete_customer (Customer.customer_id customer) w
  = (Ok true,
     saved hotels
           (filter (fun c => negb (String.eqb (Customer.customer_id c)
                                     (Customer.customer_id customer)))
                   customers)
           reservations w1).
Proof.
  intros Hin Hfree. unfold delete_customer, bind at 1. rewrite loaded.
  rewrite existsb_false.
  - match goal with
    | |- context [Nat.eqb ?a ?b] => destruct (Nat.eqb_spec a b) as [E | _]
    end.
    + pose proof (filter_drops
                    (fun c => negb (String.eqb (Customer.customer_id c)
                                      (Customer.customer_id customer)))
                    customers customer Hin) as D.
      cbv beta in D. rewrite String.eqb_refl in D.
      specialize (D eq_refl). lia.
    + unfold bind. rewrite save_all_saved. reflexivity.
  - intros r Hr. destruct (active_for_customer _ r) eqn:E; [| reflexivity].
    apply active_for_customer_true in E. destruct E as [Eh Es].
    exfalso. exact (Hfree r Hr Eh Es).
Qed.

End Deleting.

Lemma removes_exactly_hotel (hotel : Hotel.t) (l1 l2 : list Hotel.t) :
  (forall h, In h (l1 ++ l2) -> Hotel.hotel_id h <> Hotel.hotel_id hotel) ->
  filter (fun h => negb (String.eqb (Hotel.hotel_id h) (Hotel.hotel_id hotel)))
         (l1 ++ hotel :: l2)
  = l1 ++ l2.
Proof.
  intros U. apply filter_removes_one.
  - rewrite String.eqb_refl. reflexivity.
  - intros h Hh. apply negb_true_iff, String.eqb_neq, U, Hh.
Qed.

Lemma removes_exactly_customer (customer : Customer.t)
      (l1 l2 : list Customer.t) :
  (forall c, In c (l1 ++ l2) ->
             Customer.customer_id c <> Customer.customer_id customer) ->
  filter (fun c => negb (String.eqb (Customer.customer_id c)
                                    (Customer.customer_id customer)))
         (l1 ++ customer :: l2)
  = l1 ++ l2.
Proof.
  intros U. apply filter_removes_one.
  - rewrite String.eqb_refl. reflexivity.
  - intros c Hc. apply negb_true_iff, String.eqb_neq, U, Hc.
Qed.

Lemma cancelled_not_active (s : string) : s = "cancelled" -> s <> "active".
Proof. intros ->. discriminate. Qed.

(** C4: while an active reservation references a hotel (a customer),
    [delete_hotel] ([delete_customer]) returns [False] and writes nothing:
    the three files are as they were.  A hotel (a customer) in storage that
    only cancelled reservations reference is deleted: the call returns
    [True] and writes the hotels (the customers) without the records that
    carry the identifier, the other two collections as loaded; where no
    other record shares the identifier, exactly that record goes and the
    rest keeps its order. *)
Theorem delete_guarded_by_active_reservations {L : PyLib}
        (w w1 : world) (hotels : list Hotel.t) (customers : list Customer.t)
        (reservations : list Reservation.t) :
  _load_all w = (Ok (hotels, customers, reservations), w1) ->
  (forall r, In r reservations -> Reservation.status r = "active" ->
     (exists w2, delete_hotel (Reservation.hotel_id r) w = (Ok false, w2)
                 /\ no_write w w2)
     /\ (exists w2,
            delete_customer (Reservation.customer_id r) w = (Ok false, w2)
            /\ no_write w w2))
  /\ (forall hotel,
        In hotel hotels ->
        (forall r, In r reservations ->
                   Reservation.hotel_id r = Hotel.hotel_id hotel ->
                   Reservation.status r = "cancelled") ->
        let kept :=
          filter (fun h => negb (String.eqb (Hotel.hotel_id h)
                                            (Hotel.hotel_id hotel)))
                 hotels in
        delete_hotel (Hotel.hotel_id hotel) w
        = (Ok true, saved kept customers reservations w1)
        /\ (forall l1 l2,
              hotels = l1 ++ hotel :: l2 ->
              (forall h, In h (l1 ++ l2) ->
                         Hotel.hotel_id h <> Hotel.hotel_id hotel) ->
              kept = l1 ++ l2))
  /\ (forall customer,
        In customer customers ->
        (forall r, In r reservations ->
                   Reservation.customer_id r = Customer.customer_id customer ->
                   Reservation.status r = "cancelled") ->
        let kept :=
          filter (fun c => negb (String.eqb (Customer.customer_id c)
                                            (Customer.customer_id customer)))
                 customers in
        delete_customer (Customer.customer_id customer) w
        = (Ok true, saved hotels kept reservations w1)
        /\ (forall l1 l2,
              customers = l1 ++ customer :: l2 ->
              (forall c, In c (l1 ++ l2) ->
                         Customer.customer_id c
                         <> Customer.customer_id customer) ->
              kept = l1 ++ l2)).
Proof.
  intros Hload. split; [| split].
  - intros r Hin Hst. split; eexists; split.
    + eapply delete_hotel_blocked; eauto.
    + eapply no_write_after_load; eauto.
    + eapply delete_customer_blocked; eauto.
    + eapply no_write_after_load; eauto.
  - intros hotel Hin Honly kept. split.
    + eapply delete_hotel_done; eauto.
      intros r Hr Hid. apply cancelled_not_active. auto.
    + intros l1 l2 -> U. apply removes_exactly_hotel. exact U.
  - intros customer Hin Honly kept. split.
    + eapply delete_customer_done; eauto.
      intros r Hr Hid. apply cancelled_not_active. auto.
    + intros l1 l2 -> U. apply removes_exactly_customer. exact U.
Qed.

(** C10: for an identifier that no hotel in storage carries but an active
    reservation references, [delete_hotel] returns [False] from the guard
    on active reservations (its message is the one logged, not the
    not-found one: the guard comes first) and writes nothing; the same
    holds for [delete_customer]. *)
Theorem delete_dangling_reference {L : PyLib}
        (w w1 : world) (hotels : list Hotel.t) (customers : list Customer.t)
        (reservations : list Reservation.t) (r : Reservation.t) :
  _load_all w = (Ok (hotels, customers, reservations), w1) ->
  In r reservations ->
  Reservation.status r = "active" ->
  ((forall h, In h hotels -> Hotel.hotel_id h <> Reservation.hotel_id r) ->
   let w2 := emit (EvLog (CannotDeleteHotel (Reservation.hotel_id r))) w1 in
   delete_hotel (Reservation.hotel_id r) w = (Ok false, w2)
   /\ no_write w w2)
  /\ ((forall c, In c customers ->
                 Customer.customer_id c <> Reservation.customer_id r) ->
      let w2 :=
        emit (EvLog (CannotDeleteCustomer (Reservation.customer_id r))) w1 in
      delete_customer (Reservation.customer_id r) w = (Ok false, w2)
      /\ no_write w w2).
Proof.
  intros Hload Hin Hst. split; intros _ w2; split.
  - eapply delete_hotel_blocked; eauto.
  - eapply no_write_after_load; eauto.
  - eapply delete_customer_blocked; eauto.
  - eapply no_write_after_load; eauto.
Qed.

Lemma delete_hotel_missing {L : PyLib}
      (w w1 : world) (hotels : list Hotel.t) (customers : list Customer.t)
      (reservations : list Reservation.t) (hotel_id : string) :
  _load_all w = (Ok (hotels, customers, reservations), w1) ->
  (forall r, In r reservations -> Reservation.hotel_id r = hotel_id ->
             Reservation.status r <> "active") ->
  (forall h, In h hotels -> Hotel.hotel_id h <> hotel_id) ->
  delete_hotel hotel_id w = (Ok false, emit (EvLog (HotelNotFound hotel_id)) w1).
Proof.
  intros Hload Hfree Hnone. unfold delete_hotel, bind at 1. rewrite Hload.
  rewrite existsb_false.
  - rewrite filter_keeps_all, Nat.eqb_refl; [reflexivity |].
    intros h Hh. apply negb_true_iff, String.eqb_neq, Hnone, Hh.
  - intros r Hr. destruct (active_for_hotel _ r) eqn:E; [| reflexivity].
    apply active_for_hotel_true in E. destruct E as [Eh Es].
    exfalso. exact (Hfree r Hr Eh Es).
Qed.

(** ** Cancelling *)

Lemma logged_nil (w : world) : logged [] w = w.
Proof. destruct w. unfold logged. simpl. rewrite app_nil_r. reflexivity. Qed.

Lemma logged_emit (e : event) (evs : list event) (w : world) :
  logged evs (emit e w) = logged (e :: evs) w.
Proof. unfold logged, emit. simpl. rewrite <- app_assoc. reflexivity. Qed.

Section Cancelling.

Context {L : PyLib}.

Lemma cancel_loop_spec (reservation_id : string)
      (reservations : list Reservation.t) :
  forall (updated : list Reservation.t) (found : bool) (w : world),
    cancel_loop reservation_id reservations updated found w
    = (Ok (updated ++ map (cancel_one reservation_id) reservations,
           found
           || existsb (fun r => String.eqb (Reservation.reservation_id r)
                                           reservation_id)
                      reservations),
       logged (already_cancelled reservation_id reservations) w).
Proof.
  induction reservations as [| r rest IH]; intros updated found w; simpl.
  - rewrite app_nil_r, orb_false_r, logged_nil. reflexivity.
  - unfold cancel_one at 1.
    destruct (String.eqb (Reservation.reservation_id r) reservation_id);
      simpl.
    + destruct (String.eqb (Reservation.status r) "cancelled"); simpl.
      * unfold bind, logging_error. rewrite IH, logged_emit, <- app_assoc.
        rewrite orb_true_r. reflexivity.
      * rewrite IH, <- app_assoc, orb_true_r. reflexivity.
    + rewrite IH, <- app_assoc. reflexivity.
Qed.

Lemma cancel_reservation_found (w w1 : world) (hotels : list Hotel.t)
      (customers : list Customer.t) (reservations : list Reservation.t)
      (r : Reservation.t) :
  _load_all w = (Ok (hotels, customers, reservations), w1) ->
  In r reservations ->
  let reservation_id := Reservation.reservation_id r in
  cancel_reservation reservation_id w
  = (Ok true,
     saved hotels customers (map (cancel_one reservation_id) reservations)
           (logged (already_cancelled reservation_id reservations) w1)).
Proof.
  intros Hload Hin rid. unfold cancel_reservation, bind at 1.
  rewrite Hload. unfold bind at 1. rewrite cancel_loop_spec. simpl.
  assert (E : existsb (fun x => String.eqb (Reservation.reservation_id x) rid)
                      reservations = true).
  { apply existsb_exists. exists r. split; [exact Hin |].
    apply String.eqb_refl. }
  rewrite E. simpl. unfold bind. rewrite save_all_saved. reflexivity.
Qed.

Lemma already_cancelled_logged (r : Reservation.t)
      (reservations : list Reservation.t) :
  In r reservations ->
  Reservation.status r = "cancelled" ->
  In (EvLog (ReservationAlreadyCancelled (Reservation.reservation_id r)))
     (already_cancelled (Reservation.reservation_id r) reservations).
Proof.
  intros Hin Hst. unfold already_cancelled. apply in_flat_map.
  exists r. split; [exact Hin |].
  rewrite String.eqb_refl, Hst. simpl. auto.
Qed.

End Cancelling.

(** C2, as the code has it: for a reservation in storage whose status is
    ['cancelled'] already, [cancel_reservation] on its identifier returns
    [True], after logging that the reservation is already cancelled; the
    reservation stays in its place as it was, status ['cancelled']; and the
    three collections are written, the reservations among them. *)
Theorem cancel_cancelled_reservation {L : PyLib}
        (w w1 : world) (hotels : list Hotel.t) (customers : list Customer.t)
        (reservations : list Reservation.t) (r : Reservation.t) :
  _load_all w = (Ok (hotels, customers, reservations), w1) ->
  In r reservations ->
  Reservation.status r = "cancelled" ->
  let reservation_id := Reservation.reservation_id r in
  let updated := map (cancel_one reservation_id) reservations in
  let text := json_dumps (JList (map Reservation.to_dict updated)) in
  exists w2,
    cancel_reservation reservation_id w = (Ok true, w2)
    /\ (forall i, nth_error reservations i = Some r ->
                  nth_error updated i = Some r)
    /\ In (EvLog (ReservationAlreadyCancelled reservation_id)) (trace w2)
    /\ In (EvWrite K_reservations text) (trace w2)
    /\ reservations_json w2 = Some text.
Proof.
  intros Hload Hin Hst rid updated text. eexists. split; [| split; [| split]].
  - apply cancel_reservation_found with (r := r); eassumption.
  - intros i Hi. unfold updated. rewrite nth_error_map, Hi. simpl.
    unfold cancel_one, rid. rewrite String.eqb_refl, Hst. reflexivity.
  - simpl. apply in_or_app. left. apply in_or_app. right.
    apply already_cancelled_logged; assumption.
  - split; [| reflexivity].
    simpl. apply in_or_app. right. simpl. auto.
Qed.

(** ** Non-positive room counts *)

(** C3, as the code has it: with a room count that is not positive,
    [create_hotel] raises [ValueError] before anything is loaded, written
    or logged, and [create_reservation] does not raise: it logs an error
    and returns nothing, before anything is loaded or written. *)
Theorem nonpositive_rooms_rejected_before_storage {L : PyLib}
        (name city hotel_id customer_id uuid4 : string) (rooms : Z)
        (w : world) :
  rooms <= 0 ->
  create_hotel name city rooms uuid4 w = (Raise ValueError, w)
  /\ create_reservation hotel_id customer_id rooms uuid4 w
     = (Ok None, emit (EvLog RoomsMustBePositive) w)
  /\ untouched w (emit (EvLog RoomsMustBePositive) w).
Proof.
  intros H. split; [| split].
  - unfold create_hotel. destruct (Z.leb_spec rooms 0); [reflexivity | lia].
  - apply create_reservation_refused_early. exact H.
  - apply untouched_log.
Qed.

(** ** Loading *)

Section RawLoading.

Context {L : PyLib}.

Lemma load_raw_rows (key : coll) (w : world) (text : string)
      (rows : list json) :
  file key w = Some text ->
  json_loads text = inr (JList rows) ->
  _load_raw key w = (Ok rows, logged [EvExists key; EvRead key] w).
Proof.
  intros Hf Hj.
  assert (Hf' : file key (emit (EvExists key) w) = Some text)
    by (destruct key; exact Hf).
  unfold _load_raw, bind, path_exists, read_text.
  rewrite Hf. simpl. rewrite Hf', Hj.
  rewrite <- logged_nil at 1. rewrite !logged_emit. reflexivity.
Qed.

Lemma load_raw_unusable (key : coll) (w : world) :
  unusable key w ->
  exists w', _load_raw key w = (Ok [], w') /\ no_write w w'.
Proof.
  intros U.
  assert (N : no_write w (snd (_load_raw key w)))
    by apply reads_only_load_raw.
  assert (E : fst (_load_raw key w) = Ok []).
  { unfold _load_raw, bind, path_exists, read_text.
    destruct U as [Hf | text lineno colno Hf Hj | text v Hf Hj Hv].
    - rewrite Hf. reflexivity.
    - assert (Hf' : file key (emit (EvExists key) w) = Some text)
        by (destruct key; exact Hf).
      rewrite Hf. simpl. rewrite Hf', Hj. reflexivity.
    - assert (Hf' : file key (emit (EvExists key) w) = Some text)
        by (destruct key; exact Hf).
      rewrite Hf. simpl. rewrite Hf', Hj.
      destruct v; try reflexivity.
      exfalso. eapply Hv. reflexivity. }
  destruct (_load_raw key w) as [r w']. simpl in *. subst r.
  exists w'. split; [reflexivity | exact N].
Qed.

End RawLoading.

Section OtherErrors.

Context {L : PyLib}.

(** What [json.loads] raises, other than [JSONDecodeError], leaves
    [_load_raw]: its handler names that class only. *)
Lemma load_raw_escapes (key : coll) (w : world) (text : string) (e : exn) :
  file key w = Some text ->
  json_loads text = inl e ->
  (forall lineno colno, e <> JSONDecodeError lineno colno) ->
  _load_raw key w = (Raise e, logged [EvExists key; EvRead key] w).
Proof.
  intros Hf Hj Hne.
  assert (Hf' : file key (emit (EvExists key) w) = Some text)
    by (destruct key; exact Hf).
  unfold _load_raw, bind, path_exists, read_text.
  rewrite Hf. simpl. rewrite Hf', Hj.
  rewrite <- logged_nil at 1. rewrite !logged_emit.
  destruct e; try reflexivity.
  exfalso. eapply Hne. reflexivity.
Qed.

Lemma load_hotels_escapes (w : world) (text : string) (e : exn) :
  hotels_json w = Some text ->
  json_loads text = inl e ->
  (forall lineno colno, e <> JSONDecodeError lineno colno) ->
  fst (load_hotels w) = Raise e.
Proof.
  intros Hf Hj Hne. unfold load_hotels, bind.
  rewrite (load_raw_escapes K_hotels w Hf Hj Hne). reflexivity.
Qed.

End OtherErrors.

(** C6 at two hotels files, in a runtime with the limit of 4300 digits on
    int literals.  Text that does not parse, on which [json.loads] raises
    [JSONDecodeError], loads as the empty list.  A well-formed array that
    holds an int of 4301 digits does not: [json.loads] raises a plain
    [ValueError] on it, the handler of [_load_raw] lets it through, and
    [load_hotels] raises instead of returning the empty list. *)
Theorem load_hotels_long_integer_raises :
  fst (load_hotels (L := RefPy.limited) (hotels_file "{ invalid json"))
  = Ok []
  /\ RefPy.loads_limited long_integer_document = inl ValueError
  /\ fst (load_hotels (L := RefPy.limited)
                      (hotels_file long_integer_document))
     = Raise ValueError.
Proof.
  split; [vm_compute; reflexivity |].
  assert (E : RefPy.loads_limited long_integer_document = inl ValueError)
    by (vm_compute; reflexivity).
  split; [exact E |].
  apply (@load_hotels_escapes
           RefPy.limited (hotels_file long_integer_document)
           long_integer_document ValueError eq_refl E).
  intros lineno colno. discriminate.
Qed.

Section EntityLoading.

Context {L : PyLib}.

(** The loop on rows of which each is an entity or is refused with one
    of the three caught exceptions: the entities, in the order of their
    rows. *)
Lemma collect_hotels_skipping (rows : list json) (hotels : list Hotel.t) :
  Forall2 (fun row h => Hotel.build row = inr h) rows hotels ->
  forall acc w,
    collect Hotel.from_dict rows acc w = (Ok (acc ++ hotels), w).
Proof.
  induction 1 as [| row h rows hotels Hb _ IH]; intros acc w; simpl.
  - rewrite app_nil_r. reflexivity.
  - unfold bind, Hotel.from_dict. rewrite Hb. simpl.
    rewrite IH, <- app_assoc. reflexivity.
Qed.

Lemma collect_hotels_one_refused (before after : list json) (bad : json)
      (hs1 hs2 : list Hotel.t) (e : exn) :
  Forall2 (fun row h => Hotel.build row = inr h) before hs1 ->
  Forall2 (fun row h => Hotel.build row = inr h) after hs2 ->
  Hotel.build bad = inl e ->
  forall acc w,
    collect Hotel.from_dict (before ++ bad :: after) acc w
    = if caught e
      then (Ok (acc ++ hs1 ++ hs2), emit (EvLog (InvalidHotelRecord e)) w)
      else (Raise e, w).
Proof.
  intros H1 H2 Hbad.
  induction H1 as [| row h before hs1 Hb _ IH]; intros acc w; simpl.
  - unfold bind at 1, Hotel.from_dict. rewrite Hbad.
    destruct (caught e); [| reflexivity].
    unfold bind, logging_error. simpl.
    apply collect_hotels_skipping. exact H2.
  - unfold bind at 1, Hotel.from_dict at 1. rewrite Hb. simpl.
    rewrite IH, <- app_assoc. reflexivity.
Qed.

(** One malformed record among valid ones: when the exception of its
    construction is one of the three that [from_dict] catches, the loader
    returns the other entities in order; otherwise it raises. *)
Lemma load_hotels_one_refused (w : world) (text : string)
      (before after : list json) (bad : json)
      (hs1 hs2 : list Hotel.t) (e : exn) :
  hotels_json w = Some text ->
  json_loads text = inr (JList (before ++ bad :: after)) ->
  Forall2 (fun row h => Hotel.build row = inr h) before hs1 ->
  Forall2 (fun row h => Hotel.build row = inr h) after hs2 ->
  Hotel.build bad = inl e ->
  fst (load_hotels w) = if caught e then Ok (hs1 ++ hs2) else Raise e.
Proof.
  intros Hf Hj H1 H2 Hbad. unfold load_hotels, bind.
  rewrite load_raw_rows with (text := text) (rows := before ++ bad :: after)
    by assumption.
  rewrite collect_hotels_one_refused with (hs1 := hs1) (hs2 := hs2) (e := e)
    by assumption.
  destruct (caught e); reflexivity.
Qed.

(** A record whose [total_rooms] is an infinite float is refused with
    [OverflowError], which [from_dict] does not catch. *)
Lemma hotel_build_infinite (fields : list (string * json))
      (i n c : json) (s : bool) :
  lookup "hotel_id" fields = Some i ->
  lookup "name" fields = Some n ->
  lookup "city" fields = Some c ->
  lookup "total_rooms" fields = Some (JFloat (S754_infinity s)) ->
  Hotel.build (JDict fields) = inl OverflowError
  /\ caught OverflowError = false.
Proof.
  intros Hi Hn Hc Hr. unfold Hotel.build, getitem.
  rewrite Hi, Hn, Hc, Hr. split; reflexivity.
Qed.

End EntityLoading.

(** C7 at a store of ten records: with a fourth record that lacks
    [total_rooms], [load_hotels] returns the nine other hotels in order;
    with a fourth record whose [total_rooms] is [Infinity], a float that
    [int] refuses with [OverflowError], [load_hotels] raises and returns no
    hotel at all. *)
Theorem load_hotels_infinite_rooms_raises :
  fst (load_hotels
         (L := RefPy.lib)
         (hotels_file
            (RefPy.dumps
               (JList (ten_rows (JDict [("hotel_id", JStr "h-4")]))))))
  = Ok nine_hotels
  /\ fst (load_hotels
            (L := RefPy.lib)
            (hotels_file
               (RefPy.dumps
                  (JList (ten_rows
                            (hotel_row 4 (JFloat (S754_infinity false))))))))
     = Raise OverflowError.
Proof. split; vm_compute; reflexivity. Qed.

(** ** Saving what was loaded *)

Section RoundTrip.

Context {L : PyLib}.

Lemma hotel_from_to_dict (h : Hotel.t) (w : world) :
  Hotel.from_dict (Hotel.to_dict h) w = (Ok (Some h), w).
Proof. destruct h. reflexivity. Qed.

Lemma customer_from_to_dict (c : Customer.t) (w : world) :
  Customer.from_dict (Customer.to_dict c) w = (Ok (Some c), w).
Proof. destruct c. reflexivity. Qed.

Lemma reservation_from_to_dict (r : Reservation.t) (w : world) :
  Reservation.from_dict (Reservation.to_dict r) w = (Ok (Some r), w).
Proof. destruct r. reflexivity. Qed.

Lemma collect_round_trip {A : Type} (from_dict : json -> M (option A))
      (to_dict : A -> json) :
  (forall x w, from_dict (to_dict x) w = (Ok (Some x), w)) ->
  forall xs acc w,
    collect from_dict (map to_dict xs) acc w = (Ok (acc ++ xs), w).
Proof.
  intros H xs. induction xs as [| x xs IH]; intros acc w; simpl.
  - rewrite app_nil_r. reflexivity.
  - unfold bind. rewrite H, IH, <- app_assoc. reflexivity.
Qed.

Lemma load_saved (e : entities) (w : world) :
  file (key_of e) w = Some (json_dumps (JList (rows_of e))) ->
  json_loads (json_dumps (JList (rows_of e))) = inr (JList (rows_of e)) ->
  load (key_of e) w
  = (Ok e, logged [EvExists (key_of e); EvRead (key_of e)] w).
Proof.
  intros Hf Hj.
  pose proof (load_raw_rows (key_of e) w Hf Hj) as E.
  destruct e as [l | l | l]; unfold load; cbn [key_of rows_of] in *;
    unfold load_hotels, load_customers, load_reservations, bind;
    rewrite E.
  - rewrite (collect_round_trip _ _ hotel_from_to_dict). reflexivity.
  - rewrite (collect_round_trip _ _ customer_from_to_dict). reflexivity.
  - rewrite (collect_round_trip _ _ reservation_from_to_dict). reflexivity.
Qed.

Lemma save_writes (e : entities) (w : world) :
  let text := json_dumps (JList (rows_of e)) in
  save e w = (Ok tt, emit (EvWrite (key_of e) text) (store (key_of e) text w)).
Proof.
  destruct e; simpl;
    unfold save_hotels, save_customers, save_reservations, _save_raw,
      write_text;
    rewrite append_empty; reflexivity.
Qed.

Lemma keys_of_rows (e : entities) :
  Forall (fun row => keys row = field_names (key_of e)) (rows_of e).
Proof.
  destruct e as [l | l | l]; simpl; apply Forall_forall; intros row Hin;
    apply in_map_iff in Hin; destruct Hin as (x & <- & _); reflexivity.
Qed.

End RoundTrip.

(** The round trip on entities whose fields have their annotated types:
    for a collection whose file holds what its saver wrote for them (text
    that [json.loads] reads back as the rows that were serialized),
    loading returns the entities that were saved and saving them again
    leaves the three files as they were: the same text, character for
    character.  Every serialized record lists its fields in the order of
    the dataclass. *)
Theorem save_load_fixed_point {L : PyLib} (e : entities) (w : world) :
  let text := json_dumps (JList (rows_of e)) in
  file (key_of e) w = Some text ->
  json_loads text = inr (JList (rows_of e)) ->
  exists w1 w2,
    load (key_of e) w = (Ok e, w1)
    /\ save e w1 = (Ok tt, w2)
    /\ same_files w w2
    /\ file (key_of e) w2 = Some text
    /\ Forall (fun row => keys row = field_names (key_of e)) (rows_of e).
Proof.
  intros text Hf Hj. do 2 eexists.
  split; [apply load_saved; assumption |].
  split; [apply save_writes |].
  split; [| split; [| apply keys_of_rows]].
  - destruct e; simpl in *; repeat split; simpl; auto.
  - destruct e; reflexivity.
Qed.

(** C8 at the reservations file that [create_reservation] leaves when it
    is called with [True] for the rooms, the record with [rooms] written
    as [true]: loading gives a reservation of one room, [int(True)], and
    saving what was loaded writes [rooms] as [1].  The file is not what
    it was: content that a save produced is not a fixed point of a load
    followed by a save. *)
Theorem save_load_changes_boolean_rooms :
  let text := RefPy.dumps (JList [JDict truthy_record]) in
  let text' := RefPy.dumps (JList [Reservation.to_dict (booking "active" 1)]) in
  let w := mkWorld None None (Some text) [] in
  fst (load_reservations (L := RefPy.lib) w) = Ok [booking "active" 1]
  /\ reservations_json
       (snd (bind (load_reservations (L := RefPy.lib))
                  (save_reservations (L := RefPy.lib)) w))
     = Some text'
  /\ text' <> text.
Proof.
  intros text text' w. split; [| split].
  - vm_compute. reflexivity.
  - vm_compute. reflexivity.
  - intros E. vm_compute in E. discriminate E.
Qed.

(** ** Statuses other than the two of the model *)

Section OtherStatus.

Context {L : PyLib}.

Lemma reservation_from_dict_accepts (fields : list (string * json))
      (i h c r : json) (n : Z) (s : string) (w : world) :
  lookup "reservation_id" fields = Some i ->
  lookup "hotel_id" fields = Some h ->
  lookup "customer_id" fields = Some c ->
  lookup "rooms" fields = Some r ->
  py_int r = inr n ->
  lookup "status" fields = Some (JStr s) ->
  Reservation.from_dict (JDict fields) w
  = (Ok (Some (Reservation.mk (py_str i) (py_str h) (py_str c) n s)), w).
Proof.
  intros Hi Hh Hc Hr Hn Hs.
  unfold Reservation.from_dict, Reservation.build, getitem, dict_get.
  rewrite Hi, Hh, Hc, Hr. simpl. rewrite Hn. simpl. rewrite Hs.
  reflexivity.
Qed.

Lemma inactive_not_counted (hotel : Hotel.t) (r : Reservation.t)
      (before after : list Reservation.t) :
  Reservation.status r <> "active" ->
  _hotel_available_rooms hotel (before ++ r :: after)
  = _hotel_available_rooms hotel (before ++ after).
Proof.
  intros Hst. unfold _hotel_available_rooms.
  rewrite !filter_app. simpl.
  destruct (active_for_hotel (Hotel.hotel_id hotel) r) eqn:E;
    [| reflexivity].
  apply active_for_hotel_true in E. tauto.
Qed.

Lemma inactive_not_blocking_hotel (hotel_id : string) (r : Reservation.t)
      (before after : list Reservation.t) :
  Reservation.status r <> "active" ->
  existsb (active_for_hotel hotel_id) (before ++ r :: after)
  = existsb (active_for_hotel hotel_id) (before ++ after).
Proof.
  intros Hst. rewrite !existsb_app. simpl.
  destruct (active_for_hotel hotel_id r) eqn:E; [| reflexivity].
  apply active_for_hotel_true in E. tauto.
Qed.

Lemma inactive_not_blocking_customer (customer_id : string)
      (r : Reservation.t) (before after : list Reservation.t) :
  Reservation.status r <> "active" ->
  existsb (active_for_customer customer_id) (before ++ r :: after)
  = existsb (active_for_customer customer_id) (before ++ after).
Proof.
  intros Hst. rewrite !existsb_app. simpl.
  destruct (active_for_customer customer_id r) eqn:E; [| reflexivity].
  apply active_for_customer_true in E. tauto.
Qed.

End OtherStatus.

(** C9: a reservation record whose [status] is a string other than
    ['active'] and ['cancelled'] (its other fields being in order) is
    accepted by [from_dict] as it is, nothing logged.  The reservation is
    not active: in any list it leaves the available rooms of every hotel
    and the guards of [delete_hotel] and [delete_customer] as they are
    without it, and a hotel or a customer in storage that it references,
    and that only reservations of its status reference, is deleted. *)
Theorem unknown_status_is_not_active {L : PyLib}
        (fields : list (string * json)) (i h c r : json) (n : Z)
        (s : string) :
  lookup "reservation_id" fields = Some i ->
  lookup "hotel_id" fields = Some h ->
  lookup "customer_id" fields = Some c ->
  lookup "rooms" fields = Some r ->
  py_int r = inr n ->
  lookup "status" fields = Some (JStr s) ->
  s <> "active" ->
  s <> "cancelled" ->
  let res := Reservation.mk (py_str i) (py_str h) (py_str c) n s in
  (forall w, Reservation.from_dict (JDict fields) w = (Ok (Some res), w))
  /\ (forall hotel before after,
        _hotel_available_rooms hotel (before ++ res :: after)
        = _hotel_available_rooms hotel (before ++ after))
  /\ (forall hotel_id before after,
        existsb (active_for_hotel hotel_id) (before ++ res :: after)
        = existsb (active_for_hotel hotel_id) (before ++ after))
  /\ (forall customer_id before after,
        existsb (active_for_customer customer_id) (before ++ res :: after)
        = existsb (active_for_customer customer_id) (before ++ after))
  /\ (forall w w1 hotels customers reservations hotel,
        _load_all w = (Ok (hotels, customers, reservations), w1) ->
        In res reservations ->
        In hotel hotels ->
        Reservation.hotel_id res = Hotel.hotel_id hotel ->
        (forall x, In x reservations ->
                   Reservation.hotel_id x = Hotel.hotel_id hotel ->
                   Reservation.status x = s) ->
        fst (delete_hotel (Hotel.hotel_id hotel) w) = Ok true)
  /\ (forall w w1 hotels customers reservations customer,
        _load_all w = (Ok (hotels, customers, reservations), w1) ->
        In res reservations ->
        In customer customers ->
        Reservation.customer_id res = Customer.customer_id customer ->
        (forall x, In x reservations ->
                   Reservation.customer_id x = Customer.customer_id customer ->
                   Reservation.status x = s) ->
        fst (delete_customer (Customer.customer_id customer) w) = Ok true).
Proof.
  intros Hi Hh Hc Hr Hn Hs Hact Hcan res.
  split; [| split; [| split; [| split; [| split]]]].
  - intros w. apply reservation_from_dict_accepts with (r := r); assumption.
  - intros. apply inactive_not_counted. exact Hact.
  - intros. apply inactive_not_blocking_hotel. exact Hact.
  - intros. apply inactive_not_blocking_customer. exact Hact.
  - intros w w1 hotels customers reservations hotel Hload _ Hin _ Hall.
    erewrite delete_hotel_done; eauto.
    intros x Hx Hid. rewrite (Hall x Hx Hid). exact Hact.
  - intros w w1 hotels customers reservations customer Hload _ Hin _ Hall.
    erewrite delete_customer_done; eauto.
    intros x Hx Hid. rewrite (Hall x Hx Hid). exact Hact.
Qed.

(** * The results on the example stores *)

(** C1 as stated fails where no room is left: the hotel has five rooms,
    all taken by an active reservation; a reservation for the zero rooms
    that are available returns nothing. *)
Lemma create_reservation_full_hotel_refused :
  let w := store_of [azure] [isaac] [booking "active" 5] in
  fst (_load_all (L := RefPy.lib) w)
  = Ok ([azure], [isaac], [booking "active" 5])
  /\ _hotel_available_rooms azure [booking "active" 5] = 0
  /\ fst (create_reservation (L := RefPy.lib) "h-1" "c-1" 0 "r-2" w) = Ok None.
Proof. repeat split; vm_compute; reflexivity. Qed.

Lemma create_reservation_capacity_boundary_witness :
  let w := store_of [azure] [isaac] [booking "active" 2] in
  let w1 := logged loading w in
  let res := Reservation.mk "r-2" "h-1" "c-1" 3 "active" in
  _load_all (L := RefPy.lib) w
  = (Ok ([azure], [isaac], [booking "active" 2]), w1)
  /\ find (fun h => String.eqb (Hotel.hotel_id h) "h-1") [azure] = Some azure
  /\ find (fun c => String.eqb (Customer.customer_id c) "c-1") [isaac]
     = Some isaac
  /\ create_reservation (L := RefPy.lib) "h-1" "c-1" 3 "r-2" w
     = (Ok (Some res),
        saved (L := RefPy.lib) [azure] [isaac] [booking "active" 2; res] w1)
  /\ fst (create_reservation (L := RefPy.lib) "h-1" "c-1" 4 "r-2" w) = Ok None.
Proof.
  intros w w1 res.
  assert (Hl : _load_all (L := RefPy.lib) w
               = (Ok ([azure], [isaac], [booking "active" 2]), w1))
    by (vm_compute; reflexivity).
  destruct (@create_reservation_capacity_boundary
              RefPy.lib w w1 _ _ _ "h-1" "c-1" "r-2" azure isaac
              Hl eq_refl eq_refl)
    as [A (w2 & B & _)].
  split; [exact Hl |]. split; [reflexivity |]. split; [reflexivity |]. split.
  - exact (A eq_refl).
  - change (3 + 1) with 4 in B.
    exact (f_equal fst B).
Defined.

(** C2 as stated fails on its return value: cancelling the cancelled
    reservation of the store returns [True]. *)
Lemma cancel_cancelled_returns_true :
  let w := store_of [azure] [isaac] [booking "cancelled" 2] in
  fst (_load_all (L := RefPy.lib) w)
  = Ok ([azure], [isaac], [booking "cancelled" 2])
  /\ fst (cancel_reservation (L := RefPy.lib) "r-1" w) = Ok true.
Proof. split; vm_compute; reflexivity. Qed.

Lemma cancel_cancelled_reservation_witness :
  let w := store_of [azure] [isaac] [booking "cancelled" 2] in
  let w1 := logged loading w in
  let text :=
    RefPy.dumps (JList [Reservation.to_dict (booking "cancelled" 2)]) in
  _load_all (L := RefPy.lib) w
  = (Ok ([azure], [isaac], [booking "cancelled" 2]), w1)
  /\ In (booking "cancelled" 2) [booking "cancelled" 2]
  /\ Reservation.status (booking "cancelled" 2) = "cancelled"
  /\ exists w2,
       cancel_reservation (L := RefPy.lib) "r-1" w = (Ok true, w2)
       /\ In (EvLog (ReservationAlreadyCancelled "r-1")) (trace w2)
       /\ In (EvWrite K_reservations text) (trace w2)
       /\ reservations_json w2 = Some text.
Proof.
  intros w w1 text.
  assert (Hl : _load_all (L := RefPy.lib) w
               = (Ok ([azure], [isaac], [booking "cancelled" 2]), w1))
    by (vm_compute; reflexivity).
  destruct (@cancel_cancelled_reservation
              RefPy.lib w w1 _ _ _ (booking "cancelled" 2)
              Hl (or_introl eq_refl) eq_refl)
    as (w2 & A & _ & B & C & D).
  split; [exact Hl |]. split; [left; reflexivity |]. split; [reflexivity |].
  exists w2. repeat split; assumption.
Defined.

(** C3 as stated fails for reservations: with zero rooms
    [create_reservation] raises nothing, it returns [None]. *)
Lemma create_reservation_zero_rooms_returns :
  let w := store_of [azure] [isaac] [] in
  create_reservation (L := RefPy.lib) "h-1" "c-1" 0 "r-1" w
  = (Ok None, emit (EvLog RoomsMustBePositive) w).
Proof. reflexivity. Qed.

Lemma nonpositive_rooms_rejected_before_storage_witness :
  let w := store_of [azure] [isaac] [] in
  -1 <= 0
  /\ create_hotel (L := RefPy.lib) "Sol" "Puebla" (-1) "h-2" w
     = (Raise ValueError, w)
  /\ create_reservation (L := RefPy.lib) "h-1" "c-1" (-1) "r-1" w
     = (Ok None, emit (EvLog RoomsMustBePositive) w)
  /\ untouched w (emit (EvLog RoomsMustBePositive) w).
Proof.
  intros w.
  assert (H : -1 <= 0) by lia.
  split; [exact H |].
  exact (@nonpositive_rooms_rejected_before_storage
           RefPy.lib "Sol" "Puebla" "h-1" "c-1" "h-2" (-1) w H).
Defined.

Lemma delete_guarded_by_active_reservations_witness :
  let w := store_of [azure; sol] [isaac; ana]
                    [booking "active" 1; stay "cancelled" 1] in
  let w1 := logged loading w in
  _load_all (L := RefPy.lib) w
  = (Ok ([azure; sol], [isaac; ana],
         [booking "active" 1; stay "cancelled" 1]), w1)
  /\ (exists w2, delete_hotel (L := RefPy.lib) "h-1" w = (Ok false, w2)
                 /\ no_write w w2)
  /\ (exists w2, delete_customer (L := RefPy.lib) "c-1" w = (Ok false, w2)
                 /\ no_write w w2)
  /\ delete_hotel (L := RefPy.lib) "h-2" w
     = (Ok true,
        saved (L := RefPy.lib) [azure] [isaac; ana]
              [booking "active" 1; stay "cancelled" 1] w1)
  /\ delete_customer (L := RefPy.lib) "c-2" w
     = (Ok true,
        saved (L := RefPy.lib) [azure; sol] [isaac]
              [booking "active" 1; stay "cancelled" 1] w1).
Proof.
  intros w w1.
  assert (Hl : _load_all (L := RefPy.lib) w
               = (Ok ([azure; sol], [isaac; ana],
                      [booking "active" 1; stay "cancelled" 1]), w1))
    by (vm_compute; reflexivity).
  destruct (@delete_guarded_by_active_reservations RefPy.lib w w1 _ _ _ Hl)
    as (A & B & C).
  destruct (A (booking "active" 1) (or_introl eq_refl) eq_refl) as [A1 A2].
  assert (Hsol : forall r,
             In r [booking "active" 1; stay "cancelled" 1] ->
             Reservation.hotel_id r = Hotel.hotel_id sol ->
             Reservation.status r = "cancelled").
  { intros r [<- | [<- | []]] E; [discriminate E | reflexivity]. }
  assert (Hana : forall r,
             In r [booking "active" 1; stay "cancelled" 1] ->
             Reservation.customer_id r = Customer.customer_id ana ->
             Reservation.status r = "cancelled").
  { intros r [<- | [<- | []]] E; [discriminate E | reflexivity]. }
  split; [exact Hl |]. split; [exact A1 |]. split; [exact A2 |]. split.
  - exact (proj1 (B sol (or_intror (or_introl eq_refl)) Hsol)).
  - exact (proj1 (C ana (or_intror (or_introl eq_refl)) Hana)).
Defined.

Lemma delete_dangling_reference_witness :
  let w := store_of [] [] [booking "active" 1] in
  let w1 := logged loading w in
  _load_all (L := RefPy.lib) w = (Ok ([], [], [booking "active" 1]), w1)
  /\ In (booking "active" 1) [booking "active" 1]
  /\ Reservation.status (booking "active" 1) = "active"
  /\ delete_hotel (L := RefPy.lib) "h-1" w
     = (Ok false, emit (EvLog (CannotDeleteHotel "h-1")) w1)
  /\ delete_customer (L := RefPy.lib) "c-1" w
     = (Ok false, emit (EvLog (CannotDeleteCustomer "c-1")) w1).
Proof.
  intros w w1.
  assert (Hl : _load_all (L := RefPy.lib) w
               = (Ok ([], [], [booking "active" 1]), w1))
    by (vm_compute; reflexivity).
  destruct (@delete_dangling_reference
              RefPy.lib w w1 _ _ _ (booking "active" 1)
              Hl (or_introl eq_refl) eq_refl)
    as [A B].
  split; [exact Hl |]. split; [left; reflexivity |]. split; [reflexivity |].
  split.
  - exact (proj1 (A (fun h (F : In h []) => match F with end))).
  - exact (proj1 (B (fun c (F : In c []) => match F with end))).
Defined.

Lemma save_load_fixed_point_witness :
  let e := Reservations [booking "active" 2; stay "cancelled" 1] in
  let w := store_of [azure; sol] [isaac; ana]
                    [booking "active" 2; stay "cancelled" 1] in
  let text := RefPy.dumps (JList (rows_of e)) in
  file (key_of e) w = Some text
  /\ RefPy.loads text = inr (JList (rows_of e))
  /\ exists w1 w2,
       load (L := RefPy.lib) K_reservations w = (Ok e, w1)
       /\ save (L := RefPy.lib) e w1 = (Ok tt, w2)
       /\ same_files w w2
       /\ reservations_json w2 = Some text.
Proof.
  intros e w text.
  assert (Hf : file (key_of e) w = Some text) by reflexivity.
  assert (Hj : RefPy.loads text = inr (JList (rows_of e)))
    by (vm_compute; reflexivity).
  destruct (@save_load_fixed_point RefPy.lib e w Hf Hj)
    as (w1 & w2 & A & B & C & D & _).
  split; [exact Hf |]. split; [exact Hj |].
  exists w1, w2. repeat split; try assumption; apply C.
Defined.

Lemma unknown_status_is_not_active_witness :
  let w := store_of [azure] [isaac] [booking "Active" 2] in
  let w1 := logged loading w in
  lookup "status" odd_record = Some (JStr "Active")
  /\ "Active" <> "active"
  /\ "Active" <> "cancelled"
  /\ _load_all (L := RefPy.lib) w
     = (Ok ([azure], [isaac], [booking "Active" 2]), w1)
  /\ (forall w0, Reservation.from_dict (L := RefPy.lib) (JDict odd_record) w0
                 = (Ok (Some (booking "Active" 2)), w0))
  /\ _hotel_available_rooms azure [booking "Active" 2] = 5
  /\ fst (delete_hotel (L := RefPy.lib) "h-1" w) = Ok true
  /\ fst (delete_customer (L := RefPy.lib) "c-1" w) = Ok true.
Proof.
  intros w w1.
  assert (Hl : _load_all (L := RefPy.lib) w
               = (Ok ([azure], [isaac], [booking "Active" 2]), w1))
    by (vm_compute; reflexivity).
  assert (N1 : "Active" <> "active") by discriminate.
  assert (N2 : "Active" <> "cancelled") by discriminate.
  destruct (@unknown_status_is_not_active
              RefPy.lib odd_record (JStr "r-1") (JStr "h-1") (JStr "c-1")
              (JInt 2) 2 "Active"
              eq_refl eq_refl eq_refl eq_refl eq_refl eq_refl N1 N2)
    as (A & B & _ & _ & C & D).
  assert (Hall : forall x, In x [booking "Active" 2] ->
                           Reservation.status x = "Active").
  { intros x [<- | []]. reflexivity. }
  split; [reflexivity |]. split; [exact N1 |]. split; [exact N2 |].
  split; [exact Hl |]. split; [exact A |]. split; [| split].
  - exact (eq_trans (eq_sym (B azure [] [])) eq_refl).
  - exact (C w w1 _ _ _ azure Hl (or_introl eq_refl) (or_introl eq_refl)
             eq_refl (fun x Hx _ => Hall x Hx)).
  - exact (D w w1 _ _ _ isaac Hl (or_introl eq_refl) (or_introl eq_refl)
             eq_refl (fun x Hx _ => Hall x Hx)).
Defined.

(** * Further results on the services *)

(** ** Loading what was saved *)

Lemma no_write_logged (evs : list event) (w : world) :
  forallb (fun e => negb (is_write e)) evs = true -> no_write w (logged evs w).
Proof.
  intros H. split; [repeat split |]. exists evs. split; [reflexivity | exact H].
Qed.

Lemma logged_app (evs1 evs2 : list event) (w : world) :
  logged evs2 (logged evs1 w) = logged (evs1 ++ evs2) w.
Proof. unfold logged. simpl. rewrite <- app_assoc. reflexivity. Qed.

Section SavedStores.

Context {L : PyLib}.

Lemma load_hotels_saved (hotels : list Hotel.t) (w : world) :
  hotels_json w = Some (json_dumps (JList (map Hotel.to_dict hotels))) ->
  reads_back (Hotels hotels) ->
  load_hotels w = (Ok hotels, logged [EvExists K_hotels; EvRead K_hotels] w).
Proof.
  intros Hf Hj. unfold reads_back in Hj. cbn [rows_of] in Hj.
  unfold load_hotels, bind.
  rewrite (load_raw_rows K_hotels w Hf Hj).
  rewrite (collect_round_trip _ _ hotel_from_to_dict). reflexivity.
Qed.

Lemma load_customers_saved (customers : list Customer.t) (w : world) :
  customers_json w
  = Some (json_dumps (JList (map Customer.to_dict customers))) ->
  reads_back (Customers customers) ->
  load_customers w
  = (Ok customers, logged [EvExists K_customers; EvRead K_customers] w).
Proof.
  intros Hf Hj. unfold reads_back in Hj. cbn [rows_of] in Hj.
  unfold load_customers, bind.
  rewrite (load_raw_rows K_customers w Hf Hj).
  rewrite (collect_round_trip _ _ customer_from_to_dict). reflexivity.
Qed.

Lemma load_reservations_saved (reservations : list Reservation.t)
      (w : world) :
  reservations_json w
  = Some (json_dumps (JList (map Reservation.to_dict reservations))) ->
  reads_back (Reservations reservations) ->
  load_reservations w
  = (Ok reservations,
     logged [EvExists K_reservations; EvRead K_reservations] w).
Proof.
  intros Hf Hj. unfold reads_back in Hj. cbn [rows_of] in Hj.
  unfold load_reservations, bind.
  rewrite (load_raw_rows K_reservations w Hf Hj).
  rewrite (collect_round_trip _ _ reservation_from_to_dict). reflexivity.
Qed.

Lemma load_all_saved (hotels : list Hotel.t) (customers : list Customer.t)
      (reservations : list Reservation.t) (w : world) :
  store_reads_back hotels customers reservations ->
  _load_all (saved hotels customers reservations w)
  = (Ok (hotels, customers, reservations),
     logged loading (saved hotels customers reservations w)).
Proof.
  intros (Hh & Hc & Hr). unfold _load_all, bind.
  rewrite load_hotels_saved with (hotels := hotels)
    by (reflexivity || exact Hh).
  rewrite load_customers_saved with (customers := customers)
    by (reflexivity || exact Hc).
  rewrite load_reservations_saved with (reservations := reservations)
    by (reflexivity || exact Hr).
  rewrite !logged_app. reflexivity.
Qed.

End SavedStores.

(** X1: what [_save_all] wrote, [_load_all] returns: the same hotels,
    customers and reservations in the same order, when the JSON library
    reads back the three texts it produced; loading writes nothing. *)
Theorem load_all_after_save_all {L : PyLib}
        (hotels : list Hotel.t) (customers : list Customer.t)
        (reservations : list Reservation.t) (w : world) :
  store_reads_back hotels customers reservations ->
  exists w1 w2,
    _save_all hotels customers reservations w = (Ok tt, w1)
    /\ _load_all w1 = (Ok (hotels, customers, reservations), w2)
    /\ no_write w1 w2.
Proof.
  intros H. do 2 eexists. split; [apply save_all_saved |]. split.
  - apply load_all_saved. exact H.
  - apply no_write_logged. reflexivity.
Qed.

(** ** A call writes the three collections once, or nothing *)

Lemma already_cancelled_quiet (reservation_id : string)
      (reservations : list Reservation.t) :
  forallb (fun e => negb (is_write e))
          (already_cancelled reservation_id reservations) = true.
Proof.
  unfold already_cancelled.
  induction reservations as [| r rest IH]; simpl; [reflexivity |].
  rewrite forallb_app, IH, andb_true_r.
  destruct (_ && _); reflexivity.
Qed.

Section Modifying.

Context {L : PyLib}.

Lemma modify_hotel_loop_spec (hotel_id : string) (name city : option string)
      (total_rooms : option Z) (hotels : list Hotel.t) :
  forall (new_hotels : list Hotel.t) (found : bool) (w : world),
    modify_hotel_loop hotel_id name city total_rooms hotels new_hotels found w
    = if rooms_in_order hotel_id total_rooms hotels
      then (Ok (Some (new_hotels
                      ++ map (update_hotel hotel_id name city total_rooms)
                             hotels,
                      found
                      || existsb (fun h => String.eqb (Hotel.hotel_id h)
                                                      hotel_id)
                                 hotels)),
            w)
      else (Ok None, emit (EvLog TotalRoomsMustBePositive) w).
Proof.
  unfold rooms_in_order.
  induction hotels as [| h rest IH]; intros new_hotels found w; simpl.
  - rewrite app_nil_r, orb_false_r. reflexivity.
  - unfold update_hotel at 1, rooms_after at 1.
    destruct (String.eqb (Hotel.hotel_id h) hotel_id); simpl.
    + fold (rooms_after total_rooms h).
      destruct (Z.leb_spec (rooms_after total_rooms h) 0) as [Hle | Hgt].
      * destruct (Z.ltb_spec 0 (rooms_after total_rooms h)); [lia |].
        reflexivity.
      * destruct (Z.ltb_spec 0 (rooms_after total_rooms h)); [| lia].
        simpl. rewrite IH, <- app_assoc, orb_true_r. reflexivity.
    + rewrite IH, <- app_assoc. reflexivity.
Qed.

Lemma modify_customer_loop_spec (customer_id : string)
      (name email : option string) (customers : list Customer.t) :
  forall (new_customers : list Customer.t) (found : bool),
    modify_customer_loop customer_id name email customers new_customers found
    = (new_customers ++ map (update_customer customer_id name email) customers,
       found
       || existsb (fun c => String.eqb (Customer.customer_id c) customer_id)
                  customers).
Proof.
  induction customers as [| c rest IH]; intros new_customers found; simpl.
  - rewrite app_nil_r, orb_false_r. reflexivity.
  - unfold update_customer at 1.
    destruct (String.eqb (Customer.customer_id c) customer_id); simpl.
    + rewrite IH, <- app_assoc, orb_true_r. reflexivity.
    + rewrite IH, <- app_assoc. reflexivity.
Qed.

Variables (w w1 : world) (hotels : list Hotel.t)
          (customers : list Customer.t) (reservations : list Reservation.t).

Hypothesis loaded : _load_all w = (Ok (hotels, customers, reservations), w1).

(** The three ways [modify_hotel] ends on a store that loads. *)
Lemma modify_hotel_loaded (hotel_id : string) (name city : option string)
      (total_rooms : option Z) :
  modify_hotel hotel_id name city total_rooms w
  = if rooms_in_order hotel_id total_rooms hotels
    then
      if existsb (fun h => String.eqb (Hotel.hotel_id h) hotel_id) hotels
      then (Ok true,
            saved (map (update_hotel hotel_id name city total_rooms) hotels)
                  customers reservations w1)
      else (Ok false, emit (EvLog (HotelNotFound hotel_id)) w1)
    else (Ok false, emit (EvLog TotalRoomsMustBePositive) w1).
Proof.
  unfold modify_hotel, bind at 1. rewrite loaded.
  unfold bind at 1. rewrite modify_hotel_loop_spec.
  destruct (rooms_in_order hotel_id total_rooms hotels); [| reflexivity].
  simpl.
  destruct (existsb _ hotels); simpl; [| reflexivity].
  unfold bind. rewrite save_all_saved. reflexivity.
Qed.

(** The two ways [modify_customer] ends on a store that loads. *)
Lemma modify_customer_loaded (customer_id : string)
      (name email : option string) :
  modify_customer customer_id name email w
  = if existsb (fun c => String.eqb (Customer.customer_id c) customer_id)
               customers
    then (Ok true,
          saved hotels
                (map (update_customer customer_id name email) customers)
                reservations w1)
    else (Ok false, emit (EvLog (CustomerNotFound customer_id)) w1).
Proof.
  unfold modify_customer, bind at 1. rewrite loaded.
  rewrite modify_customer_loop_spec. simpl.
  destruct (existsb _ customers); simpl; [| reflexivity].
  unfold bind. rewrite save_all_saved. reflexivity.
Qed.

Lemma committed_loaded (hs : list Hotel.t) (cs : list Customer.t)
      (rs : list Reservation.t) :
  committed w (saved hs cs rs w1).
Proof.
  exists hs, cs, rs, w1. split; [| reflexivity].
  eapply load_all_no_write. exact loaded.
Qed.

Lemma no_write_loaded_log (m : log_msg) : no_write w (emit (EvLog m) w1).
Proof.
  eapply no_write_trans.
  - eapply load_all_no_write. exact loaded.
  - apply no_write_emit. reflexivity.
Qed.

Lemma cancel_reservation_loaded (reservation_id : string) :
  cancel_reservation reservation_id w
  = if existsb (fun r => String.eqb (Reservation.reservation_id r)
                                    reservation_id)
               reservations
    then (Ok true,
          saved hotels customers
                (map (cancel_one reservation_id) reservations)
                (logged (already_cancelled reservation_id reservations) w1))
    else (Ok false,
          emit (EvLog (ReservationNotFound reservation_id))
               (logged (already_cancelled reservation_id reservations) w1)).
Proof.
  unfold cancel_reservation, bind at 1. rewrite loaded.
  unfold bind at 1. rewrite cancel_loop_spec. simpl.
  destruct (existsb _ reservations); simpl; [| reflexivity].
  unfold bind. rewrite save_all_saved. reflexivity.
Qed.

Lemma no_write_loaded_logged (evs : list event) :
  forallb (fun e => negb (is_write e)) evs = true ->
  no_write w (logged evs w1).
Proof.
  intros H. eapply no_write_trans.
  - eapply load_all_no_write. exact loaded.
  - apply no_write_logged. exact H.
Qed.

End Modifying.

Lemma bind_ok {A B : Type} (m : M A) (k : A -> M B) (w w1 : world) (a : A) :
  m w = (Ok a, w1) -> bind m k w = k a w1.
Proof. intros E. unfold bind. rewrite E. reflexivity. Qed.

Lemma bind_raise {A B : Type} (m : M A) (k : A -> M B) (w w1 : world)
      (e : exn) :
  m w = (Raise e, w1) -> bind m k w = (Raise e, w1).
Proof. intros E. unfold bind. rewrite E. reflexivity. Qed.

(** The two ways [_load_all] ends, in a call that starts with it. *)
Ltac on_load w :=
  let E := fresh "E" in
  destruct (_load_all w) as [[[[? ?] ?] | ?] ?] eqn:E;
  [ rewrite !(@bind_ok _ _ _ _ _ _ _ E)
  | rewrite !(@bind_raise _ _ _ _ _ _ _ E); simpl; exact I ].

Ltac finish_call :=
  unfold bind, logging_error, ret; rewrite ?save_all_saved; simpl;
  first [ eapply committed_loaded; eassumption
        | eapply no_write_loaded_log; eassumption ].

(** X2: what [delete_hotel] and [delete_customer] return tells what they
    wrote, in every state of the store: a call that returns [True] has
    written the three collections once, after loading; a call that
    returns [False] has written nothing. *)
Theorem delete_result_tells_writes {L : PyLib} (id : string) (w : world) :
  match fst (delete_hotel id w) with
  | Ok true => committed w (snd (delete_hotel id w))
  | Ok false => no_write w (snd (delete_hotel id w))
  | Raise _ => True
  end
  /\ match fst (delete_customer id w) with
     | Ok true => committed w (snd (delete_customer id w))
     | Ok false => no_write w (snd (delete_customer id w))
     | Raise _ => True
     end.
Proof.
  split.
  - unfold delete_hotel. on_load w.
    destruct (existsb _ _); [finish_call |].
    destruct (Nat.eqb _ _); finish_call.
  - unfold delete_customer. on_load w.
    destruct (existsb _ _); [finish_call |].
    destruct (Nat.eqb _ _); finish_call.
Qed.

(** X3: what [create_reservation] and [cancel_reservation] return tells
    what they wrote, in every state of the store: a call that returns a
    reservation, or [True], has written the three collections once, after
    loading; a call that returns [None], or [False], has written
    nothing. *)
Theorem reserve_cancel_result_tells_writes {L : PyLib}
        (hotel_id customer_id uuid4 reservation_id : string) (rooms : Z)
        (w : world) :
  match fst (create_reservation hotel_id customer_id rooms uuid4 w) with
  | Ok (Some _) =>
      committed w (snd (create_reservation hotel_id customer_id rooms uuid4 w))
  | Ok None =>
      no_write w (snd (create_reservation hotel_id customer_id rooms uuid4 w))
  | Raise _ => True
  end
  /\ match fst (cancel_reservation reservation_id w) with
     | Ok true => committed w (snd (cancel_reservation reservation_id w))
     | Ok false => no_write w (snd (cancel_reservation reservation_id w))
     | Raise _ => True
     end.
Proof.
  split.
  - unfold create_reservation.
    destruct (rooms <=? 0); [apply no_write_emit; reflexivity |].
    on_load w.
    destruct (find _ _); [| finish_call].
    destruct (find _ _); [| finish_call].
    destruct (_ <? _); finish_call.
  - destruct (_load_all w) as [[[[hs cs] rs] | e] w1] eqn:E.
    + rewrite cancel_reservation_loaded with (1 := E).
      destruct (existsb _ _); simpl.
      * exists hs, cs, (map (cancel_one reservation_id) rs),
          (logged (already_cancelled reservation_id rs) w1).
        split; [| reflexivity].
        eapply no_write_loaded_logged; [exact E |].
        apply already_cancelled_quiet.
      * eapply no_write_trans;
          [| apply no_write_emit; reflexivity].
        eapply no_write_loaded_logged; [exact E |].
        apply already_cancelled_quiet.
    + unfold cancel_reservation. rewrite !(@bind_raise _ _ _ _ _ _ _ E).
      simpl. exact I.
Qed.

(** X4: a create returns what it stored.  In every state of the store,
    when [create_hotel] returns a hotel the three collections had loaded,
    the rooms are positive, the hotel is the one made of the fresh
    identifier, the stripped name and city and the rooms, and the three
    collections were written once with that hotel after the hotels that
    were loaded, which keep their order.  The same holds for
    [create_customer] and the customers, with no condition on its
    arguments. *)
Theorem create_returns_what_it_stored {L : PyLib}
        (name city email uuid4 : string) (total_rooms : Z) (w : world) :
  match fst (create_hotel name city total_rooms uuid4 w) with
  | Ok h =>
      exists hotels customers reservations w1,
        _load_all w = (Ok (hotels, customers, reservations), w1)
        /\ 0 < total_rooms
        /\ h = Hotel.mk uuid4 (strip name) (strip city) total_rooms
        /\ snd (create_hotel name city total_rooms uuid4 w)
           = saved (hotels ++ [h]) customers reservations w1
  | Raise _ => True
  end
  /\ match fst (create_customer name email uuid4 w) with
     | Ok c =>
         exists hotels customers reservations w1,
           _load_all w = (Ok (hotels, customers, reservations), w1)
           /\ c = Customer.mk uuid4 (strip name) (strip email)
           /\ snd (create_customer name email uuid4 w)
              = saved hotels (customers ++ [c]) reservations w1
     | Raise _ => True
     end.
Proof.
  split.
  - unfold create_hotel.
    destruct (Z.leb_spec total_rooms 0) as [| Hpos]; [exact I |].
    destruct (_load_all w) as [[[[hs cs] rs] | e] w1] eqn:E.
    + rewrite !(@bind_ok _ _ _ _ _ _ _ E).
      unfold bind. rewrite save_all_saved. simpl.
      exists hs, cs, rs, w1. repeat split. exact Hpos.
    + rewrite !(@bind_raise _ _ _ _ _ _ _ E). exact I.
  - unfold create_customer.
    destruct (_load_all w) as [[[[hs cs] rs] | e] w1] eqn:E.
    + rewrite !(@bind_ok _ _ _ _ _ _ _ E).
      unfold bind. rewrite save_all_saved. simpl.
      exists hs, cs, rs, w1. repeat split.
    + rewrite !(@bind_raise _ _ _ _ _ _ _ E). exact I.
Qed.

(** X5: what [modify_hotel] and [modify_customer] return tells what they
    wrote, in every state of the store: a call that returns [True] has
    written the three collections once, after loading; a call that
    returns [False] has written nothing. *)
Theorem modify_result_tells_writes {L : PyLib}
        (id : string) (name city email : option string)
        (total_rooms : option Z) (w : world) :
  match fst (modify_hotel id name city total_rooms w) with
  | Ok true => committed w (snd (modify_hotel id name city total_rooms w))
  | Ok false => no_write w (snd (modify_hotel id name city total_rooms w))
  | Raise _ => True
  end
  /\ match fst (modify_customer id name email w) with
     | Ok true => committed w (snd (modify_customer id name email w))
     | Ok false => no_write w (snd (modify_customer id name email w))
     | Raise _ => True
     end.
Proof.
  split.
  - destruct (_load_all w) as [[[[hs cs] rs] | e] w1] eqn:E.
    + rewrite modify_hotel_loaded with (1 := E).
      destruct (rooms_in_order _ _ _);
        [destruct (existsb _ _) |]; simpl;
        first [ eapply committed_loaded; eassumption
              | eapply no_write_loaded_log; eassumption ].
    + unfold modify_hotel. rewrite !(@bind_raise _ _ _ _ _ _ _ E).
      simpl. exact I.
  - destruct (_load_all w) as [[[[hs cs] rs] | e] w1] eqn:E.
    + rewrite modify_customer_loaded with (1 := E).
      destruct (existsb _ _); simpl;
        first [ eapply committed_loaded; eassumption
              | eapply no_write_loaded_log; eassumption ].
    + unfold modify_customer. rewrite !(@bind_raise _ _ _ _ _ _ _ E).
      simpl. exact I.
Qed.

(** ** Reservations and the rooms they hold *)

Lemma active_rooms_app (hotel_id : string) (l1 l2 : list Reservation.t) :
  active_rooms hotel_id (l1 ++ l2)
  = active_rooms hotel_id l1 + active_rooms hotel_id l2.
Proof.
  induction l1 as [| r l1 IH]; simpl; [reflexivity |].
  destruct (string_dec _ _); [destruct (string_dec _ _) |]; rewrite IH; lia.
Qed.

Lemma available_as_spec (hotel : Hotel.t) (reservations : list Reservation.t) :
  _hotel_available_rooms hotel reservations
  = Hotel.total_rooms hotel
    - active_rooms (Hotel.hotel_id hotel) reservations.
Proof.
  unfold _hotel_available_rooms. rewrite used_rooms_spec. reflexivity.
Qed.

Lemma find_absent {A : Type} (f : A -> bool) (l : list A) :
  (forall x, In x l -> f x = false) -> find f l = None.
Proof.
  induction l as [| y l IH]; simpl; intros H; [reflexivity |].
  rewrite (H y) by auto. apply IH. auto.
Qed.

Lemma find_hotel_id (hotel_id : string) (hotels : list Hotel.t)
      (hotel : Hotel.t) :
  find (fun h => String.eqb (Hotel.hotel_id h) hotel_id) hotels = Some hotel ->
  In hotel hotels /\ Hotel.hotel_id hotel = hotel_id.
Proof.
  intros H. apply find_some in H. destruct H as [Hin E].
  apply String.eqb_eq in E. auto.
Qed.

(** X6: a reservation that [create_reservation] returns never overbooks:
    the hotel and the customer were found in storage, the rooms are
    positive and at most the rooms that were available, the reservation is
    active and is written at the end of the reservations; afterwards the
    available rooms of the hotel are fewer by its rooms and not negative,
    and those of hotels with another identifier are as before. *)
Theorem create_reservation_never_overbooks {L : PyLib}
        (hotel_id customer_id uuid4 : string) (rooms : Z)
        (w w' : world) (res : Reservation.t) :
  create_reservation hotel_id customer_id rooms uuid4 w = (Ok (Some res), w') ->
  exists hotels customers reservations w1 hotel customer,
    _load_all w = (Ok (hotels, customers, reservations), w1)
    /\ In hotel hotels /\ Hotel.hotel_id hotel = hotel_id
    /\ In customer customers /\ Customer.customer_id customer = customer_id
    /\ 0 < rooms <= _hotel_available_rooms hotel reservations
    /\ res = Reservation.mk uuid4 hotel_id customer_id rooms "active"
    /\ w' = saved hotels customers (reservations ++ [res]) w1
    /\ _hotel_available_rooms hotel (reservations ++ [res])
       = _hotel_available_rooms hotel reservations - rooms
    /\ 0 <= _hotel_available_rooms hotel (reservations ++ [res])
    /\ (forall other,
          Hotel.hotel_id other <> hotel_id ->
          _hotel_available_rooms other (reservations ++ [res])
          = _hotel_available_rooms other reservations).
Proof.
  unfold create_reservation.
  destruct (Z.leb_spec rooms 0) as [| Hpos]; [discriminate |].
  destruct (_load_all w) as [[[[hs cs] rs] | e] w1] eqn:E;
    [rewrite (@bind_ok _ _ _ _ _ _ _ E)
    | rewrite (@bind_raise _ _ _ _ _ _ _ E); discriminate].
  destruct (find _ hs) as [hotel |] eqn:Fh; [| discriminate].
  destruct (find _ cs) as [customer |] eqn:Fc; [| discriminate].
  destruct (Z.ltb_spec (_hotel_available_rooms hotel rs) rooms) as [| Hle];
    [discriminate |].
  unfold bind. rewrite save_all_saved. intros D.
  injection D as <- <-.
  apply find_hotel_id in Fh. destruct Fh as [Hin Hid].
  apply find_some in Fc. destruct Fc as [Cin Cid].
  apply String.eqb_eq in Cid.
  assert (A : _hotel_available_rooms
                hotel
                (rs ++ [Reservation.mk uuid4 hotel_id customer_id rooms
                                       "active"])
              = _hotel_available_rooms hotel rs - rooms).
  { rewrite !available_as_spec, active_rooms_app. simpl.
    rewrite Hid. destruct (string_dec hotel_id hotel_id); [| contradiction].
    lia. }
  exists hs, cs, rs, w1, hotel, customer.
  repeat split; try assumption; try lia.
  intros other Hother.
  rewrite !available_as_spec, active_rooms_app. simpl.
  destruct (string_dec hotel_id (Hotel.hotel_id other)); [| lia].
  congruence.
Qed.

(** X7: on a store that loads, with a positive number of rooms: for an
    identifier that no hotel carries [create_reservation] returns [None]
    with the hotel-not-found message, whether or not the customer exists;
    for a hotel that exists and an identifier that no customer carries it
    returns [None] with the customer-not-found message, whatever the
    capacity is.  Nothing is written. *)
Theorem create_reservation_unknown_reference {L : PyLib}
        (w w1 : world) (hotels : list Hotel.t) (customers : list Customer.t)
        (reservations : list Reservation.t)
        (hotel_id customer_id uuid4 : string) (rooms : Z) :
  _load_all w = (Ok (hotels, customers, reservations), w1) ->
  0 < rooms ->
  ((forall h, In h hotels -> Hotel.hotel_id h <> hotel_id) ->
   create_reservation hotel_id customer_id rooms uuid4 w
   = (Ok None, emit (EvLog (HotelNotFound hotel_id)) w1))
  /\ (forall hotel,
        In hotel hotels -> Hotel.hotel_id hotel = hotel_id ->
        (forall c, In c customers -> Customer.customer_id c <> customer_id) ->
        create_reservation hotel_id customer_id rooms uuid4 w
        = (Ok None, emit (EvLog (CustomerNotFound customer_id)) w1))
  /\ (forall m, no_write w (emit (EvLog m) w1)).
Proof.
  intros Hload Hpos. split; [| split].
  - intros Hnone. unfold create_reservation.
    destruct (Z.leb_spec rooms 0); [lia |].
    rewrite (@bind_ok _ _ _ _ _ _ _ Hload).
    rewrite find_absent; [reflexivity |].
    intros h Hh. apply String.eqb_neq, Hnone, Hh.
  - intros hotel Hin Hid Hnone. unfold create_reservation.
    destruct (Z.leb_spec rooms 0); [lia |].
    rewrite (@bind_ok _ _ _ _ _ _ _ Hload).
    destruct (find _ hotels) eqn:F.
    + rewrite find_absent; [reflexivity |].
      intros c Hc. apply String.eqb_neq, Hnone, Hc.
    + exfalso. apply (find_none _ _ F) in Hin.
      apply String.eqb_neq in Hin. contradiction.
  - intros m. eapply no_write_loaded_log. exact Hload.
Qed.

(** ** Cancelling, again *)

Lemma cancel_one_other (reservation_id : string) (l : list Reservation.t) :
  (forall x, In x l -> Reservation.reservation_id x <> reservation_id) ->
  map (cancel_one reservation_id) l = l
  /\ already_cancelled reservation_id l = []
  /\ existsb (fun r => String.eqb (Reservation.reservation_id r)
                                  reservation_id) l = false.
Proof.
  induction l as [| x l IH]; intros H; [repeat split |].
  destruct IH as (A & B & C); [intros y Hy; apply H; right; exact Hy |].
  assert (E : String.eqb (Reservation.reservation_id x) reservation_id
              = false)
    by (apply String.eqb_neq, H; left; reflexivity).
  unfold already_cancelled in *. simpl. unfold cancel_one at 1.
  rewrite E, A, B, C. repeat split.
Qed.

Lemma cancel_one_idempotent (reservation_id : string) (x : Reservation.t) :
  cancel_one reservation_id (cancel_one reservation_id x)
  = cancel_one reservation_id x.
Proof.
  unfold cancel_one.
  destruct (String.eqb (Reservation.reservation_id x) reservation_id) eqn:E.
  - destruct (String.eqb (Reservation.status x) "cancelled") eqn:S.
    + rewrite E, S. reflexivity.
    + simpl. rewrite E. reflexivity.
  - rewrite E. reflexivity.
Qed.

Lemma map_cancel_one_idempotent (reservation_id : string)
      (l : list Reservation.t) :
  map (cancel_one reservation_id) (map (cancel_one reservation_id) l)
  = map (cancel_one reservation_id) l.
Proof.
  rewrite map_map. apply map_ext. apply cancel_one_idempotent.
Qed.

Lemma cancel_one_keeps_id (reservation_id : string) (l : list Reservation.t) :
  existsb (fun r => String.eqb (Reservation.reservation_id r) reservation_id)
          (map (cancel_one reservation_id) l)
  = existsb (fun r => String.eqb (Reservation.reservation_id r) reservation_id)
            l.
Proof.
  induction l as [| x l IH]; simpl; [reflexivity |].
  rewrite IH. f_equal. unfold cancel_one.
  destruct (String.eqb (Reservation.reservation_id x) reservation_id) eqn:E;
    [| exact E].
  destruct (String.eqb (Reservation.status x) "cancelled"); simpl; exact E.
Qed.

(** X8: on a store that loads, [cancel_reservation] on an identifier that
    no reservation carries returns [False] with the not-found message and
    writes nothing. *)
Theorem cancel_reservation_not_found {L : PyLib}
        (w w1 : world) (hotels : list Hotel.t) (customers : list Customer.t)
        (reservations : list Reservation.t) (reservation_id : string) :
  _load_all w = (Ok (hotels, customers, reservations), w1) ->
  (forall r, In r reservations ->
             Reservation.reservation_id r <> reservation_id) ->
  cancel_reservation reservation_id w
  = (Ok false, emit (EvLog (ReservationNotFound reservation_id)) w1)
  /\ no_write w (emit (EvLog (ReservationNotFound reservation_id)) w1).
Proof.
  intros Hload Hnone.
  destruct (@cancel_one_other reservation_id reservations Hnone)
    as (_ & B & C).
  split.
  - rewrite cancel_reservation_loaded with (1 := Hload).
    rewrite B, C, logged_nil. reflexivity.
  - eapply no_write_loaded_log. exact Hload.
Qed.

(** X9: cancelling an active reservation whose identifier no other
    reservation carries returns [True] and writes the reservations with
    that one replaced, in its place, by its cancelled copy, the others and
    the two other collections as loaded.  Its rooms are free again: the
    available rooms of its hotel grow by them, those of the other hotels
    stay. *)
Theorem cancel_active_frees_rooms {L : PyLib}
        (w w1 : world) (hotels : list Hotel.t) (customers : list Customer.t)
        (before after : list Reservation.t) (r : Reservation.t) :
  _load_all w = (Ok (hotels, customers, before ++ r :: after), w1) ->
  Reservation.status r = "active" ->
  (forall x, In x (before ++ after) ->
             Reservation.reservation_id x <> Reservation.reservation_id r) ->
  let updated := before ++ cancelled r :: after in
  cancel_reservation (Reservation.reservation_id r) w
  = (Ok true, saved hotels customers updated w1)
  /\ (forall hotel,
        _hotel_available_rooms hotel updated
        = _hotel_available_rooms hotel (before ++ r :: after)
          + (if string_dec (Reservation.hotel_id r) (Hotel.hotel_id hotel)
             then Reservation.rooms r
             else 0)).
Proof.
  intros Hload Hst Huniq updated.
  destruct (@cancel_one_other (Reservation.reservation_id r) before)
    as (A1 & B1 & C1); [intros x Hx; apply Huniq, in_or_app; auto |].
  destruct (@cancel_one_other (Reservation.reservation_id r) after)
    as (A2 & B2 & C2); [intros x Hx; apply Huniq, in_or_app; auto |].
  split.
  - rewrite cancel_reservation_loaded with (1 := Hload).
    rewrite existsb_app. simpl. rewrite String.eqb_refl, orb_true_r.
    rewrite map_app. simpl. rewrite A1, A2.
    unfold already_cancelled in *. rewrite flat_map_app. simpl.
    rewrite B1, B2, String.eqb_refl, Hst. simpl. rewrite logged_nil.
    unfold cancel_one. rewrite String.eqb_refl, Hst. reflexivity.
  - intros hotel. unfold updated.
    rewrite !available_as_spec, !active_rooms_app. simpl. rewrite Hst.
    destruct (string_dec (Reservation.hotel_id r) (Hotel.hotel_id hotel));
      [| lia].
    destruct (string_dec "cancelled" "active"); [discriminate |].
    destruct (string_dec "active" "active"); [lia | contradiction].
Qed.

(** X10: cancelling is idempotent on the store.  After a call on the
    identifier of a reservation in storage, a second call on the same
    identifier returns [True] again and rewrites the three files with the
    same text, when the JSON library reads back what the first call
    wrote. *)
Theorem cancel_twice_same_store {L : PyLib}
        (w w1 : world) (hotels : list Hotel.t) (customers : list Customer.t)
        (reservations : list Reservation.t) (r : Reservation.t) :
  _load_all w = (Ok (hotels, customers, reservations), w1) ->
  In r reservations ->
  let reservation_id := Reservation.reservation_id r in
  store_reads_back hotels customers
                   (map (cancel_one reservation_id) reservations) ->
  exists w2 w3,
    cancel_reservation reservation_id w = (Ok true, w2)
    /\ cancel_reservation reservation_id w2 = (Ok true, w3)
    /\ same_files w2 w3.
Proof.
  intros Hload Hin rid Hback.
  assert (E : existsb (fun x => String.eqb (Reservation.reservation_id x) rid)
                      reservations = true).
  { apply existsb_exists. exists r. split; [exact Hin |].
    apply String.eqb_refl. }
  do 2 eexists. split; [| split].
  - rewrite cancel_reservation_loaded with (1 := Hload).
    rewrite E. reflexivity.
  - rewrite cancel_reservation_loaded
      with (1 := load_all_saved _ Hback).
    rewrite cancel_one_keeps_id, E. reflexivity.
  - rewrite map_cancel_one_idempotent. repeat split.
Qed.

(** ** Modifying *)

Section ModifyingMore.

Context {L : PyLib}.

Lemma rooms_in_order_true (hotel_id : string) (total_rooms : option Z)
      (hotels : list Hotel.t) :
  (forall h, In h hotels -> Hotel.hotel_id h = hotel_id ->
             0 < rooms_after total_rooms h) ->
  rooms_in_order hotel_id total_rooms hotels = true.
Proof.
  intros H. unfold rooms_in_order. apply forallb_forall. intros h Hin.
  destruct (String.eqb_spec (Hotel.hotel_id h) hotel_id) as [E | _];
    [| reflexivity].
  simpl. apply Z.ltb_lt. auto.
Qed.

Lemma rooms_in_order_false (hotel_id : string) (total_rooms : option Z)
      (hotels : list Hotel.t) (h : Hotel.t) :
  In h hotels -> Hotel.hotel_id h = hotel_id ->
  rooms_after total_rooms h <= 0 ->
  rooms_in_order hotel_id total_rooms hotels = false.
Proof.
  intros Hin Hid Hle. unfold rooms_in_order.
  destruct (forallb _ hotels) eqn:E; [| reflexivity].
  rewrite forallb_forall in E. specialize (E h Hin).
  rewrite Hid, String.eqb_refl in E. simpl in E.
  apply Z.ltb_lt in E. lia.
Qed.

Lemma exists_hotel_id (hotel_id : string) (hotels : list Hotel.t) :
  (forall h, In h hotels -> Hotel.hotel_id h <> hotel_id) ->
  existsb (fun h => String.eqb (Hotel.hotel_id h) hotel_id) hotels = false.
Proof.
  intros H. apply existsb_false. intros h Hin.
  apply String.eqb_neq. auto.
Qed.

Lemma exists_customer_id (customer_id : string)
      (customers : list Customer.t) :
  (forall c, In c customers -> Customer.customer_id c <> customer_id) ->
  existsb (fun c => String.eqb (Customer.customer_id c) customer_id)
          customers = false.
Proof.
  intros H. apply existsb_false. intros c Hin.
  apply String.eqb_neq. auto.
Qed.

Lemma update_hotel_keeps_id (hotel_id : string) (name city : option string)
      (total_rooms : option Z) (h : Hotel.t) :
  Hotel.hotel_id (update_hotel hotel_id name city total_rooms h)
  = Hotel.hotel_id h.
Proof.
  unfold update_hotel. destruct (String.eqb _ _); reflexivity.
Qed.

Lemma update_customer_keeps_id (customer_id : string)
      (name email : option string) (c : Customer.t) :
  Customer.customer_id (update_customer customer_id name email c)
  = Customer.customer_id c.
Proof.
  unfold update_customer. destruct (String.eqb _ _); reflexivity.
Qed.

End ModifyingMore.

(** X11: on a store that loads, where a hotel carries the identifier and
    every hotel that carries it ends with a positive number of rooms,
    [modify_hotel] returns [True] and writes the hotels updated in place:
    as many, with the same identifiers in the same order; a hotel with
    another identifier as it was; a hotel with the identifier with the
    stripped new value of each field that was given and the old value of
    each field that was left out.  Customers and reservations are written
    as loaded. *)
Theorem modify_hotel_updates_in_place {L : PyLib}
        (w w1 : world) (hotels : list Hotel.t) (customers : list Customer.t)
        (reservations : list Reservation.t)
        (hotel_id : string) (name city : option string)
        (total_rooms : option Z) (hotel : Hotel.t) :
  _load_all w = (Ok (hotels, customers, reservations), w1) ->
  In hotel hotels ->
  Hotel.hotel_id hotel = hotel_id ->
  (forall h, In h hotels -> Hotel.hotel_id h = hotel_id ->
             0 < rooms_after total_rooms h) ->
  let updated := map (update_hotel hotel_id name city total_rooms) hotels in
  modify_hotel hotel_id name city total_rooms w
  = (Ok true, saved updated customers reservations w1)
  /\ map Hotel.hotel_id updated = map Hotel.hotel_id hotels
  /\ (forall i h, nth_error hotels i = Some h ->
                  Hotel.hotel_id h <> hotel_id ->
                  nth_error updated i = Some h)
  /\ (forall i h,
        nth_error hotels i = Some h ->
        Hotel.hotel_id h = hotel_id ->
        nth_error updated i
        = Some (Hotel.mk hotel_id
                         (match name with
                          | None => Hotel.name h
                          | Some n => strip n
                          end)
                         (match city with
                          | None => Hotel.city h
                          | Some c => strip c
                          end)
                         (rooms_after total_rooms h))).
Proof.
  intros Hload Hin Hid Hrooms updated. split; [| split; [| split]].
  - rewrite modify_hotel_loaded with (1 := Hload).
    rewrite rooms_in_order_true by exact Hrooms.
    assert (E : existsb (fun h => String.eqb (Hotel.hotel_id h) hotel_id)
                        hotels = true).
    { apply existsb_exists. exists hotel. split; [exact Hin |].
      apply String.eqb_eq, Hid. }
    rewrite E. reflexivity.
  - unfold updated. rewrite map_map. apply map_ext.
    intros h. apply update_hotel_keeps_id.
  - intros i h Hi Hne. unfold updated. rewrite nth_error_map, Hi. simpl.
    unfold update_hotel.
    apply String.eqb_neq in Hne. rewrite Hne. reflexivity.
  - intros i h Hi He. unfold updated. rewrite nth_error_map, Hi. simpl.
    unfold update_hotel, rooms_after.
    rewrite He, String.eqb_refl. reflexivity.
Qed.

(** X12: on a store that loads, [modify_hotel] returns [False] and writes
    nothing in two cases.  No hotel carries the identifier: the message is
    the not-found one, also when the number of rooms given is not positive.
    A hotel that carries the identifier would end with a number of rooms
    that is not positive, the one given or, when none is given, the one it
    has in storage: the message is that of the rooms. *)
Theorem modify_hotel_refused {L : PyLib}
        (w w1 : world) (hotels : list Hotel.t) (customers : list Customer.t)
        (reservations : list Reservation.t)
        (hotel_id : string) (name city : option string)
        (total_rooms : option Z) :
  _load_all w = (Ok (hotels, customers, reservations), w1) ->
  ((forall h, In h hotels -> Hotel.hotel_id h <> hotel_id) ->
   modify_hotel hotel_id name city total_rooms w
   = (Ok false, emit (EvLog (HotelNotFound hotel_id)) w1))
  /\ (forall h,
        In h hotels -> Hotel.hotel_id h = hotel_id ->
        rooms_after total_rooms h <= 0 ->
        modify_hotel hotel_id name city total_rooms w
        = (Ok false, emit (EvLog TotalRoomsMustBePositive) w1))
  /\ (forall m, no_write w (emit (EvLog m) w1)).
Proof.
  intros Hload. split; [| split].
  - intros Hnone. rewrite modify_hotel_loaded with (1 := Hload).
    rewrite rooms_in_order_true, exists_hotel_id; [reflexivity | exact Hnone |].
    intros h Hin Hid. exfalso. exact (Hnone h Hin Hid).
  - intros h Hin Hid Hle. rewrite modify_hotel_loaded with (1 := Hload).
    rewrite rooms_in_order_false with (h := h); auto.
  - intros m. eapply no_write_loaded_log. exact Hload.
Qed.

(** X14: on a store that loads, [modify_customer] on an identifier that no
    customer carries returns [False] with the not-found message and writes
    nothing; on one that a customer carries it returns [True] and writes
    the customers updated in place, with the same identifiers in the same
    order, hotels and reservations as loaded.  No value is refused; with
    both fields left out the customers written are the ones loaded. *)
Theorem modify_customer_updates_in_place {L : PyLib}
        (w w1 : world) (hotels : list Hotel.t) (customers : list Customer.t)
        (reservations : list Reservation.t)
        (customer_id : string) (name email : option string) :
  _load_all w = (Ok (hotels, customers, reservations), w1) ->
  let updated := map (update_customer customer_id name email) customers in
  ((forall c, In c customers -> Customer.customer_id c <> customer_id) ->
   modify_customer customer_id name email w
   = (Ok false, emit (EvLog (CustomerNotFound customer_id)) w1))
  /\ (forall customer,
        In customer customers ->
        Customer.customer_id customer = customer_id ->
        modify_customer customer_id name email w
        = (Ok true, saved hotels updated reservations w1))
  /\ map Customer.customer_id updated = map Customer.customer_id customers
  /\ map (update_customer customer_id None None) customers = customers.
Proof.
  intros Hload updated. split; [| split; [| split]].
  - intros Hnone. rewrite modify_customer_loaded with (1 := Hload).
    rewrite exists_customer_id by exact Hnone. reflexivity.
  - intros customer Hin Hid. rewrite modify_customer_loaded with (1 := Hload).
    assert (E : existsb (fun c => String.eqb (Customer.customer_id c)
                                             customer_id)
                        customers = true).
    { apply existsb_exists. exists customer. split; [exact Hin |].
      apply String.eqb_eq, Hid. }
    rewrite E. reflexivity.
  - unfold updated. rewrite map_map. apply map_ext.
    intros c. apply update_customer_keeps_id.
  - rewrite <- (map_id customers) at 2. apply map_ext.
    intros c. unfold update_customer.
    destruct (String.eqb _ _); destruct c; reflexivity.
Qed.

(** ** Operations one after the other *)

Lemma find_after {A : Type} (f : A -> bool) (l1 l2 : list A) :
  find f (l1 ++ l2)
  = match find f l1 with
    | Some x => Some x
    | None => find f l2
    end.
Proof.
  induction l1 as [| x l1 IH]; simpl; [reflexivity |].
  destruct (f x); [reflexivity | exact IH].
Qed.

Lemma find_updated {A : Type} (f : A -> bool) (u : A -> A) (l : list A) :
  (forall x, f (u x) = f x) ->
  find f (map u l) = option_map u (find f l).
Proof.
  intros H. induction l as [| x l IH]; simpl; [reflexivity |].
  rewrite H. destruct (f x); [reflexivity | exact IH].
Qed.

Lemma find_filtered_out {A : Type} (f : A -> bool) (l : list A) :
  find f (filter (fun x => negb (f x)) l) = None.
Proof.
  apply find_absent. intros x Hx. apply filter_In in Hx.
  destruct Hx as [_ Hx]. apply negb_true_iff. exact Hx.
Qed.

Lemma active_rooms_unreferenced (hotel_id : string)
      (reservations : list Reservation.t) :
  (forall r, In r reservations -> Reservation.hotel_id r <> hotel_id) ->
  active_rooms hotel_id reservations = 0.
Proof.
  induction reservations as [| r rest IH]; simpl; intros H; [reflexivity |].
  destruct (string_dec (Reservation.hotel_id r) hotel_id) as [E |].
  - exfalso. exact (H r (or_introl eq_refl) E).
  - apply IH. intros x Hx. apply H. right. exact Hx.
Qed.

Section Composing.

Context {L : PyLib}.

(** The four ways [create_reservation] ends on a store that loads, for a
    positive number of rooms. *)
Lemma create_reservation_loaded (w w1 : world) (hotels : list Hotel.t)
      (customers : list Customer.t) (reservations : list Reservation.t)
      (hotel_id customer_id uuid4 : string) (rooms : Z) :
  _load_all w = (Ok (hotels, customers, reservations), w1) ->
  0 < rooms ->
  create_reservation hotel_id customer_id rooms uuid4 w
  = match find (fun h => String.eqb (Hotel.hotel_id h) hotel_id) hotels with
    | None => (Ok None, emit (EvLog (HotelNotFound hotel_id)) w1)
    | Some hotel =>
        match
          find (fun c => String.eqb (Customer.customer_id c) customer_id)
               customers
        with
        | None => (Ok None, emit (EvLog (CustomerNotFound customer_id)) w1)
        | Some _ =>
            let available := _hotel_available_rooms hotel reservations in
            let res :=
              Reservation.mk uuid4 hotel_id customer_id rooms "active" in
            if available <? rooms
            then (Ok None, emit (EvLog (NotEnoughRooms rooms available)) w1)
            else (Ok (Some res),
                  saved hotels customers (reservations ++ [res]) w1)
        end
    end.
Proof.
  intros Hload Hpos. unfold create_reservation.
  destruct (Z.leb_spec rooms 0); [lia |].
  rewrite (@bind_ok _ _ _ _ _ _ _ Hload).
  destruct (find _ hotels); [| reflexivity].
  destruct (find _ customers); [| reflexivity].
  simpl. destruct (_ <? _); [reflexivity |].
  unfold bind. rewrite save_all_saved. reflexivity.
Qed.

Lemma no_write_saved_log (hs : list Hotel.t) (cs : list Customer.t)
      (rs : list Reservation.t) (w : world) (m : log_msg) :
  no_write (saved hs cs rs w) (emit (EvLog m) (logged loading (saved hs cs rs w))).
Proof.
  apply no_write_trans with (w2 := logged loading (saved hs cs rs w)).
  - apply no_write_logged. reflexivity.
  - apply no_write_emit. reflexivity.
Qed.

End Composing.

(** X13: [modify_hotel] does not look at the reservations.  A positive
    number of rooms below the rooms that active reservations hold in the
    hotel is accepted; from then on the available rooms of the hotel are
    negative and [create_reservation] for it returns [None], for every
    customer and every number of rooms, and writes nothing. *)
Theorem modify_hotel_can_overcommit {L : PyLib}
        (w w1 : world) (hotels : list Hotel.t) (customers : list Customer.t)
        (reservations : list Reservation.t)
        (hotel_id : string) (n : Z) (hotel : Hotel.t) :
  _load_all w = (Ok (hotels, customers, reservations), w1) ->
  find (fun h => String.eqb (Hotel.hotel_id h) hotel_id) hotels = Some hotel ->
  0 < n < active_rooms hotel_id reservations ->
  let updated := map (update_hotel hotel_id None None (Some n)) hotels in
  store_reads_back updated customers reservations ->
  exists w2,
    modify_hotel hotel_id None None (Some n) w = (Ok true, w2)
    /\ _hotel_available_rooms
         (update_hotel hotel_id None None (Some n) hotel) reservations < 0
    /\ (forall customer_id rooms uuid4,
          exists w3,
            create_reservation hotel_id customer_id rooms uuid4 w2
            = (Ok None, w3)
            /\ no_write w2 w3).
Proof.
  intros Hload Hfind [Hpos Hlt] updated Hback.
  pose proof (find_hotel_id _ _ Hfind) as [Hin Hid].
  assert (Hav : _hotel_available_rooms
                  (update_hotel hotel_id None None (Some n) hotel)
                  reservations
                = n - active_rooms hotel_id reservations).
  { rewrite available_as_spec, update_hotel_keeps_id, Hid.
    unfold update_hotel. rewrite Hid, String.eqb_refl. reflexivity. }
  eexists. split; [| split].
  - rewrite modify_hotel_loaded with (1 := Hload).
    rewrite rooms_in_order_true by (intros; simpl; exact Hpos).
    assert (E : existsb (fun h => String.eqb (Hotel.hotel_id h) hotel_id)
                        hotels = true).
    { apply existsb_exists. exists hotel. split; [exact Hin |].
      apply String.eqb_eq, Hid. }
    rewrite E. reflexivity.
  - rewrite Hav. lia.
  - intros customer_id rooms uuid4.
    destruct (Z.leb_spec rooms 0) as [Hle | Hgt].
    + eexists. split.
      * apply create_reservation_refused_early. exact Hle.
      * apply no_write_emit. reflexivity.
    + rewrite create_reservation_loaded
        with (1 := load_all_saved _ Hback) (2 := Hgt).
      fold updated. unfold updated at 1.
      rewrite find_updated
        by (intros x; rewrite update_hotel_keeps_id; reflexivity).
      rewrite Hfind. simpl.
      destruct (find _ customers).
      * rewrite Hav.
        destruct (Z.ltb_spec (n - active_rooms hotel_id reservations) rooms);
          [| lia].
        eexists. split; [reflexivity | apply no_write_saved_log].
      * eexists. split; [reflexivity | apply no_write_saved_log].
Qed.

Lemma get_hotel_loop_find (hotel_id : string) (hotels : list Hotel.t) :
  get_hotel_loop hotel_id hotels
  = find (fun h => String.eqb (Hotel.hotel_id h) hotel_id) hotels.
Proof.
  induction hotels as [| h rest IH]; simpl; [reflexivity |].
  rewrite IH. reflexivity.
Qed.

Lemma get_customer_loop_find (customer_id : string)
      (customers : list Customer.t) :
  get_customer_loop customer_id customers
  = find (fun c => String.eqb (Customer.customer_id c) customer_id) customers.
Proof.
  induction customers as [| c rest IH]; simpl; [reflexivity |].
  rewrite IH. reflexivity.
Qed.

(** X15: a new hotel fills up.  On a store that loads, with a fresh
    identifier that no hotel carries and no reservation references, and a
    customer that exists: [create_hotel] with [n > 0] rooms returns the
    hotel, with its names stripped; a reservation for all [n] rooms then
    succeeds; one for a single room more returns [None] and writes
    nothing.  The JSON library is to read back what the two writes
    produced. *)
Theorem new_hotel_fills_up {L : PyLib}
        (w w1 : world) (hotels : list Hotel.t) (customers : list Customer.t)
        (reservations : list Reservation.t)
        (name city hotel_id customer_id uuid4 uuid4' : string) (n : Z)
        (customer : Customer.t) :
  _load_all w = (Ok (hotels, customers, reservations), w1) ->
  0 < n ->
  (forall h, In h hotels -> Hotel.hotel_id h <> hotel_id) ->
  (forall r, In r reservations -> Reservation.hotel_id r <> hotel_id) ->
  find (fun c => String.eqb (Customer.customer_id c) customer_id) customers
  = Some customer ->
  let new_hotel := Hotel.mk hotel_id (strip name) (strip city) n in
  let res := Reservation.mk uuid4 hotel_id customer_id n "active" in
  store_reads_back (hotels ++ [new_hotel]) customers reservations ->
  store_reads_back (hotels ++ [new_hotel]) customers (reservations ++ [res]) ->
  exists w2 w3 w4,
    create_hotel name city n hotel_id w = (Ok new_hotel, w2)
    /\ create_reservation hotel_id customer_id n uuid4 w2 = (Ok (Some res), w3)
    /\ create_reservation hotel_id customer_id 1 uuid4' w3 = (Ok None, w4)
    /\ no_write w3 w4.
Proof.
  intros Hload Hpos Hfresh Hunref Hcust new_hotel res Hback1 Hback2.
  assert (Ffind : find (fun h => String.eqb (Hotel.hotel_id h) hotel_id)
                       (hotels ++ [new_hotel]) = Some new_hotel).
  { rewrite find_after, find_absent.
    - simpl. rewrite String.eqb_refl. reflexivity.
    - intros h Hh. apply String.eqb_neq, Hfresh, Hh. }
  assert (A0 : _hotel_available_rooms new_hotel reservations = n).
  { rewrite available_as_spec. simpl.
    rewrite active_rooms_unreferenced by exact Hunref. lia. }
  assert (A1 : _hotel_available_rooms new_hotel (reservations ++ [res]) = 0).
  { rewrite available_as_spec, active_rooms_app. simpl.
    rewrite active_rooms_unreferenced by exact Hunref.
    destruct (string_dec hotel_id hotel_id); [lia | contradiction]. }
  do 3 eexists. split; [| split; [| split]].
  - unfold create_hotel. destruct (Z.leb_spec n 0); [lia |].
    rewrite (@bind_ok _ _ _ _ _ _ _ Hload).
    unfold bind. rewrite save_all_saved. reflexivity.
  - rewrite create_reservation_loaded
      with (1 := load_all_saved _ Hback1) (2 := Hpos).
    rewrite Ffind, Hcust. cbv zeta. rewrite A0, Z.ltb_irrefl. reflexivity.
  - rewrite create_reservation_loaded
      with (1 := load_all_saved _ Hback2) (2 := Z.lt_0_1).
    rewrite Ffind, Hcust. cbv zeta. rewrite A1. reflexivity.
  - apply no_write_saved_log.
Qed.

(** X16: a deleted hotel is gone.  On a store that loads, for a hotel in
    storage that no active reservation references: [delete_hotel] returns
    [True]; after it [get_hotel] on the identifier returns [None],
    [create_reservation] for it returns [None] whatever the customer and
    the rooms, and a second [delete_hotel] returns [False] with the
    not-found message; none of the three writes.  The JSON library is to
    read back what the delete wrote. *)
Theorem deleted_hotel_is_gone {L : PyLib}
        (w w1 : world) (hotels : list Hotel.t) (customers : list Customer.t)
        (reservations : list Reservation.t) (hotel : Hotel.t) :
  _load_all w = (Ok (hotels, customers, reservations), w1) ->
  In hotel hotels ->
  let hotel_id := Hotel.hotel_id hotel in
  (forall r, In r reservations -> Reservation.hotel_id r = hotel_id ->
             Reservation.status r <> "active") ->
  let kept :=
    filter (fun h => negb (String.eqb (Hotel.hotel_id h) hotel_id)) hotels in
  store_reads_back kept customers reservations ->
  exists w2,
    delete_hotel hotel_id w = (Ok true, w2)
    /\ (exists w3, get_hotel hotel_id w2 = (Ok None, w3) /\ no_write w2 w3)
    /\ (forall customer_id rooms uuid4,
          exists w3,
            create_reservation hotel_id customer_id rooms uuid4 w2
            = (Ok None, w3)
            /\ no_write w2 w3)
    /\ (exists w3,
          delete_hotel hotel_id w2 = (Ok false, w3)
          /\ In (EvLog (HotelNotFound hotel_id)) (trace w3)
          /\ no_write w2 w3).
Proof.
  intros Hload Hin hotel_id Hfree kept Hback.
  pose proof (find_filtered_out
                (fun h => String.eqb (Hotel.hotel_id h) hotel_id) hotels)
    as Fgone.
  cbv beta in Fgone. fold kept in Fgone.
  exists (saved kept customers reservations w1).
  split; [| split; [| split]].
  - apply delete_hotel_done with (1 := Hload); assumption.
  - eexists. split.
    + unfold get_hotel.
      rewrite (@bind_ok _ _ _ _ _ _ _
                 (@load_hotels_saved
                    L kept (saved kept customers reservations w1)
                    eq_refl (proj1 Hback))).
      rewrite get_hotel_loop_find, Fgone. reflexivity.
    + eapply no_write_trans;
        [apply no_write_logged | apply no_write_emit]; reflexivity.
  - intros customer_id rooms uuid4.
    destruct (Z.leb_spec rooms 0) as [Hle | Hgt].
    + eexists. split.
      * apply create_reservation_refused_early. exact Hle.
      * apply no_write_emit. reflexivity.
    + rewrite create_reservation_loaded
        with (1 := load_all_saved _ Hback) (2 := Hgt).
      rewrite Fgone.
      eexists. split; [reflexivity | apply no_write_saved_log].
  - eexists. split; [| split].
    + apply delete_hotel_missing with (1 := load_all_saved _ Hback).
      * exact Hfree.
      * intros h Hh. apply filter_In in Hh. destruct Hh as [_ Hh].
        apply negb_true_iff, String.eqb_neq in Hh. exact Hh.
    + simpl. apply in_or_app. right. left. reflexivity.
    + apply no_write_saved_log.
Qed.

(** ** Queries *)

Lemma reads_only_file_refl (key : coll) (w : world) : reads_only_file key w w.
Proof.
  split; [apply same_files_refl |].
  exists []. rewrite app_nil_r. split; reflexivity.
Qed.

Lemma reads_only_file_trans (key : coll) (w1 w2 w3 : world) :
  reads_only_file key w1 w2 -> reads_only_file key w2 w3 ->
  reads_only_file key w1 w3.
Proof.
  intros [F1 (e1 & T1 & N1)] [F2 (e2 & T2 & N2)].
  split; [eapply same_files_trans; eassumption |].
  exists (e1 ++ e2). split.
  - rewrite T2, T1, app_assoc. reflexivity.
  - rewrite forallb_app, N1, N2. reflexivity.
Qed.

Lemma reads_only_file_emit (key : coll) (e : event) (w : world) :
  negb (is_write e) && only_file key e = true ->
  reads_only_file key w (emit e w).
Proof.
  intros E. split; [repeat split |].
  exists [e]. simpl. rewrite E. split; reflexivity.
Qed.

Lemma only_file_same (key : coll) :
  only_file key (EvExists key) = true /\ only_file key (EvRead key) = true.
Proof. destruct key; split; reflexivity. Qed.

Lemma reads_file_ret {A : Type} (key : coll) (a : A) : reads_file key (ret a).
Proof. intros w. apply reads_only_file_refl. Qed.

Lemma reads_file_raise {A : Type} (key : coll) (e : exn) :
  reads_file key (@raise A e).
Proof. intros w. apply reads_only_file_refl. Qed.

Lemma reads_file_log (key : coll) (m : log_msg) :
  reads_file key (logging_error m).
Proof. intros w. apply reads_only_file_emit. reflexivity. Qed.

Lemma reads_file_bind {A B : Type} (key : coll) (m : M A) (k : A -> M B) :
  reads_file key m -> (forall a, reads_file key (k a)) ->
  reads_file key (bind m k).
Proof.
  intros Hm Hk w. unfold bind.
  specialize (Hm w). destruct (m w) as [[a | e] w1]; simpl in *.
  - eapply reads_only_file_trans; [exact Hm | apply Hk].
  - exact Hm.
Qed.

Lemma reads_only_file_no_write (key : coll) (w w' : world) :
  reads_only_file key w w' -> no_write w w'.
Proof.
  intros [F (evs & T & N)]. split; [exact F |].
  exists evs. split; [exact T |].
  rewrite forallb_forall in *. intros e He.
  specialize (N e He). apply andb_true_iff in N. tauto.
Qed.

Ltac reads_file_step :=
  first
    [ apply reads_file_bind; [| intros ? ]
    | apply reads_file_ret | apply reads_file_raise | apply reads_file_log ].

Section Queries.

Context {L : PyLib}.

Lemma reads_file_load_raw (key : coll) : reads_file key (_load_raw key).
Proof.
  unfold _load_raw.
  apply reads_file_bind.
  { intros w. apply reads_only_file_emit.
    rewrite (proj1 (only_file_same key)). reflexivity. }
  intros present. destruct present; simpl; [| apply reads_file_ret].
  apply reads_file_bind.
  { intros w. unfold read_text.
    destruct (file key w); apply reads_only_file_emit;
      rewrite (proj2 (only_file_same key)); reflexivity. }
  intros text.
  destruct (json_loads text) as [[] | []]; repeat reads_file_step.
Qed.

Lemma reads_file_collect {A : Type} (key : coll)
      (from_dict : json -> M (option A)) :
  (forall row, reads_file key (from_dict row)) ->
  forall rows acc, reads_file key (collect from_dict rows acc).
Proof.
  intros H rows. induction rows as [| row rest IH]; intros acc; simpl.
  - apply reads_file_ret.
  - apply reads_file_bind; [apply H | intros [x |]; apply IH].
Qed.

Lemma reads_file_load_hotels : reads_file K_hotels load_hotels.
Proof.
  apply reads_file_bind; [apply reads_file_load_raw | intros rows].
  apply reads_file_collect. intros row. unfold Hotel.from_dict.
  destruct (Hotel.build row) as [e | h]; [destruct (caught e) |];
    repeat reads_file_step.
Qed.

Lemma reads_file_load_customers : reads_file K_customers load_customers.
Proof.
  apply reads_file_bind; [apply reads_file_load_raw | intros rows].
  apply reads_file_collect. intros row. unfold Customer.from_dict.
  destruct (Customer.build row) as [e | h]; [destruct (caught e) |];
    repeat reads_file_step.
Qed.

End Queries.

(** X17: the queries write nothing.  [get_hotel] looks at the hotels file
    only, [get_customer] and [customer_info] at the customers file only;
    [hotel_info] loads the three collections. *)
Theorem queries_write_nothing {L : PyLib} (id : string) (w : world) :
  reads_only_file K_hotels w (snd (get_hotel id w))
  /\ reads_only_file K_customers w (snd (get_customer id w))
  /\ reads_only_file K_customers w (snd (customer_info id w))
  /\ no_write w (snd (hotel_info id w)).
Proof.
  split; [| split; [| split]].
  - apply reads_file_bind; [apply reads_file_load_hotels | intros hs].
    destruct (get_hotel_loop id hs); repeat reads_file_step.
  - apply reads_file_bind; [apply reads_file_load_customers | intros cs].
    destruct (get_customer_loop id cs); repeat reads_file_step.
  - apply reads_file_bind; [apply reads_file_load_customers | intros cs].
    destruct (find _ cs); repeat reads_file_step.
  - apply reads_only_bind; [apply reads_only_load_all | intros [[hs cs] rs]].
    destruct (find _ hs); repeat reads_only_step.
Qed.

(** X18: on a store whose hotels and customers load, [get_hotel] returns
    the first hotel in storage that carries the identifier, and
    [get_customer] the first such customer, with nothing logged;
    [customer_info] returns the summary of that customer.  For an
    identifier that none carries the three return [None] with the
    not-found message. *)
Theorem getters_return_first_match {L : PyLib}
        (w wh wc : world) (hotels : list Hotel.t)
        (customers : list Customer.t) (id : string) :
  load_hotels w = (Ok hotels, wh) ->
  load_customers w = (Ok customers, wc) ->
  (forall before h after,
     hotels = before ++ h :: after ->
     Hotel.hotel_id h = id ->
     (forall x, In x before -> Hotel.hotel_id x <> id) ->
     get_hotel id w = (Ok (Some h), wh))
  /\ (forall before c after,
        customers = before ++ c :: after ->
        Customer.customer_id c = id ->
        (forall x, In x before -> Customer.customer_id x <> id) ->
        get_customer id w = (Ok (Some c), wc)
        /\ customer_info id w = (Ok (Some (customer_summary c)), wc))
  /\ ((forall x, In x hotels -> Hotel.hotel_id x <> id) ->
      get_hotel id w = (Ok None, emit (EvLog (HotelNotFound id)) wh))
  /\ ((forall x, In x customers -> Customer.customer_id x <> id) ->
      get_customer id w = (Ok None, emit (EvLog (CustomerNotFound id)) wc)
      /\ customer_info id w
         = (Ok None, emit (EvLog (CustomerNotFound id)) wc)).
Proof.
  intros Hh Hc. split; [| split; [| split]].
  - intros before h after -> Hid Hfirst. unfold get_hotel.
    rewrite (@bind_ok _ _ _ _ _ _ _ Hh).
    rewrite get_hotel_loop_find, find_after, find_absent.
    + simpl. rewrite Hid, String.eqb_refl. reflexivity.
    + intros x Hx. apply String.eqb_neq, Hfirst, Hx.
  - intros before c after -> Hid Hfirst.
    assert (F : find (fun x => String.eqb (Customer.customer_id x) id)
                     (before ++ c :: after) = Some c).
    { rewrite find_after, find_absent.
      - simpl. rewrite Hid, String.eqb_refl. reflexivity.
      - intros x Hx. apply String.eqb_neq, Hfirst, Hx. }
    split.
    + unfold get_customer. rewrite (@bind_ok _ _ _ _ _ _ _ Hc).
      rewrite get_customer_loop_find, F. reflexivity.
    + unfold customer_info. rewrite (@bind_ok _ _ _ _ _ _ _ Hc).
      rewrite F. reflexivity.
  - intros Hnone. unfold get_hotel.
    rewrite (@bind_ok _ _ _ _ _ _ _ Hh).
    rewrite get_hotel_loop_find, find_absent; [reflexivity |].
    intros x Hx. apply String.eqb_neq, Hnone, Hx.
  - intros Hnone.
    assert (F : find (fun x => String.eqb (Customer.customer_id x) id)
                     customers = None).
    { apply find_absent. intros x Hx. apply String.eqb_neq, Hnone, Hx. }
    split.
    + unfold get_customer. rewrite (@bind_ok _ _ _ _ _ _ _ Hc).
      rewrite get_customer_loop_find, F. reflexivity.
    + unfold customer_info. rewrite (@bind_ok _ _ _ _ _ _ _ Hc).
      rewrite F. reflexivity.
Qed.

(** X19: [hotel_info] after a reservation.  On a store that loads, once
    [create_reservation] has taken [rooms] of the available rooms of the
    hotel, [hotel_info] returns the summary of the hotel with its total
    rooms and with the available rooms fewer by [rooms], and writes
    nothing; for an identifier that no hotel carries it returns [None]
    with the not-found message.  The JSON library is to read back what the
    reservation wrote. *)
Theorem hotel_info_after_reservation {L : PyLib}
        (w w1 : world) (hotels : list Hotel.t) (customers : list Customer.t)
        (reservations : list Reservation.t)
        (hotel_id customer_id uuid4 : string) (rooms : Z)
        (hotel : Hotel.t) (customer : Customer.t) :
  _load_all w = (Ok (hotels, customers, reservations), w1) ->
  find (fun h => String.eqb (Hotel.hotel_id h) hotel_id) hotels = Some hotel ->
  find (fun c => String.eqb (Customer.customer_id c) customer_id) customers
  = Some customer ->
  0 < rooms <= _hotel_available_rooms hotel reservations ->
  let res := Reservation.mk uuid4 hotel_id customer_id rooms "active" in
  store_reads_back hotels customers (reservations ++ [res]) ->
  exists w2 w3,
    create_reservation hotel_id customer_id rooms uuid4 w = (Ok (Some res), w2)
    /\ hotel_info hotel_id w2
       = (Ok (Some (hotel_summary
                      hotel
                      (_hotel_available_rooms hotel reservations - rooms))),
          w3)
    /\ no_write w2 w3
    /\ (forall other,
          (forall h, In h hotels -> Hotel.hotel_id h <> other) ->
          hotel_info other w2
          = (Ok None, emit (EvLog (HotelNotFound other)) w3)).
Proof.
  intros Hload Hh Hc Hrooms res Hback.
  pose proof (find_hotel_id _ _ Hh) as [_ Hid].
  exists (saved hotels customers (reservations ++ [res]) w1).
  eexists. split; [| split; [| split]].
  - eapply create_reservation_accepted; eassumption.
  - unfold hotel_info.
    rewrite (@bind_ok _ _ _ _ _ _ _ (load_all_saved _ Hback)).
    rewrite Hh.
    replace (_hotel_available_rooms hotel (reservations ++ [res]))
      with (_hotel_available_rooms hotel reservations - rooms);
      [reflexivity |].
    rewrite !available_as_spec, active_rooms_app. simpl.
    rewrite Hid. destruct (string_dec hotel_id hotel_id); [lia | contradiction].
  - apply no_write_logged. reflexivity.
  - intros other Hnone. unfold hotel_info.
    rewrite (@bind_ok _ _ _ _ _ _ _ (load_all_saved _ Hback)).
    rewrite find_absent; [reflexivity |].
    intros h Hin. apply String.eqb_neq, Hnone, Hin.
Qed.

(** ** Records that do not load *)

Section Records.

Context {L : PyLib}.

Lemma customer_build_caught (row : json) (e : exn) :
  Customer.build row = inl e -> caught e = true.
Proof.
  unfold Customer.build, getitem.
  destruct row as [| | | | | | fields]; simpl;
    try (intros D; injection D as <-; reflexivity).
  destruct (lookup "customer_id" fields); simpl;
    [| intros D; injection D as <-; reflexivity].
  destruct (lookup "name" fields); simpl;
    [| intros D; injection D as <-; reflexivity].
  destruct (lookup "email" fields); simpl;
    [| intros D; injection D as <-; reflexivity].
  discriminate.
Qed.

Lemma collect_customers (rows : list json) :
  forall acc w,
    fst (collect Customer.from_dict rows acc w)
    = Ok (acc ++ customers_of rows).
Proof.
  induction rows as [| row rest IH]; intros acc w; simpl.
  - rewrite app_nil_r. reflexivity.
  - unfold bind, Customer.from_dict.
    destruct (Customer.build row) as [e | c] eqn:B.
    + rewrite (customer_build_caught _ B). simpl. apply IH.
    + simpl. rewrite IH, <- app_assoc. reflexivity.
Qed.

Lemma customers_of_length (rows : list json) :
  (length (customers_of rows) <= length rows)%nat.
Proof.
  induction rows as [| row rest IH]; simpl; [lia |].
  destruct (Customer.build row); simpl; lia.
Qed.

End Records.

(** X20: no record makes [load_customers] fail.  Whatever rows the
    customers file decodes to (dicts with or without the three fields,
    numbers, floats, lists, nulls), the loader returns the customers that
    the well-formed rows give, in the order of their rows and never more
    than there are rows; it raises only where [_load_raw] does. *)
Theorem load_customers_skips_every_bad_record {L : PyLib} (w : world) :
  (forall rows w1,
     _load_raw K_customers w = (Ok rows, w1) ->
     fst (load_customers w) = Ok (customers_of rows)
     /\ (length (customers_of rows) <= length rows)%nat)
  /\ (forall e, fst (load_customers w) = Raise e ->
                fst (_load_raw K_customers w) = Raise e).
Proof.
  split.
  - intros rows w1 E. split; [| apply customers_of_length].
    unfold load_customers. rewrite (@bind_ok _ _ _ _ _ _ _ E).
    exact (collect_customers rows [] w1).
  - intros e. unfold load_customers.
    destruct (_load_raw K_customers w) as [[rows | e'] w1] eqn:E.
    + rewrite (@bind_ok _ _ _ _ _ _ _ E), collect_customers. discriminate.
    + rewrite (@bind_raise _ _ _ _ _ _ _ E). simpl. intros D.
      injection D as ->. reflexivity.
Qed.

Lemma load_all_hotels_part {L : PyLib} (w w1 : world) (hs : list Hotel.t)
      (cs : list Customer.t) (rs : list Reservation.t) :
  _load_all w = (Ok (hs, cs, rs), w1) ->
  fst (load_hotels w) = Ok hs.
Proof.
  unfold _load_all, bind.
  destruct (load_hotels w) as [[hs' | e] w0]; [| discriminate].
  destruct (load_customers w0) as [[cs' | e] wc]; [| discriminate].
  destruct (load_reservations wc) as [[rs' | e] wr]; [| discriminate].
  intros D. injection D as -> -> -> ->. reflexivity.
Qed.

(** X21: an unusable file is replaced.  When the hotels file does not
    exist, does not decode or does not hold a list, a [create_customer]
    that returns leaves a hotels file that holds the empty array: what the
    file held before is not kept. *)
Theorem unusable_hotels_file_is_replaced {L : PyLib}
        (name email uuid4 : string) (w w' : world) (c : Customer.t) :
  unusable K_hotels w ->
  create_customer name email uuid4 w = (Ok c, w') ->
  hotels_json w' = Some (json_dumps (JList []))
  /\ c = Customer.mk uuid4 (strip name) (strip email).
Proof.
  intros U. destruct (load_raw_unusable U) as (w0 & E & _).
  assert (H0 : fst (load_hotels w) = Ok []).
  { unfold load_hotels. rewrite (@bind_ok _ _ _ _ _ _ _ E). reflexivity. }
  unfold create_customer.
  destruct (_load_all w) as [[[[hs cs] rs] | e] w1] eqn:A.
  - rewrite (@bind_ok _ _ _ _ _ _ _ A).
    apply load_all_hotels_part in A. rewrite H0 in A. injection A as <-.
    unfold bind. rewrite save_all_saved.
    intros D. injection D as <- <-. split; reflexivity.
  - rewrite (@bind_raise _ _ _ _ _ _ _ A). discriminate.
Qed.

(** ** More on deleting, creating and modifying *)

Lemma delete_customer_missing {L : PyLib}
      (w w1 : world) (hotels : list Hotel.t) (customers : list Customer.t)
      (reservations : list Reservation.t) (customer_id : string) :
  _load_all w = (Ok (hotels, customers, reservations), w1) ->
  (forall r, In r reservations -> Reservation.customer_id r = customer_id ->
             Reservation.status r <> "active") ->
  (forall c, In c customers -> Customer.customer_id c <> customer_id) ->
  delete_customer customer_id w
  = (Ok false, emit (EvLog (CustomerNotFound customer_id)) w1).
Proof.
  intros Hload Hfree Hnone. unfold delete_customer.
  rewrite (@bind_ok _ _ _ _ _ _ _ Hload).
  rewrite existsb_false.
  - rewrite filter_keeps_all, Nat.eqb_refl; [reflexivity |].
    intros c Hc. apply negb_true_iff, String.eqb_neq, Hnone, Hc.
  - intros r Hr. destruct (active_for_customer _ r) eqn:E; [| reflexivity].
    apply active_for_customer_true in E. destruct E as [Eh Es].
    exfalso. exact (Hfree r Hr Eh Es).
Qed.

(** X22: on a store that loads, for an identifier that no hotel (no
    customer) carries and no active reservation references,
    [delete_hotel] ([delete_customer]) returns [False] with the not-found
    message and writes nothing. *)
Theorem delete_unknown_is_refused {L : PyLib}
        (w w1 : world) (hotels : list Hotel.t) (customers : list Customer.t)
        (reservations : list Reservation.t) (id : string) :
  _load_all w = (Ok (hotels, customers, reservations), w1) ->
  ((forall h, In h hotels -> Hotel.hotel_id h <> id) ->
   (forall r, In r reservations -> Reservation.hotel_id r = id ->
              Reservation.status r <> "active") ->
   delete_hotel id w = (Ok false, emit (EvLog (HotelNotFound id)) w1))
  /\ ((forall c, In c customers -> Customer.customer_id c <> id) ->
      (forall r, In r reservations -> Reservation.customer_id r = id ->
                 Reservation.status r <> "active") ->
      delete_customer id w
      = (Ok false, emit (EvLog (CustomerNotFound id)) w1))
  /\ (forall m, no_write w (emit (EvLog m) w1)).
Proof.
  intros Hload. split; [| split].
  - intros Hnone Hfree. eapply delete_hotel_missing; eassumption.
  - intros Hnone Hfree. eapply delete_customer_missing; eassumption.
  - intros m. eapply no_write_loaded_log. exact Hload.
Qed.

(** X23: a customer that was created is found.  On a store that loads,
    [create_customer] returns the customer with its name and email
    stripped and writes it after the customers in storage; when no
    customer carried the identifier before, [get_customer] and
    [customer_info] on it then return that customer and its summary.  The
    JSON library is to read back what was written. *)
Theorem created_customer_is_found {L : PyLib}
        (w w1 : world) (hotels : list Hotel.t) (customers : list Customer.t)
        (reservations : list Reservation.t) (name email uuid4 : string) :
  _load_all w = (Ok (hotels, customers, reservations), w1) ->
  (forall c, In c customers -> Customer.customer_id c <> uuid4) ->
  let new_customer := Customer.mk uuid4 (strip name) (strip email) in
  store_reads_back hotels (customers ++ [new_customer]) reservations ->
  exists w2 w3,
    create_customer name email uuid4 w = (Ok new_customer, w2)
    /\ w2 = saved hotels (customers ++ [new_customer]) reservations w1
    /\ get_customer uuid4 w2 = (Ok (Some new_customer), w3)
    /\ customer_info uuid4 w2
       = (Ok (Some (customer_summary new_customer)), w3).
Proof.
  intros Hload Hfresh new_customer Hback.
  assert (F : find (fun c => String.eqb (Customer.customer_id c) uuid4)
                   (customers ++ [new_customer]) = Some new_customer).
  { rewrite find_after, find_absent.
    - simpl. rewrite String.eqb_refl. reflexivity.
    - intros c Hc. apply String.eqb_neq, Hfresh, Hc. }
  pose proof (@load_customers_saved
                L (customers ++ [new_customer])
                (saved hotels (customers ++ [new_customer]) reservations w1)
                eq_refl (proj1 (proj2 Hback))) as Hc.
  do 2 eexists. split; [| split; [reflexivity | split]].
  - unfold create_customer. rewrite (@bind_ok _ _ _ _ _ _ _ Hload).
    unfold bind. rewrite save_all_saved. reflexivity.
  - unfold get_customer. rewrite (@bind_ok _ _ _ _ _ _ _ Hc).
    rewrite get_customer_loop_find, F. reflexivity.
  - unfold customer_info. rewrite (@bind_ok _ _ _ _ _ _ _ Hc).
    rewrite F. reflexivity.
Qed.

(** X24: a renamed hotel is shown.  On a store that loads, for the hotel
    that the lookup by the identifier finds, with positive rooms in
    storage for every hotel with the identifier: [modify_hotel] with a new
    name only returns [True], and [hotel_info] then shows the stripped new
    name with the city, the total rooms and the available rooms as they
    were.  The JSON library is to read back what was written. *)
Theorem renamed_hotel_is_shown {L : PyLib}
        (w w1 : world) (hotels : list Hotel.t) (customers : list Customer.t)
        (reservations : list Reservation.t)
        (hotel_id name : string) (hotel : Hotel.t) :
  _load_all w = (Ok (hotels, customers, reservations), w1) ->
  find (fun h => String.eqb (Hotel.hotel_id h) hotel_id) hotels = Some hotel ->
  (forall h, In h hotels -> Hotel.hotel_id h = hotel_id ->
             0 < Hotel.total_rooms h) ->
  let updated := map (update_hotel hotel_id (Some name) None None) hotels in
  store_reads_back updated customers reservations ->
  let renamed :=
    Hotel.mk hotel_id (strip name) (Hotel.city hotel)
             (Hotel.total_rooms hotel) in
  exists w2 w3,
    modify_hotel hotel_id (Some name) None None w = (Ok true, w2)
    /\ hotel_info hotel_id w2
       = (Ok (Some (hotel_summary
                      renamed (_hotel_available_rooms hotel reservations))),
          w3)
    /\ no_write w2 w3.
Proof.
  intros Hload Hfind Hrooms updated Hback renamed.
  pose proof (find_hotel_id _ _ Hfind) as [Hin Hid].
  assert (U : update_hotel hotel_id (Some name) None None hotel = renamed).
  { unfold update_hotel, renamed. rewrite Hid, String.eqb_refl. reflexivity. }
  exists (saved updated customers reservations w1). eexists.
  split; [| split].
  - rewrite modify_hotel_loaded with (1 := Hload).
    rewrite rooms_in_order_true by exact Hrooms.
    assert (E : existsb (fun h => String.eqb (Hotel.hotel_id h) hotel_id)
                        hotels = true).
    { apply existsb_exists. exists hotel. split; [exact Hin |].
      apply String.eqb_eq, Hid. }
    rewrite E. reflexivity.
  - unfold hotel_info.
    rewrite (@bind_ok _ _ _ _ _ _ _ (load_all_saved _ Hback)).
    unfold updated at 1.
    rewrite find_updated
      by (intros x; rewrite update_hotel_keeps_id; reflexivity).
    rewrite Hfind. simpl. rewrite U.
    replace (_hotel_available_rooms renamed reservations)
      with (_hotel_available_rooms hotel reservations);
      [reflexivity |].
    rewrite !available_as_spec. unfold renamed. simpl. rewrite Hid.
    reflexivity.
  - apply no_write_logged. reflexivity.
Qed.

(** X25: a reservation record without a [status] loads as active.  With
    its other fields in order it is accepted, nothing logged, with status
    ['active']: its rooms count against the capacity of its hotel, and on
    a store that holds it [delete_hotel] and [delete_customer] on the
    hotel and the customer it references return [False] and write
    nothing. *)
Theorem reservation_without_status_is_active {L : PyLib}
        (fields : list (string * json)) (i h c r : json) (n : Z) :
  lookup "reservation_id" fields = Some i ->
  lookup "hotel_id" fields = Some h ->
  lookup "customer_id" fields = Some c ->
  lookup "rooms" fields = Some r ->
  py_int r = inr n ->
  lookup "status" fields = None ->
  let res := Reservation.mk (py_str i) (py_str h) (py_str c) n "active" in
  (forall w, Reservation.from_dict (JDict fields) w = (Ok (Some res), w))
  /\ (forall hotel before after,
        Hotel.hotel_id hotel = py_str h ->
        _hotel_available_rooms hotel (before ++ res :: after)
        = _hotel_available_rooms hotel (before ++ after) - n)
  /\ (forall w w1 hotels customers reservations,
        _load_all w = (Ok (hotels, customers, reservations), w1) ->
        In res reservations ->
        delete_hotel (py_str h) w
        = (Ok false, emit (EvLog (CannotDeleteHotel (py_str h))) w1)
        /\ delete_customer (py_str c) w
           = (Ok false, emit (EvLog (CannotDeleteCustomer (py_str c))) w1)).
Proof.
  intros Hi Hh Hc Hr Hn Hs res. split; [| split].
  - intros w.
    unfold Reservation.from_dict, Reservation.build, getitem, dict_get.
    rewrite Hi, Hh, Hc, Hr. simpl. rewrite Hn. simpl. rewrite Hs.
    reflexivity.
  - intros hotel before after Hid.
    rewrite !available_as_spec, !active_rooms_app. simpl.
    rewrite Hid. destruct (string_dec (py_str h) (py_str h));
      [lia | contradiction].
  - intros w w1 hotels customers reservations Hload Hin. split.
    + eapply delete_hotel_blocked; eauto.
    + eapply delete_customer_blocked; eauto.
Qed.

(** ** A reservation record with infinite rooms *)

Section InfiniteRooms.

Context {L : PyLib}.

Lemma collect_reservations_raises (before after : list json) (bad : json)
      (rs1 : list Reservation.t) (e : exn) :
  Forall2 (fun row r => Reservation.build row = inr r) before rs1 ->
  Reservation.build bad = inl e ->
  caught e = false ->
  forall acc w,
    collect Reservation.from_dict (before ++ bad :: after) acc w
    = (Raise e, w).
Proof.
  intros H1 Hbad Hc.
  induction H1 as [| row r before rs1 Hb _ IH]; intros acc w; simpl.
  - unfold bind, Reservation.from_dict. rewrite Hbad, Hc. reflexivity.
  - unfold bind at 1, Reservation.from_dict at 1. rewrite Hb. simpl.
    apply IH.
Qed.

Lemma reservation_build_infinite (fields : list (string * json))
      (i h c : json) (s : bool) :
  lookup "reservation_id" fields = Some i ->
  lookup "hotel_id" fields = Some h ->
  lookup "customer_id" fields = Some c ->
  lookup "rooms" fields = Some (JFloat (S754_infinity s)) ->
  Reservation.build (JDict fields) = inl OverflowError.
Proof.
  intros Hi Hh Hc Hr. unfold Reservation.build, getitem.
  rewrite Hi, Hh, Hc, Hr. reflexivity.
Qed.

Lemma load_all_raises_on_reservations (w wh wc : world)
      (hotels : list Hotel.t) (customers : list Customer.t)
      (text : string) (before after : list json) (bad : json)
      (rs1 : list Reservation.t) (e : exn) :
  load_hotels w = (Ok hotels, wh) ->
  load_customers wh = (Ok customers, wc) ->
  reservations_json w = Some text ->
  json_loads text = inr (JList (before ++ bad :: after)) ->
  Forall2 (fun row r => Reservation.build row = inr r) before rs1 ->
  Reservation.build bad = inl e ->
  caught e = false ->
  _load_all w
  = (Raise e, logged [EvExists K_reservations; EvRead K_reservations] wc).
Proof.
  intros Hh Hc Hf Hj H1 Hbad Hcaught.
  assert (Hf' : reservations_json wc = Some text).
  { pose proof (reads_only_load_hotels w) as [(_ & _ & A) _].
    pose proof (reads_only_load_customers wh) as [(_ & _ & B) _].
    rewrite Hh in A. rewrite Hc in B. simpl in A, B. congruence. }
  unfold _load_all.
  rewrite (@bind_ok _ _ _ _ _ _ _ Hh), (@bind_ok _ _ _ _ _ _ _ Hc).
  apply bind_raise. unfold load_reservations.
  rewrite (@bind_ok _ _ _ _ _ _ _
             (load_raw_rows K_reservations wc Hf' Hj)).
  apply collect_reservations_raises with (rs1 := rs1); assumption.
Qed.

End InfiniteRooms.

(** X26: one reservation record stops the services.  When the
    reservations file holds, after records in order, a record whose
    [rooms] is an infinite float ([Infinity], or a number as large as
    [1e999]), [_load_all] raises [OverflowError], and with it every
    service that starts by loading the three collections: they raise and
    write nothing, whatever their arguments.  [get_hotel] still answers
    from the hotels file. *)
Theorem infinite_rooms_record_stops_services {L : PyLib}
        (w wh wc : world) (hotels : list Hotel.t)
        (customers : list Customer.t) (text : string)
        (before after : list json) (fields : list (string * json))
        (rs1 : list Reservation.t) (i h c : json) (s : bool) :
  load_hotels w = (Ok hotels, wh) ->
  load_customers wh = (Ok customers, wc) ->
  reservations_json w = Some text ->
  json_loads text = inr (JList (before ++ JDict fields :: after)) ->
  Forall2 (fun row r => Reservation.build row = inr r) before rs1 ->
  lookup "reservation_id" fields = Some i ->
  lookup "hotel_id" fields = Some h ->
  lookup "customer_id" fields = Some c ->
  lookup "rooms" fields = Some (JFloat (S754_infinity s)) ->
  exists w',
    _load_all w = (Raise OverflowError, w')
    /\ no_write w w'
    /\ (forall name email uuid4,
          create_customer name email uuid4 w = (Raise OverflowError, w'))
    /\ (forall name city n uuid4,
          0 < n ->
          create_hotel name city n uuid4 w = (Raise OverflowError, w'))
    /\ (forall id, delete_hotel id w = (Raise OverflowError, w'))
    /\ (forall id, delete_customer id w = (Raise OverflowError, w'))
    /\ (forall id name city n,
          modify_hotel id name city n w = (Raise OverflowError, w'))
    /\ (forall id name email,
          modify_customer id name email w = (Raise OverflowError, w'))
    /\ (forall hotel_id customer_id n uuid4,
          0 < n ->
          create_reservation hotel_id customer_id n uuid4 w
          = (Raise OverflowError, w'))
    /\ (forall id, cancel_reservation id w = (Raise OverflowError, w'))
    /\ (forall id, hotel_info id w = (Raise OverflowError, w'))
    /\ (forall id,
          fst (get_hotel id w)
          = Ok (find (fun x => String.eqb (Hotel.hotel_id x) id) hotels)).
Proof.
  intros Hh Hc Hf Hj H1 Hi Hhid Hcid Hr.
  pose proof (@load_all_raises_on_reservations
                L w wh wc hotels customers text before after (JDict fields)
                rs1 OverflowError Hh Hc Hf Hj H1
                (@reservation_build_infinite L fields i h c s
                   Hi Hhid Hcid Hr)
                eq_refl)
    as E.
  eexists. split; [exact E |]. split.
  { eapply load_all_no_write. exact E. }
  repeat split; intros.
  - apply bind_raise. exact E.
  - unfold create_hotel. destruct (Z.leb_spec n 0); [lia |].
    apply bind_raise. exact E.
  - apply bind_raise. exact E.
  - apply bind_raise. exact E.
  - apply bind_raise. exact E.
  - apply bind_raise. exact E.
  - unfold create_reservation. destruct (Z.leb_spec n 0); [lia |].
    apply bind_raise. exact E.
  - apply bind_raise. exact E.
  - apply bind_raise. exact E.
  - unfold get_hotel. rewrite (@bind_ok _ _ _ _ _ _ _ Hh).
    rewrite get_hotel_loop_find. destruct (find _ hotels); reflexivity.
Qed.

(** * The further results on the example stores *)

Ltac by_running := vm_compute; reflexivity.

Ltac reads_back_by_running :=
  unfold store_reads_back, reads_back; repeat split; by_running.

Lemma load_all_after_save_all_witness :
  store_reads_back (L := RefPy.lib) [azure] [isaac] [booking "active" 2]
  /\ exists w1 w2,
       _save_all (L := RefPy.lib) [azure] [isaac] [booking "active" 2] nothing
       = (Ok tt, w1)
       /\ _load_all (L := RefPy.lib) w1
          = (Ok ([azure], [isaac], [booking "active" 2]), w2)
       /\ no_write w1 w2.
Proof.
  assert (H : store_reads_back (L := RefPy.lib)
                               [azure] [isaac] [booking "active" 2])
    by reads_back_by_running.
  split; [exact H |].
  exact (@load_all_after_save_all RefPy.lib _ _ _ nothing H).
Defined.

Lemma create_reservation_never_overbooks_witness :
  let w := store_of [azure] [isaac] [booking "active" 2] in
  let res := Reservation.mk "r-2" "h-1" "c-1" 3 "active" in
  let w' :=
    saved (L := RefPy.lib) [azure] [isaac] [booking "active" 2; res]
          (logged loading w) in
  create_reservation (L := RefPy.lib) "h-1" "c-1" 3 "r-2" w
  = (Ok (Some res), w')
  /\ exists hotels reservations hotel,
       In hotel hotels
       /\ 0 < 3 <= _hotel_available_rooms hotel reservations
       /\ 0 <= _hotel_available_rooms hotel (reservations ++ [res]).
Proof.
  intros w res w'.
  assert (H : create_reservation (L := RefPy.lib) "h-1" "c-1" 3 "r-2" w
              = (Ok (Some res), w'))
    by by_running.
  split; [exact H |].
  destruct (@create_reservation_never_overbooks
              RefPy.lib "h-1" "c-1" "r-2" 3 w w' res H)
    as (hs & cs & rs & w1 & hotel & customer
        & _ & A & _ & _ & _ & B & _ & _ & _ & C & _).
  exists hs, rs, hotel. repeat split; try assumption; apply B.
Defined.

Lemma create_reservation_unknown_reference_witness :
  let w := store_of [azure] [isaac] [] in
  let w1 := logged loading w in
  _load_all (L := RefPy.lib) w = (Ok ([azure], [isaac], []), w1)
  /\ 0 < 1
  /\ create_reservation (L := RefPy.lib) "no-such-id" "c-1" 1 "r-1" w
     = (Ok None, emit (EvLog (HotelNotFound "no-such-id")) w1)
  /\ create_reservation (L := RefPy.lib) "h-1" "no-such-id" 1 "r-1" w
     = (Ok None, emit (EvLog (CustomerNotFound "no-such-id")) w1).
Proof.
  intros w w1.
  assert (Hl : _load_all (L := RefPy.lib) w = (Ok ([azure], [isaac], []), w1))
    by by_running.
  assert (Hpos : 0 < 1) by lia.
  split; [exact Hl |]. split; [exact Hpos |]. split.
  - refine (proj1 (@create_reservation_unknown_reference
                     RefPy.lib w w1 _ _ _ "no-such-id" "c-1" "r-1" 1
                     Hl Hpos) _).
    intros h [<- | []]. discriminate.
  - refine (proj1 (proj2 (@create_reservation_unknown_reference
                            RefPy.lib w w1 _ _ _ "h-1" "no-such-id" "r-1" 1
                            Hl Hpos))
                  azure (or_introl eq_refl) eq_refl _).
    intros c [<- | []]. discriminate.
Defined.

Lemma cancel_reservation_not_found_witness :
  let w := store_of [azure] [isaac] [booking "active" 2] in
  let w1 := logged loading w in
  _load_all (L := RefPy.lib) w
  = (Ok ([azure], [isaac], [booking "active" 2]), w1)
  /\ cancel_reservation (L := RefPy.lib) "no-such-id" w
     = (Ok false, emit (EvLog (ReservationNotFound "no-such-id")) w1).
Proof.
  intros w w1.
  assert (Hl : _load_all (L := RefPy.lib) w
               = (Ok ([azure], [isaac], [booking "active" 2]), w1))
    by by_running.
  split; [exact Hl |].
  refine (proj1 (@cancel_reservation_not_found
                   RefPy.lib w w1 _ _ _ "no-such-id" Hl _)).
  intros r [<- | []]. discriminate.
Defined.

Lemma cancel_active_frees_rooms_witness :
  let w := store_of [azure] [isaac] [booking "active" 2; stay "active" 1] in
  let w1 := logged loading w in
  _load_all (L := RefPy.lib) w
  = (Ok ([azure], [isaac], [] ++ booking "active" 2 :: [stay "active" 1]), w1)
  /\ cancel_reservation (L := RefPy.lib) "r-1" w
     = (Ok true,
        saved (L := RefPy.lib) [azure] [isaac]
              [booking "cancelled" 2; stay "active" 1] w1)
  /\ _hotel_available_rooms azure [booking "cancelled" 2; stay "active" 1]
     = _hotel_available_rooms azure [booking "active" 2; stay "active" 1] + 2.
Proof.
  intros w w1.
  assert (Hl : _load_all (L := RefPy.lib) w
               = (Ok ([azure], [isaac],
                      [] ++ booking "active" 2 :: [stay "active" 1]), w1))
    by by_running.
  assert (U : forall x, In x ([] ++ [stay "active" 1]) ->
                        Reservation.reservation_id x
                        <> Reservation.reservation_id (booking "active" 2)).
  { intros x [<- | []]. discriminate. }
  destruct (@cancel_active_frees_rooms
              RefPy.lib w w1 _ _ [] [stay "active" 1] (booking "active" 2)
              Hl eq_refl U)
    as [A B].
  split; [exact Hl |]. split; [exact A |]. exact (B azure).
Defined.

Lemma cancel_twice_same_store_witness :
  let w := store_of [azure] [isaac] [booking "active" 2] in
  let w1 := logged loading w in
  _load_all (L := RefPy.lib) w
  = (Ok ([azure], [isaac], [booking "active" 2]), w1)
  /\ store_reads_back (L := RefPy.lib) [azure] [isaac]
                      (map (cancel_one "r-1") [booking "active" 2])
  /\ exists w2 w3,
       cancel_reservation (L := RefPy.lib) "r-1" w = (Ok true, w2)
       /\ cancel_reservation (L := RefPy.lib) "r-1" w2 = (Ok true, w3)
       /\ same_files w2 w3.
Proof.
  intros w w1.
  assert (Hl : _load_all (L := RefPy.lib) w
               = (Ok ([azure], [isaac], [booking "active" 2]), w1))
    by by_running.
  assert (Hb : store_reads_back (L := RefPy.lib) [azure] [isaac]
                 (map (cancel_one "r-1") [booking "active" 2]))
    by reads_back_by_running.
  split; [exact Hl |]. split; [exact Hb |].
  exact (@cancel_twice_same_store
           RefPy.lib w w1 _ _ _ (booking "active" 2)
           Hl (or_introl eq_refl) Hb).
Defined.

Lemma modify_hotel_updates_in_place_witness :
  let w := store_of [azure; sol] [isaac] [] in
  let w1 := logged loading w in
  let renamed := Hotel.mk "h-1" "Azure Suites" "Monterrey" 5 in
  _load_all (L := RefPy.lib) w = (Ok ([azure; sol], [isaac], []), w1)
  /\ In azure [azure; sol]
  /\ modify_hotel (L := RefPy.lib) "h-1" (Some "  Azure Suites ") None None w
     = (Ok true, saved (L := RefPy.lib) [renamed; sol] [isaac] [] w1).
Proof.
  intros w w1 renamed.
  assert (Hl : _load_all (L := RefPy.lib) w
               = (Ok ([azure; sol], [isaac], []), w1))
    by by_running.
  assert (Hr : forall h, In h [azure; sol] -> Hotel.hotel_id h = "h-1" ->
                         0 < rooms_after None h).
  { intros h [<- | [<- | []]] _; reflexivity. }
  split; [exact Hl |]. split; [left; reflexivity |].
  exact (proj1 (@modify_hotel_updates_in_place
                  RefPy.lib w w1 _ _ _ "h-1" (Some "  Azure Suites ")
                  None None azure Hl (or_introl eq_refl) eq_refl Hr)).
Defined.

Lemma modify_hotel_refused_witness :
  let w := store_of [azure] [isaac] [] in
  let w1 := logged loading w in
  _load_all (L := RefPy.lib) w = (Ok ([azure], [isaac], []), w1)
  /\ modify_hotel (L := RefPy.lib) "no-such-id" None None (Some (-1)) w
     = (Ok false, emit (EvLog (HotelNotFound "no-such-id")) w1)
  /\ modify_hotel (L := RefPy.lib) "h-1" (Some "Sol") None (Some 0) w
     = (Ok false, emit (EvLog TotalRoomsMustBePositive) w1).
Proof.
  intros w w1.
  assert (Hl : _load_all (L := RefPy.lib) w = (Ok ([azure], [isaac], []), w1))
    by by_running.
  split; [exact Hl |]. split.
  - refine (proj1 (@modify_hotel_refused
                     RefPy.lib w w1 _ _ _ "no-such-id" None None (Some (-1))
                     Hl) _).
    intros h [<- | []]. discriminate.
  - refine (proj1 (proj2 (@modify_hotel_refused
                            RefPy.lib w w1 _ _ _ "h-1" (Some "Sol") None
                            (Some 0) Hl))
                  azure (or_introl eq_refl) eq_refl _).
    simpl. lia.
Defined.

Lemma modify_hotel_can_overcommit_witness :
  let w := store_of [azure] [isaac] [booking "active" 4] in
  let w1 := logged loading w in
  let shrunk := Hotel.mk "h-1" "Azure Inn" "Monterrey" 1 in
  _load_all (L := RefPy.lib) w
  = (Ok ([azure], [isaac], [booking "active" 4]), w1)
  /\ 0 < 1 < active_rooms "h-1" [booking "active" 4]
  /\ store_reads_back (L := RefPy.lib) [shrunk] [isaac] [booking "active" 4]
  /\ exists w2,
       modify_hotel (L := RefPy.lib) "h-1" None None (Some 1) w = (Ok true, w2)
       /\ _hotel_available_rooms shrunk [booking "active" 4] < 0
       /\ fst (create_reservation (L := RefPy.lib) "h-1" "c-1" 1 "r-2" w2)
          = Ok None.
Proof.
  intros w w1 shrunk.
  assert (Hl : _load_all (L := RefPy.lib) w
               = (Ok ([azure], [isaac], [booking "active" 4]), w1))
    by by_running.
  assert (Hn : 0 < 1 < active_rooms "h-1" [booking "active" 4])
    by (vm_compute; split; reflexivity).
  assert (Hb : store_reads_back (L := RefPy.lib)
                 [shrunk] [isaac] [booking "active" 4])
    by reads_back_by_running.
  destruct (@modify_hotel_can_overcommit
              RefPy.lib w w1 _ _ _ "h-1" 1 azure Hl eq_refl Hn Hb)
    as (w2 & A & B & C).
  split; [exact Hl |]. split; [exact Hn |]. split; [exact Hb |].
  exists w2. split; [exact A |]. split; [exact B |].
  destruct (C "c-1" 1 "r-2") as (w3 & D & _).
  rewrite D. reflexivity.
Defined.

Lemma modify_customer_updates_in_place_witness :
  let w := store_of [azure] [isaac; ana] [] in
  let w1 := logged loading w in
  let moved := Customer.mk "c-1" "Isaac Reyes" "new@mail.com" in
  _load_all (L := RefPy.lib) w = (Ok ([azure], [isaac; ana], []), w1)
  /\ modify_customer (L := RefPy.lib) "c-1" None (Some "new@mail.com ") w
     = (Ok true, saved (L := RefPy.lib) [azure] [moved; ana] [] w1)
  /\ modify_customer (L := RefPy.lib) "no-such-id" None None w
     = (Ok false, emit (EvLog (CustomerNotFound "no-such-id")) w1).
Proof.
  intros w w1 moved.
  assert (Hl : _load_all (L := RefPy.lib) w
               = (Ok ([azure], [isaac; ana], []), w1))
    by by_running.
  split; [exact Hl |]. split.
  - exact (proj1 (proj2 (@modify_customer_updates_in_place
                           RefPy.lib w w1 _ _ _ "c-1" None
                           (Some "new@mail.com ") Hl))
                 isaac (or_introl eq_refl) eq_refl).
  - refine (proj1 (@modify_customer_updates_in_place
                     RefPy.lib w w1 _ _ _ "no-such-id" None None Hl) _).
    intros c [<- | [<- | []]]; discriminate.
Defined.

Lemma new_hotel_fills_up_witness :
  let w := store_of [azure] [isaac] [booking "active" 2] in
  let w1 := logged loading w in
  let res := Reservation.mk "r-2" "h-2" "c-1" 3 "active" in
  _load_all (L := RefPy.lib) w
  = (Ok ([azure], [isaac], [booking "active" 2]), w1)
  /\ 0 < 3
  /\ store_reads_back (L := RefPy.lib) [azure; sol] [isaac]
                      [booking "active" 2]
  /\ store_reads_back (L := RefPy.lib) [azure; sol] [isaac]
                      [booking "active" 2; res]
  /\ exists w2 w3 w4,
       create_hotel (L := RefPy.lib) " Sol" "Puebla " 3 "h-2" w = (Ok sol, w2)
       /\ create_reservation (L := RefPy.lib) "h-2" "c-1" 3 "r-2" w2
          = (Ok (Some res), w3)
       /\ create_reservation (L := RefPy.lib) "h-2" "c-1" 1 "r-3" w3
          = (Ok None, w4)
       /\ no_write w3 w4.
Proof.
  intros w w1 res.
  assert (Hl : _load_all (L := RefPy.lib) w
               = (Ok ([azure], [isaac], [booking "active" 2]), w1))
    by by_running.
  assert (Hpos : 0 < 3) by lia.
  assert (Hb1 : store_reads_back (L := RefPy.lib) [azure; sol] [isaac]
                                 [booking "active" 2])
    by reads_back_by_running.
  assert (Hb2 : store_reads_back (L := RefPy.lib) [azure; sol] [isaac]
                                 [booking "active" 2; res])
    by reads_back_by_running.
  assert (Hf : forall h, In h [azure] -> Hotel.hotel_id h <> "h-2").
  { intros h [<- | []]. discriminate. }
  assert (Hu : forall r, In r [booking "active" 2] ->
                         Reservation.hotel_id r <> "h-2").
  { intros r [<- | []]. discriminate. }
  split; [exact Hl |]. split; [exact Hpos |].
  split; [exact Hb1 |]. split; [exact Hb2 |].
  exact (@new_hotel_fills_up
           RefPy.lib w w1 _ _ _ " Sol" "Puebla " "h-2" "c-1" "r-2" "r-3" 3
           isaac Hl Hpos Hf Hu eq_refl Hb1 Hb2).
Defined.

Lemma deleted_hotel_is_gone_witness :
  let w := store_of [azure; sol] [isaac] [stay "cancelled" 1] in
  let w1 := logged loading w in
  _load_all (L := RefPy.lib) w
  = (Ok ([azure; sol], [isaac], [stay "cancelled" 1]), w1)
  /\ In sol [azure; sol]
  /\ store_reads_back (L := RefPy.lib) [azure] [isaac] [stay "cancelled" 1]
  /\ exists w2,
       delete_hotel (L := RefPy.lib) "h-2" w = (Ok true, w2)
       /\ fst (get_hotel (L := RefPy.lib) "h-2" w2) = Ok None
       /\ fst (delete_hotel (L := RefPy.lib) "h-2" w2) = Ok false.
Proof.
  intros w w1.
  assert (Hl : _load_all (L := RefPy.lib) w
               = (Ok ([azure; sol], [isaac], [stay "cancelled" 1]), w1))
    by by_running.
  assert (Hin : In sol [azure; sol]) by (right; left; reflexivity).
  assert (Hfree : forall r, In r [stay "cancelled" 1] ->
                            Reservation.hotel_id r = Hotel.hotel_id sol ->
                            Reservation.status r <> "active").
  { intros r [<- | []] _. discriminate. }
  assert (Hb : store_reads_back (L := RefPy.lib)
                 [azure] [isaac] [stay "cancelled" 1])
    by reads_back_by_running.
  destruct (@deleted_hotel_is_gone
              RefPy.lib w w1 _ _ _ sol Hl Hin Hfree Hb)
    as (w2 & A & (w3 & B & _) & _ & (w4 & C & _)).
  split; [exact Hl |]. split; [exact Hin |]. split; [exact Hb |].
  exists w2. split; [exact A |]. split.
  - exact (f_equal fst B).
  - exact (f_equal fst C).
Defined.

Lemma getters_return_first_match_witness :
  let w := store_of [azure; sol] [isaac; ana] [] in
  let wh := logged [EvExists K_hotels; EvRead K_hotels] w in
  let wc := logged [EvExists K_customers; EvRead K_customers] w in
  load_hotels (L := RefPy.lib) w = (Ok [azure; sol], wh)
  /\ load_customers (L := RefPy.lib) w = (Ok [isaac; ana], wc)
  /\ get_hotel (L := RefPy.lib) "h-2" w = (Ok (Some sol), wh)
  /\ get_customer (L := RefPy.lib) "c-2" w = (Ok (Some ana), wc)
  /\ customer_info (L := RefPy.lib) "c-2" w
     = (Ok (Some "Customer 'Ana' <ana@example.com>"), wc).
Proof.
  intros w wh wc.
  assert (Hh : load_hotels (L := RefPy.lib) w = (Ok [azure; sol], wh))
    by by_running.
  assert (Hc : load_customers (L := RefPy.lib) w = (Ok [isaac; ana], wc))
    by by_running.
  destruct (@getters_return_first_match
              RefPy.lib w wh wc [azure; sol] [isaac; ana] "h-2" Hh Hc)
    as (A & _).
  destruct (@getters_return_first_match
              RefPy.lib w wh wc [azure; sol] [isaac; ana] "c-2" Hh Hc)
    as (_ & B & _).
  assert (F1 : forall x, In x [azure] -> Hotel.hotel_id x <> "h-2").
  { intros x [<- | []]. discriminate. }
  assert (F2 : forall x, In x [isaac] -> Customer.customer_id x <> "c-2").
  { intros x [<- | []]. discriminate. }
  split; [exact Hh |]. split; [exact Hc |]. split.
  - exact (A [azure] sol [] eq_refl eq_refl F1).
  - exact (B [isaac] ana [] eq_refl eq_refl F2).
Defined.

Lemma hotel_info_after_reservation_witness :
  let w := store_of [azure] [isaac] [] in
  let w1 := logged loading w in
  let res := Reservation.mk "r-1" "h-1" "c-1" 2 "active" in
  _load_all (L := RefPy.lib) w = (Ok ([azure], [isaac], []), w1)
  /\ 0 < 2 <= _hotel_available_rooms azure []
  /\ store_reads_back (L := RefPy.lib) [azure] [isaac] [res]
  /\ exists w2 w3,
       create_reservation (L := RefPy.lib) "h-1" "c-1" 2 "r-1" w
       = (Ok (Some res), w2)
       /\ hotel_info (L := RefPy.lib) "h-1" w2
          = (Ok (Some (hotel_summary azure 3)), w3)
       /\ hotel_summary azure 3
          = String.append "Hotel 'Azure Inn' in Monterrey "
              (String.append ReservationSystem.em_dash
                             " total: 5, available: 3").
Proof.
  intros w w1 res.
  assert (Hl : _load_all (L := RefPy.lib) w = (Ok ([azure], [isaac], []), w1))
    by by_running.
  assert (Hr : 0 < 2 <= _hotel_available_rooms azure [])
    by (vm_compute; split; discriminate || reflexivity).
  assert (Hb : store_reads_back (L := RefPy.lib) [azure] [isaac] [res])
    by reads_back_by_running.
  destruct (@hotel_info_after_reservation
              RefPy.lib w w1 _ _ _ "h-1" "c-1" "r-1" 2 azure isaac
              Hl eq_refl eq_refl Hr Hb)
    as (w2 & w3 & A & B & _).
  split; [exact Hl |]. split; [exact Hr |]. split; [exact Hb |].
  exists w2, w3. split; [exact A |]. split; [exact B | reflexivity].
Defined.

Lemma unusable_hotels_file_is_replaced_witness :
  let w := mkWorld (Some "{ invalid json") None None [] in
  let c := Customer.mk "c-1" "Isaac Reyes" "isaac@example.com" in
  unusable (L := RefPy.lib) K_hotels w
  /\ fst (create_customer (L := RefPy.lib)
                          "Isaac Reyes" "isaac@example.com" "c-1" w)
     = Ok c
  /\ hotels_json
       (snd (create_customer (L := RefPy.lib)
                             "Isaac Reyes" "isaac@example.com" "c-1" w))
     = Some "[]".
Proof.
  intros w c.
  assert (U : unusable (L := RefPy.lib) K_hotels w).
  { apply file_garbled with (text := "{ invalid json")
                            (lineno := 1%nat) (colno := 3%nat);
      reflexivity. }
  assert (E : create_customer (L := RefPy.lib)
                              "Isaac Reyes" "isaac@example.com" "c-1" w
              = (Ok c,
                 snd (create_customer (L := RefPy.lib)
                        "Isaac Reyes" "isaac@example.com" "c-1" w)))
    by by_running.
  split; [exact U |]. split; [exact (f_equal fst E) |].
  exact (proj1 (@unusable_hotels_file_is_replaced
                  RefPy.lib "Isaac Reyes" "isaac@example.com" "c-1"
                  w _ c U E)).
Defined.

Lemma delete_unknown_is_refused_witness :
  let w := store_of [azure] [isaac] [booking "active" 2] in
  let w1 := logged loading w in
  _load_all (L := RefPy.lib) w
  = (Ok ([azure], [isaac], [booking "active" 2]), w1)
  /\ delete_hotel (L := RefPy.lib) "no-such-id" w
     = (Ok false, emit (EvLog (HotelNotFound "no-such-id")) w1)
  /\ delete_customer (L := RefPy.lib) "no-such-id" w
     = (Ok false, emit (EvLog (CustomerNotFound "no-such-id")) w1).
Proof.
  intros w w1.
  assert (Hl : _load_all (L := RefPy.lib) w
               = (Ok ([azure], [isaac], [booking "active" 2]), w1))
    by by_running.
  destruct (@delete_unknown_is_refused RefPy.lib w w1 _ _ _ "no-such-id" Hl)
    as (A & B & _).
  split; [exact Hl |]. split.
  - apply A.
    + intros h [<- | []]. discriminate.
    + intros r [<- | []] E. discriminate E.
  - apply B.
    + intros c [<- | []]. discriminate.
    + intros r [<- | []] E. discriminate E.
Defined.

Lemma created_customer_is_found_witness :
  let w := store_of [azure] [isaac] [] in
  let w1 := logged loading w in
  _load_all (L := RefPy.lib) w = (Ok ([azure], [isaac], []), w1)
  /\ store_reads_back (L := RefPy.lib) [azure] [isaac; ana] []
  /\ exists w2 w3,
       create_customer (L := RefPy.lib) " Ana " "ana@example.com" "c-2" w
       = (Ok ana, w2)
       /\ get_customer (L := RefPy.lib) "c-2" w2 = (Ok (Some ana), w3)
       /\ customer_info (L := RefPy.lib) "c-2" w2
          = (Ok (Some "Customer 'Ana' <ana@example.com>"), w3).
Proof.
  intros w w1.
  assert (Hl : _load_all (L := RefPy.lib) w = (Ok ([azure], [isaac], []), w1))
    by by_running.
  assert (Hb : store_reads_back (L := RefPy.lib) [azure] [isaac; ana] [])
    by reads_back_by_running.
  assert (Hf : forall c, In c [isaac] -> Customer.customer_id c <> "c-2").
  { intros c [<- | []]. discriminate. }
  destruct (@created_customer_is_found
              RefPy.lib w w1 _ _ _ " Ana " "ana@example.com" "c-2" Hl Hf Hb)
    as (w2 & w3 & A & _ & B & C).
  split; [exact Hl |]. split; [exact Hb |].
  exists w2, w3. split; [exact A |]. split; [exact B | exact C].
Defined.

Lemma renamed_hotel_is_shown_witness :
  let w := store_of [azure] [isaac] [booking "active" 2] in
  let w1 := logged loading w in
  let renamed := Hotel.mk "h-1" "Azure Suites" "Monterrey" 5 in
  _load_all (L := RefPy.lib) w
  = (Ok ([azure], [isaac], [booking "active" 2]), w1)
  /\ store_reads_back (L := RefPy.lib) [renamed] [isaac] [booking "active" 2]
  /\ exists w2 w3,
       modify_hotel (L := RefPy.lib) "h-1" (Some "Azure Suites") None None w
       = (Ok true, w2)
       /\ hotel_info (L := RefPy.lib) "h-1" w2
          = (Ok (Some (hotel_summary renamed 3)), w3).
Proof.
  intros w w1 renamed.
  assert (Hl : _load_all (L := RefPy.lib) w
               = (Ok ([azure], [isaac], [booking "active" 2]), w1))
    by by_running.
  assert (Hb : store_reads_back (L := RefPy.lib)
                 [renamed] [isaac] [booking "active" 2])
    by reads_back_by_running.
  assert (Hr : forall h, In h [azure] -> Hotel.hotel_id h = "h-1" ->
                         0 < Hotel.total_rooms h).
  { intros h [<- | []] _. reflexivity. }
  destruct (@renamed_hotel_is_shown
              RefPy.lib w w1 _ _ _ "h-1" "Azure Suites" azure
              Hl eq_refl Hr Hb)
    as (w2 & w3 & A & B & _).
  split; [exact Hl |]. split; [exact Hb |].
  exists w2, w3. split; [exact A | exact B].
Defined.

Lemma reservation_without_status_is_active_witness :
  let w := store_of [azure] [isaac] [booking "active" 2] in
  let w1 := logged loading w in
  lookup "status" plain_record = None
  /\ (forall w0, Reservation.from_dict (L := RefPy.lib) (JDict plain_record) w0
                 = (Ok (Some (booking "active" 2)), w0))
  /\ _hotel_available_rooms azure [booking "active" 2] = 5 - 2
  /\ delete_hotel (L := RefPy.lib) "h-1" w
     = (Ok false, emit (EvLog (CannotDeleteHotel "h-1")) w1).
Proof.
  intros w w1.
  assert (Hl : _load_all (L := RefPy.lib) w
               = (Ok ([azure], [isaac], [booking "active" 2]), w1))
    by by_running.
  destruct (@reservation_without_status_is_active
              RefPy.lib plain_record (JStr "r-1") (JStr "h-1") (JStr "c-1")
              (JInt 2) 2 eq_refl eq_refl eq_refl eq_refl eq_refl eq_refl)
    as (A & B & C).
  split; [reflexivity |]. split; [exact A |]. split.
  - exact (B azure [] [] eq_refl).
  - exact (proj1 (C w w1 _ _ _ Hl (or_introl eq_refl))).
Defined.

Lemma infinite_rooms_record_stops_services_witness :
  let w := endless_store in
  let wh := logged [EvExists K_hotels; EvRead K_hotels] w in
  let wc := logged [EvExists K_customers; EvRead K_customers] wh in
  load_hotels (L := RefPy.lib) w = (Ok [azure], wh)
  /\ load_customers (L := RefPy.lib) wh = (Ok [isaac], wc)
  /\ RefPy.loads
       (RefPy.dumps (JList [Reservation.to_dict (booking "active" 2);
                            JDict endless_record]))
     = inr (JList ([Reservation.to_dict (booking "active" 2)]
                   ++ JDict endless_record :: []))
  /\ exists w',
       _load_all (L := RefPy.lib) w = (Raise OverflowError, w')
       /\ create_customer (L := RefPy.lib) "Ana" "ana@example.com" "c-2" w
          = (Raise OverflowError, w')
       /\ cancel_reservation (L := RefPy.lib) "r-1" w
          = (Raise OverflowError, w')
       /\ fst (get_hotel (L := RefPy.lib) "h-1" w) = Ok (Some azure).
Proof.
  intros w wh wc.
  assert (Hh : load_hotels (L := RefPy.lib) w = (Ok [azure], wh))
    by by_running.
  assert (Hc : load_customers (L := RefPy.lib) wh = (Ok [isaac], wc))
    by by_running.
  assert (Hj : RefPy.loads
                 (RefPy.dumps (JList [Reservation.to_dict (booking "active" 2);
                                      JDict endless_record]))
               = inr (JList ([Reservation.to_dict (booking "active" 2)]
                             ++ JDict endless_record :: [])))
    by by_running.
  assert (H1 : Forall2 (fun row r => Reservation.build (L := RefPy.lib) row
                                     = inr r)
                       [Reservation.to_dict (booking "active" 2)]
                       [booking "active" 2]).
  { constructor; [reflexivity | constructor]. }
  destruct (@infinite_rooms_record_stops_services
              RefPy.lib w wh wc [azure] [isaac] _
              [Reservation.to_dict (booking "active" 2)] [] endless_record
              [booking "active" 2] (JStr "r-9") (JStr "h-1") (JStr "c-1") false
              Hh Hc eq_refl Hj H1 eq_refl eq_refl eq_refl eq_refl)
    as (w' & A & _ & B & _ & _ & _ & _ & _ & _ & C & _ & D).
  split; [exact Hh |]. split; [exact Hc |]. split; [exact Hj |].
  exists w'. split; [exact A |]. split; [apply B |]. split; [apply C |].
  exact (D "h-1").
Defined.
